(** * FFmpegFile: the frame-accurate random-access video reader

    A shallow embedding of [FFmpeg/FFmpegFile.cpp] (the reader behind the
    OFX ffmpegReader plugin) and the properties of it that the reader's
    specification states.

    The libav library is the environment of the reader.  Its calls are
    taken through the interface [Libav] over an abstract world; the
    finite-container instance [FileWorld] is used where termination is
    proved and where concrete runs are evaluated.  FFmpegFile.h is not
    part of the sources at hand: what FFmpegFile.cpp takes from it is
    modelled from the specification and marked as such.

    The embedding comes first (data, scaler cache, stream metadata, open
    path, accessors, colour space, decode), then the notions the
    properties are stated with and the scenarios they are evaluated on,
    then the rest of the reader (image file names, error state) with
    the notions and scenarios of its properties.  The properties
    follow: those the specification states, claim by claim (C1 to C10),
    then further properties of the code (X1 onwards). *)

From Stdlib Require Import ZArith List String Ascii Bool Lia Arith.
From Stdlib Require Import Relations Wellfounded.
Import ListNotations.
Open Scope string_scope.
Open Scope Z_scope.

Set Implicit Arguments.

(* ===================================================================== *)
(** ** Machine integers *)
(* ===================================================================== *)

(** Two's-complement value of [z] seen through a signed [w]-bit integer. *)
Definition wrap (w : Z) (z : Z) : Z :=
  (z + 2 ^ (w - 1)) mod 2 ^ w - 2 ^ (w - 1).

(** [(int)x]: conversion to a 32-bit [int]. *)
Definition to_int (z : Z) : Z := wrap 32 z.

(** Arithmetic carried out in [int64_t]. *)
Definition to_int64 (z : Z) : Z := wrap 64 z.

Definition INT_MIN : Z := - 2 ^ 31.
Definition INT_MAX : Z := 2 ^ 31 - 1.

Definition in_int (z : Z) : Prop := INT_MIN <= z <= INT_MAX.
Definition in_int64 (z : Z) : Prop := - 2 ^ 63 <= z <= 2 ^ 63 - 1.

(* ===================================================================== *)
(** ** The libav data the reader looks at *)
(* ===================================================================== *)

Module Av.

(** [AV_NOPTS_VALUE], [INT64_C(0x8000000000000000)]. *)
Definition AV_NOPTS_VALUE : Z := - 2 ^ 63.

(** [AV_TIME_BASE]: container durations are in microseconds. *)
Definition AV_TIME_BASE : Z := 1000000.

(** [AVERROR_EOF] is [FFERRTAG('E','O','F',' ')]. *)
Definition AVERROR_EOF : Z := - (69 + 79 * 2 ^ 8 + 70 * 2 ^ 16 + 32 * 2 ^ 24).

Record AVRational : Type := { num : Z; den : Z }.

(** The fields of an [AVPacket] that [decode] reads. *)
Record AVPacket : Type := {
  stream_index : Z;
  pts : Z;
  dts : Z
}.

(** The packet left by [av_init_packet] / [av_free_packet]. *)
Definition empty_packet : AVPacket :=
  {| stream_index := 0; pts := AV_NOPTS_VALUE; dts := AV_NOPTS_VALUE |}.

Inductive AVPixelFormat : Type :=
| AV_PIX_FMT_YUV420P | AV_PIX_FMT_YUV422P | AV_PIX_FMT_YUV444P | AV_PIX_FMT_YUV440P
| AV_PIX_FMT_YUVJ420P | AV_PIX_FMT_YUVJ422P | AV_PIX_FMT_YUVJ444P | AV_PIX_FMT_YUVJ440P
| AV_PIX_FMT_RGB24 | AV_PIX_FMT_RGBA | AV_PIX_FMT_RGB48LE | AV_PIX_FMT_RGBA64LE
| AV_PIX_FMT_OTHER (id : Z).

Inductive AVColorRange : Type :=
| AVCOL_RANGE_UNSPECIFIED | AVCOL_RANGE_MPEG | AVCOL_RANGE_JPEG
| AVCOL_RANGE_OTHER (id : Z).

(** libswscale colour spaces used by the reader. *)
Inductive SwsColorspace : Type := SWS_CS_ITU709 | SWS_CS_ITU601 | SWS_CS_DEFAULT.

Definition SWS_BICUBIC : Z := 4.

(** What [sws_setColorspaceDetails] is asked to configure. *)
Record ColorspaceDetails : Type := {
  inv_table : SwsColorspace;
  srcRange : Z;
  table : SwsColorspace;
  dstRange : Z;
  brightness : Z;
  contrast : Z;
  saturation : Z
}.

(** A scaler context, described by the request that built it and the
    colour details last configured on it. *)
Record SwsContext : Type := {
  sws_srcW : Z; sws_srcH : Z; sws_srcFormat : AVPixelFormat;
  sws_dstW : Z; sws_dstH : Z; sws_dstFormat : AVPixelFormat;
  sws_flags : Z;
  sws_details : option ColorspaceDetails
}.

(** The fields of [AVStream] the reader reads while opening. *)
Record AVStream : Type := {
  start_time : Z;
  nb_frames : Z;
  duration : Z;
  time_base : AVRational;
  r_frame_rate : AVRational
}.

End Av.
Import Av.

(** The calls the reader makes into libav, over a world [W] that stands
    for the container position, the decoder and everything else the
    library keeps.  Every call returns what the C call returns together
    with the world after it. *)
Record Libav (W : Type) : Type := {
  (** [av_read_frame]: the error code and the packet read. *)
  av_read_frame : W -> (Z * AVPacket) * W;
  (** [avcodec_flush_buffers]. *)
  avcodec_flush_buffers : W -> W;
  (** [av_seek_frame (ctx, idx, timestamp, AVSEEK_FLAG_BACKWARD)]: the error code. *)
  av_seek_frame : Z -> Z -> W -> Z * W;
  (** [avcodec_decode_video2]: the error code and [frameDecoded]; the
      packet is [None] when the freed (empty) packet is passed to drain. *)
  avcodec_decode_video2 : option AVPacket -> W -> (Z * bool) * W;
  (** [_codecContext->color_range] as the decoder currently reports it. *)
  color_range : W -> AVColorRange;
  (** Modelled from the spec: [Stream::getCodecDelay] is declared in
      FFmpegFile.h; it is the codec's currently reported decoder delay. *)
  getCodecDelay : W -> Z;
  (** [sws_getContext]: whether the library delivers a context. *)
  sws_getContext_ok : W -> bool;
  (** [sws_setColorspaceDetails]: its return code. *)
  sws_setColorspaceDetails_code : W -> Z;
  (** [sws_scale] into the output buffer. *)
  sws_scale : SwsContext -> W -> W;
  (** [av_strerror]. *)
  av_strerror : Z -> string
}.

(* ===================================================================== *)
(** ** Stream descriptor *)
(* ===================================================================== *)

(** [_timestampField] is a pointer to member, [&AVPacket::pts] or
    [&AVPacket::dts]. *)
Inductive TimestampField : Type := FieldPts | FieldDts.

Definition timestamp_of (f : TimestampField) (p : AVPacket) : Z :=
  match f with
  | FieldPts => pts p
  | FieldDts => dts p
  end.

Definition is_pts (f : TimestampField) : bool :=
  match f with FieldPts => true | FieldDts => false end.

(** [FFmpegFile::Stream].  The struct itself is declared in FFmpegFile.h;
    the fields are the ones FFmpegFile.cpp reads and writes.  [_isYUV] and
    [_isRec709Format] stand for the results of [isYUV()] and
    [isRec709Format()], [_pix_fmt] for [_codecContext->pix_fmt] and
    [_time_base] for [_avstream->time_base]. *)
Record Stream : Type := {
  _idx : Z;
  _time_base : AVRational;
  _pix_fmt : AVPixelFormat;
  _isYUV : bool;
  _isRec709Format : bool;
  _fpsNum : Z;
  _fpsDen : Z;
  _startPTS : Z;
  _frames : Z;
  _bitDepth : Z;
  _numberOfComponents : Z;
  _outputPixelFormat : AVPixelFormat;
  _width : Z;
  _height : Z;
  _decodeNextFrameIn : Z;
  _decodeNextFrameOut : Z;
  _accumDecodeLatency : Z;
  _timestampField : TimestampField;
  _ptsSeen : bool;
  _resetConvertCtx : bool;
  _colorMatrixTypeOverride : Z;
  _convertCtx : option SwsContext
}.

Module Upd.
(** Field updates of a [Stream]. *)

Definition frames (v : Z) (s : Stream) : Stream :=
  {| _idx := _idx s; _time_base := _time_base s; _pix_fmt := _pix_fmt s;
     _isYUV := _isYUV s; _isRec709Format := _isRec709Format s;
     _fpsNum := _fpsNum s; _fpsDen := _fpsDen s; _startPTS := _startPTS s;
     _frames := v;
     _bitDepth := _bitDepth s; _numberOfComponents := _numberOfComponents s;
     _outputPixelFormat := _outputPixelFormat s;
     _width := _width s; _height := _height s;
     _decodeNextFrameIn := _decodeNextFrameIn s;
     _decodeNextFrameOut := _decodeNextFrameOut s;
     _accumDecodeLatency := _accumDecodeLatency s;
     _timestampField := _timestampField s; _ptsSeen := _ptsSeen s;
     _resetConvertCtx := _resetConvertCtx s;
     _colorMatrixTypeOverride := _colorMatrixTypeOverride s;
     _convertCtx := _convertCtx s |}.

Definition startPTS (v : Z) (s : Stream) : Stream :=
  {| _idx := _idx s; _time_base := _time_base s; _pix_fmt := _pix_fmt s;
     _isYUV := _isYUV s; _isRec709Format := _isRec709Format s;
     _fpsNum := _fpsNum s; _fpsDen := _fpsDen s; _startPTS := v;
     _frames := _frames s;
     _bitDepth := _bitDepth s; _numberOfComponents := _numberOfComponents s;
     _outputPixelFormat := _outputPixelFormat s;
     _width := _width s; _height := _height s;
     _decodeNextFrameIn := _decodeNextFrameIn s;
     _decodeNextFrameOut := _decodeNextFrameOut s;
     _accumDecodeLatency := _accumDecodeLatency s;
     _timestampField := _timestampField s; _ptsSeen := _ptsSeen s;
     _resetConvertCtx := _resetConvertCtx s;
     _colorMatrixTypeOverride := _colorMatrixTypeOverride s;
     _convertCtx := _convertCtx s |}.

(** The decode cursor: [_decodeNextFrameIn], [_decodeNextFrameOut] and
    [_accumDecodeLatency]. *)
Definition cursor (nin nout lat : Z) (s : Stream) : Stream :=
  {| _idx := _idx s; _time_base := _time_base s; _pix_fmt := _pix_fmt s;
     _isYUV := _isYUV s; _isRec709Format := _isRec709Format s;
     _fpsNum := _fpsNum s; _fpsDen := _fpsDen s; _startPTS := _startPTS s;
     _frames := _frames s;
     _bitDepth := _bitDepth s; _numberOfComponents := _numberOfComponents s;
     _outputPixelFormat := _outputPixelFormat s;
     _width := _width s; _height := _height s;
     _decodeNextFrameIn := nin;
     _decodeNextFrameOut := nout;
     _accumDecodeLatency := lat;
     _timestampField := _timestampField s; _ptsSeen := _ptsSeen s;
     _resetConvertCtx := _resetConvertCtx s;
     _colorMatrixTypeOverride := _colorMatrixTypeOverride s;
     _convertCtx := _convertCtx s |}.

Definition timestampField (v : TimestampField) (s : Stream) : Stream :=
  {| _idx := _idx s; _time_base := _time_base s; _pix_fmt := _pix_fmt s;
     _isYUV := _isYUV s; _isRec709Format := _isRec709Format s;
     _fpsNum := _fpsNum s; _fpsDen := _fpsDen s; _startPTS := _startPTS s;
     _frames := _frames s;
     _bitDepth := _bitDepth s; _numberOfComponents := _numberOfComponents s;
     _outputPixelFormat := _outputPixelFormat s;
     _width := _width s; _height := _height s;
     _decodeNextFrameIn := _decodeNextFrameIn s;
     _decodeNextFrameOut := _decodeNextFrameOut s;
     _accumDecodeLatency := _accumDecodeLatency s;
     _timestampField := v; _ptsSeen := _ptsSeen s;
     _resetConvertCtx := _resetConvertCtx s;
     _colorMatrixTypeOverride := _colorMatrixTypeOverride s;
     _convertCtx := _convertCtx s |}.

Definition ptsSeen (v : bool) (s : Stream) : Stream :=
  {| _idx := _idx s; _time_base := _time_base s; _pix_fmt := _pix_fmt s;
     _isYUV := _isYUV s; _isRec709Format := _isRec709Format s;
     _fpsNum := _fpsNum s; _fpsDen := _fpsDen s; _startPTS := _startPTS s;
     _frames := _frames s;
     _bitDepth := _bitDepth s; _numberOfComponents := _numberOfComponents s;
     _outputPixelFormat := _outputPixelFormat s;
     _width := _width s; _height := _height s;
     _decodeNextFrameIn := _decodeNextFrameIn s;
     _decodeNextFrameOut := _decodeNextFrameOut s;
     _accumDecodeLatency := _accumDecodeLatency s;
     _timestampField := _timestampField s; _ptsSeen := v;
     _resetConvertCtx := _resetConvertCtx s;
     _colorMatrixTypeOverride := _colorMatrixTypeOverride s;
     _convertCtx := _convertCtx s |}.

(** The converter cache: [_resetConvertCtx] and [_convertCtx]. *)
Definition convert (reset : bool) (c : option SwsContext) (s : Stream) : Stream :=
  {| _idx := _idx s; _time_base := _time_base s; _pix_fmt := _pix_fmt s;
     _isYUV := _isYUV s; _isRec709Format := _isRec709Format s;
     _fpsNum := _fpsNum s; _fpsDen := _fpsDen s; _startPTS := _startPTS s;
     _frames := _frames s;
     _bitDepth := _bitDepth s; _numberOfComponents := _numberOfComponents s;
     _outputPixelFormat := _outputPixelFormat s;
     _width := _width s; _height := _height s;
     _decodeNextFrameIn := _decodeNextFrameIn s;
     _decodeNextFrameOut := _decodeNextFrameOut s;
     _accumDecodeLatency := _accumDecodeLatency s;
     _timestampField := _timestampField s; _ptsSeen := _ptsSeen s;
     _resetConvertCtx := reset;
     _colorMatrixTypeOverride := _colorMatrixTypeOverride s;
     _convertCtx := c |}.

End Upd.

(** Modelled from the spec: [Stream::ptsToFrame] is declared in
    FFmpegFile.h.  [pts_to_frame(pts) = ((pts - start_pts) * fps_num *
    tb_num) / (fps_den * tb_den)], integer division, truncating. *)
Definition ptsToFrame (s : Stream) (pts : Z) : Z :=
  Z.quot ((pts - _startPTS s) * _fpsNum s * num (_time_base s))
         (_fpsDen s * den (_time_base s)).

(** Modelled from the spec: [Stream::frameToPts] is declared in
    FFmpegFile.h.  [frame_to_pts(f) = (f * fps_den * tb_den) / (fps_num *
    tb_num) + start_pts]. *)
Definition frameToPts (s : Stream) (f : Z) : Z :=
  Z.quot (f * _fpsDen s * den (_time_base s))
         (_fpsNum s * num (_time_base s)) + _startPTS s.

(* ===================================================================== *)
(** ** The scaler cache: [Stream::getConvertCtx] *)
(* ===================================================================== *)

(** The deprecated JPEG-range YUV tags are replaced by their equivalents. *)
Definition undeprecate (f : AVPixelFormat) : AVPixelFormat :=
  match f with
  | AV_PIX_FMT_YUVJ420P => AV_PIX_FMT_YUV420P
  | AV_PIX_FMT_YUVJ422P => AV_PIX_FMT_YUV422P
  | AV_PIX_FMT_YUVJ444P => AV_PIX_FMT_YUV444P
  | AV_PIX_FMT_YUVJ440P => AV_PIX_FMT_YUV440P
  | other => other
  end.

(** What a call of [getConvertCtx] ends in: the context returned with the
    stream and world after the call, or the abort of
    [assert(result != -1)]. *)
Inductive ConvertResult (W : Type) : Type :=
| Converted (ctx : option SwsContext) (s : Stream) (w : W)
| AssertFailed.
Arguments AssertFailed {W}.

Section Converter.

Variable W : Type.
Variable L : Libav W.

(** Whether [NDEBUG] is defined, which compiles [assert] out. *)
Variable ndebug : bool.

Definition getConvertCtx (s : Stream)
           (srcPixelFormat : AVPixelFormat) (srcWidth srcHeight : Z)
           (srcColorRange : AVColorRange)
           (dstPixelFormat : AVPixelFormat) (dstWidth dstHeight : Z)
           (w : W) : ConvertResult W :=
  let s :=
    if _resetConvertCtx s then Upd.convert false None s else s in
  match _convertCtx s with
  | Some c => Converted (Some c) s w
  | None =>
    let srcPixelFormat := undeprecate srcPixelFormat in
    let ctx :=
      if sws_getContext_ok L w
      then Some {| sws_srcW := srcWidth; sws_srcH := srcHeight;
                   sws_srcFormat := srcPixelFormat;
                   sws_dstW := dstWidth; sws_dstH := dstHeight;
                   sws_dstFormat := dstPixelFormat;
                   sws_flags := SWS_BICUBIC; sws_details := None |}
      else None in
    let s := Upd.convert (_resetConvertCtx s) ctx s in
    if negb (_isYUV s) then Converted (_convertCtx s) s w
    else
      let colorspace :=
        if _isRec709Format s then SWS_CS_ITU709 else SWS_CS_ITU601 in
      let colorspace :=
        if 0 <? _colorMatrixTypeOverride s
        then (if _colorMatrixTypeOverride s =? 1
              then SWS_CS_ITU709 else SWS_CS_ITU601)
        else colorspace in
      let srcRange :=
        match srcColorRange with
        | AVCOL_RANGE_MPEG => 0
        | AVCOL_RANGE_JPEG => 1
        | _ => if _isYUV s then 0 else 1
        end in
      let details :=
        {| inv_table := colorspace; srcRange := srcRange;
           table := SWS_CS_DEFAULT; dstRange := 1;
           brightness := 0; contrast := 2 ^ 16; saturation := 2 ^ 16 |} in
      let result := sws_setColorspaceDetails_code L w in
      (* the library records the details only when it accepts them *)
      let configured :=
        match _convertCtx s with
        | Some c =>
          if result <? 0 then Some c
          else Some {| sws_srcW := sws_srcW c; sws_srcH := sws_srcH c;
                       sws_srcFormat := sws_srcFormat c;
                       sws_dstW := sws_dstW c; sws_dstH := sws_dstH c;
                       sws_dstFormat := sws_dstFormat c;
                       sws_flags := sws_flags c;
                       sws_details := Some details |}
        | None => None
        end in
      let s := Upd.convert (_resetConvertCtx s) configured s in
      (* assert(result != -1); *)
      if ndebug || negb (result =? -1)
      then Converted (_convertCtx s) s w
      else AssertFailed
  end.

End Converter.

(* ===================================================================== *)
(** ** Stream metadata: start time and frame count *)
(* ===================================================================== *)

(** The read loop of [getStreamStartTime], over the packets
    [av_read_frame] delivers until its first failure: stop at the first
    packet after which [startPTS] is a timestamp. *)
Fixpoint search_start_pts (idx : Z) (packets : list AVPacket) (startPTS : Z) : Z :=
  match packets with
  | [] => startPTS
  | p :: rest =>
    let startPTS := if stream_index p =? idx then pts p else startPTS in
    if startPTS =? AV_NOPTS_VALUE
    then search_start_pts idx rest startPTS
    else startPTS
  end.

(** [FFmpegFile::getStreamStartTime].  [seek_code] is what
    [av_seek_frame (ctx, idx, 0, 0)] returns and [packets] what the reads
    after it deliver. *)
Definition getStreamStartTime (idx : Z) (avstream : AVStream)
           (seek_code : Z) (packets : list AVPacket) : Z :=
  let startPTS := start_time avstream in
  let startPTS :=
    if startPTS =? AV_NOPTS_VALUE
    then (if 0 <=? seek_code
          then search_start_pts idx packets startPTS
          else startPTS)
    else startPTS in
  if startPTS =? AV_NOPTS_VALUE then 0 else startPTS.

(** The read loop at the end of [getStreamFrames]: the largest valid PTS
    of the stream's packets. *)
Fixpoint scan_max_pts (idx : Z) (packets : list AVPacket) (maxPts : Z) : Z :=
  match packets with
  | [] => maxPts
  | p :: rest =>
    let maxPts :=
      if (stream_index p =? idx) && negb (pts p =? AV_NOPTS_VALUE)
         && (maxPts <? pts p)
      then pts p else maxPts in
    scan_max_pts idx rest maxPts
  end.

(** The frame count derived from the container duration, before the
    stream's own count is compared with it. *)
Definition frames_from_duration (ctx_duration fpsNum fpsDen : Z) : Z :=
  let divisor := to_int64 (AV_TIME_BASE * fpsDen) in
  Z.quot (to_int64 ((ctx_duration - 1) * fpsNum + divisor - 1)) divisor.

(** [FFmpegFile::getStreamFrames].  [ctx_duration] is
    [_context->duration]; [packets] are the packets the final scan reads.
    The comparison [std::abs((double)(frames - streamFrames)) <= 1] holds
    exactly when the integers differ by at most one. *)
Definition getStreamFrames (ctx_duration : Z) (avstream : AVStream)
           (stream : Stream) (packets : list AVPacket) : Z :=
  let frames := 0 in
  let frames :=
    if negb (ctx_duration =? 0) then
      let frames := frames_from_duration ctx_duration (_fpsNum stream) (_fpsDen stream) in
      let streamFrames := nb_frames avstream in
      if (0 <? streamFrames) && (Z.abs (to_int64 (frames - streamFrames)) <=? 1)
      then streamFrames else frames
    else frames in
  let frames := if frames =? 0 then nb_frames avstream else frames in
  let frames :=
    if frames =? 0 then
      Z.quot (to_int64 (duration avstream * num (time_base avstream) * _fpsNum stream))
             (to_int64 (den (time_base avstream) * _fpsDen stream))
    else frames in
  let frames :=
    if frames =? 0 then
      let maxPts := scan_max_pts (_idx stream) packets (_startPTS stream) in
      1 + ptsToFrame stream maxPts
    else frames in
  frames.

(* ===================================================================== *)
(** ** The reader and its open path *)
(* ===================================================================== *)

(** [AVDictionary]: entries in insertion order. *)
Definition AVDictionary : Type := list (string * string).

(** What libav reports about one stream of the container while the
    reader opens it. *)
Record ContainerStream : Type := {
  (** [avstream && avstream->codec] *)
  cs_valid : bool;
  cs_avstream : AVStream;
  (** [codec_type == AVMEDIA_TYPE_VIDEO] *)
  cs_is_video : bool;
  (** [avcodec_find_decoder]: the capabilities of the decoder found. *)
  cs_decoder : option Z;
  cs_lowres : Z;
  (** [avcodec_open2], given the thread count and whether
      [CODEC_FLAG_EMU_EDGE] was set. *)
  cs_open : Z -> bool -> Z;
  cs_bits_per_raw_sample : Z;
  cs_pix_fmt : AVPixelFormat;
  (** [av_pix_fmt_desc_get (pix_fmt)->nb_components] *)
  cs_nb_components : Z;
  (** [av_get_bits_per_pixel] *)
  cs_bits_per_pixel : Z;
  cs_width : Z;
  cs_height : Z;
  cs_isYUV : bool;
  cs_isRec709 : bool;
  (** the seek to frame 0 and the reads of [getStreamStartTime] *)
  cs_start_seek : Z;
  cs_start_packets : list AVPacket;
  (** the reads of the scan that ends [getStreamFrames] *)
  cs_scan_packets : list AVPacket
}.

(** [AVFormatContext]. *)
Record AVFormatContext : Type := {
  ctx_duration : Z;
  ctx_metadata : option AVDictionary;
  ctx_streams : list ContainerStream
}.

(** What the environment answers while a file is opened. *)
Record Container : Type := {
  (** [avformat_open_input] *)
  open_input : Z;
  (** [avformat_find_stream_info] *)
  find_stream_info : Z;
  format_context : AVFormatContext;
  (** the number of processors online *)
  nprocessors : Z;
  strerror : Z -> string
}.

(** [FFmpegFile].  [_data] is the size in bytes of the output buffer,
    [None] while it is null. *)
Record FFmpegFile : Type := {
  _filename : string;
  _context : option AVFormatContext;
  _streams : list Stream;
  _errorMsg : string;
  _invalidState : bool;
  _data : option Z
}.

Definition video_decoding_threads (n : Z) : Z :=
  if n <? 1 then 1 else if 16 <? n then 16 else n.

Definition CODEC_CAP_DR1 : Z := 2.

(** Modelled from the spec: the defaults of [Stream::Stream()], declared
    in FFmpegFile.h: frame rate 1/1, start PTS 0, no frames, unknown
    cursors (-1), PTS as timestamp field, no PTS seen, no converter. *)
Definition new_Stream : Stream :=
  {| _idx := 0; _time_base := {| num := 0; den := 1 |};
     _pix_fmt := AV_PIX_FMT_OTHER (-1);
     _isYUV := false; _isRec709Format := false;
     _fpsNum := 1; _fpsDen := 1; _startPTS := 0; _frames := 0;
     _bitDepth := 0; _numberOfComponents := 0;
     _outputPixelFormat := AV_PIX_FMT_OTHER (-1);
     _width := 0; _height := 0;
     _decodeNextFrameIn := -1; _decodeNextFrameOut := -1;
     _accumDecodeLatency := 0;
     _timestampField := FieldPts; _ptsSeen := false;
     _resetConvertCtx := false; _colorMatrixTypeOverride := 0;
     _convertCtx := None |}.

(** The body of the constructor's loop for stream [i]: [None] when the
    stream is skipped, the descriptor registered otherwise. *)
Definition open_stream (duration : Z) (nproc : Z) (i : Z) (cs : ContainerStream)
  : option Stream :=
  if negb (cs_valid cs) then None
  else if negb (cs_is_video cs) then None
  else match cs_decoder cs with
  | None => None
  | Some capabilities =>
    let thread_count := video_decoding_threads nproc in
    let emu_edge :=
      negb (cs_lowres cs =? 0) || negb (Z.land capabilities CODEC_CAP_DR1 =? 0) in
    if cs_open cs thread_count emu_edge <? 0 then None
    else
      let avstream := cs_avstream cs in
      let bitDepth := cs_bits_per_raw_sample cs in
      let numberOfComponents := cs_nb_components cs in
      let numberOfComponents :=
        if numberOfComponents <? 3 then 3 else numberOfComponents in
      let bitDepth :=
        if bitDepth =? 0
        then Z.quot (cs_bits_per_pixel cs) numberOfComponents
        else bitDepth in
      let outputPixelFormat :=
        if 8 <? bitDepth
        then (if numberOfComponents =? 4 then AV_PIX_FMT_RGBA64LE else AV_PIX_FMT_RGB48LE)
        else (if numberOfComponents =? 4 then AV_PIX_FMT_RGBA else AV_PIX_FMT_RGB24) in
      let reported :=
        negb (num (r_frame_rate avstream) =? 0) && negb (den (r_frame_rate avstream) =? 0) in
      let stream :=
        {| _idx := i; _time_base := time_base avstream;
           _pix_fmt := cs_pix_fmt cs;
           _isYUV := cs_isYUV cs; _isRec709Format := cs_isRec709 cs;
           _fpsNum := if reported then num (r_frame_rate avstream) else _fpsNum new_Stream;
           _fpsDen := if reported then den (r_frame_rate avstream) else _fpsDen new_Stream;
           _startPTS := _startPTS new_Stream; _frames := _frames new_Stream;
           _bitDepth := bitDepth; _numberOfComponents := numberOfComponents;
           _outputPixelFormat := outputPixelFormat;
           _width := cs_width cs; _height := cs_height cs;
           _decodeNextFrameIn := _decodeNextFrameIn new_Stream;
           _decodeNextFrameOut := _decodeNextFrameOut new_Stream;
           _accumDecodeLatency := _accumDecodeLatency new_Stream;
           _timestampField := _timestampField new_Stream;
           _ptsSeen := _ptsSeen new_Stream;
           _resetConvertCtx := _resetConvertCtx new_Stream;
           _colorMatrixTypeOverride := _colorMatrixTypeOverride new_Stream;
           _convertCtx := _convertCtx new_Stream |} in
      let stream :=
        Upd.startPTS
          (getStreamStartTime i avstream (cs_start_seek cs) (cs_start_packets cs))
          stream in
      let stream :=
        Upd.frames (getStreamFrames duration avstream stream (cs_scan_packets cs))
                   stream in
      Some stream
  end.

(** The size passed to [new unsigned char[...]]: the product is taken in
    [int] and widened to [size_t] by the pixel depth. *)
Definition output_buffer_size (stream : Stream) : Z :=
  let pixelDepth := if 8 <? _bitDepth stream then 2 else 1 in
  (to_int (_width stream * _height stream * 3) * pixelDepth) mod 2 ^ 64.

(** The constructor's loop over the streams [i], [i+1], ... of the
    container; [streams] and [data] are [_streams] and [_data] so far. *)
Fixpoint open_streams (duration nproc : Z) (i : Z) (l : list ContainerStream)
         (streams : list Stream) (data : option Z) : list Stream * option Z :=
  match l with
  | [] => (streams, data)
  | cs :: rest =>
    match open_stream duration nproc i cs with
    | None => open_streams duration nproc (i + 1) rest streams data
    | Some stream =>
      let data :=
        match streams with
        | [] => Some (output_buffer_size stream)
        | _ => data
        end in
      open_streams duration nproc (i + 1) rest (streams ++ [stream]) data
    end
  end.

(** Modelled from the spec: [setError] and [setInternalError] are declared
    in FFmpegFile.h.  They store the message, with the prefix naming the
    failed operation when there is one, and put the reader in invalid
    state; an internal error takes its text from [av_strerror]. *)
Definition setError (msg prefix : string) (r : FFmpegFile) : FFmpegFile :=
  {| _filename := _filename r; _context := _context r; _streams := _streams r;
     _errorMsg := (prefix ++ msg)%string; _invalidState := true; _data := _data r |}.

(** [FFmpegFile::FFmpegFile (filename)]. *)
Definition FFmpegFile_open (filename : string) (c : Container) : FFmpegFile :=
  let this :=
    {| _filename := filename; _context := None; _streams := [];
       _errorMsg := ""; _invalidState := false; _data := None |} in
  if (filename =? "")%string then
    {| _filename := filename; _context := None; _streams := [];
       _errorMsg := ""; _invalidState := true; _data := None |}
  else if open_input c <? 0 then
    setError (strerror c (open_input c)) "" this
  else
    let this :=
      {| _filename := filename; _context := Some (format_context c); _streams := [];
         _errorMsg := ""; _invalidState := false; _data := None |} in
    if find_stream_info c <? 0 then
      setError (strerror c (find_stream_info c)) "" this
    else
      let unsuported_codec := false in
      let '(streams, data) :=
        open_streams (ctx_duration (format_context c)) (nprocessors c) 0
                     (ctx_streams (format_context c)) [] None in
      let this :=
        {| _filename := filename; _context := Some (format_context c);
           _streams := streams;
           _errorMsg := ""; _invalidState := false; _data := data |} in
      match streams with
      | [] =>
        setError (if unsuported_codec : bool
                  then "unsupported codec..." else "unable to find video stream")
                 "" this
      | _ => this
      end.

(* ===================================================================== *)
(** ** Accessors *)
(* ===================================================================== *)

(** Modelled from the spec: the accessors [getBitDepth],
    [getNumberOfComponents], [getWidth], [getHeight] and [isYUV] are
    declared in FFmpegFile.h; they return the value of the first stream's
    descriptor, and 0 when there is no stream. *)
Definition getBitDepth (r : FFmpegFile) : Z :=
  match _streams r with [] => 0 | s :: _ => _bitDepth s end.

Definition getNumberOfComponents (r : FFmpegFile) : Z :=
  match _streams r with [] => 0 | s :: _ => _numberOfComponents s end.

Definition getWidth (r : FFmpegFile) : Z :=
  match _streams r with [] => 0 | s :: _ => _width s end.

Definition getHeight (r : FFmpegFile) : Z :=
  match _streams r with [] => 0 | s :: _ => _height s end.

Definition isYUV (r : FFmpegFile) : bool :=
  match _streams r with [] => false | s :: _ => _isYUV s end.

(** [FFmpegFile::getRowSize]: the product is taken in [int], widened to
    [size_t] by [sizeof(uint16_t)] and returned as [int]. *)
Definition getRowSize (r : FFmpegFile) : Z :=
  let bitDepth := getBitDepth r in
  if 8 <? bitDepth
  then to_int ((to_int (getNumberOfComponents r * getWidth r) * 2) mod 2 ^ 64)
  else to_int (getNumberOfComponents r * getWidth r).

(** [FFmpegFile::getBufferSize]. *)
Definition getBufferSize (r : FFmpegFile) : Z :=
  to_int (getRowSize r * getHeight r).

(* ===================================================================== *)
(** ** Colour space of the source: [FFmpegFile::getColorspace] *)
(* ===================================================================== *)

Definition is_lower (c : ascii) : bool :=
  (97 <=? nat_of_ascii c)%nat && (nat_of_ascii c <=? 122)%nat.

Definition is_upper (c : ascii) : bool :=
  (65 <=? nat_of_ascii c)%nat && (nat_of_ascii c <=? 90)%nat.

(** [av_toupper]. *)
Definition av_toupper (c : ascii) : ascii :=
  if is_lower c then ascii_of_nat (nat_of_ascii c - 32) else c.

(** [tolower] in the C locale. *)
Definition c_tolower (c : ascii) : ascii :=
  if is_upper c then ascii_of_nat (nat_of_ascii c + 32) else c.

Definition AV_DICT_MATCH_CASE : Z := 1.
Definition AV_DICT_IGNORE_SUFFIX : Z := 2.

(** The key comparison of [av_dict_get]: [s] is an entry's key.  The
    characters are compared as they are under [AV_DICT_MATCH_CASE] and
    through [av_toupper] otherwise; a key longer than [key] matches only
    under [AV_DICT_IGNORE_SUFFIX]. *)
Fixpoint dict_key_matches (flags : Z) (s key : string) {struct key} : bool :=
  match key with
  | EmptyString =>
    match s with
    | EmptyString => true
    | String _ _ => negb (Z.land flags AV_DICT_IGNORE_SUFFIX =? 0)
    end
  | String k key' =>
    match s with
    | EmptyString => false
    | String c s' =>
      (if negb (Z.land flags AV_DICT_MATCH_CASE =? 0)
       then Ascii.eqb c k
       else Ascii.eqb (av_toupper c) (av_toupper k))
      && dict_key_matches flags s' key'
    end
  end.

(** libavutil's [av_dict_get (m, key, NULL, flags)]: the first entry whose
    key matches. *)
Fixpoint av_dict_get (m : AVDictionary) (key : string) (flags : Z)
  : option (string * string) :=
  match m with
  | [] => None
  | e :: rest =>
    if dict_key_matches flags (fst e) key then Some e
    else av_dict_get rest key flags
  end.

(** [strncasecmp (s, t, n) == 0]. *)
Fixpoint strncasecmp_eq (s t : string) (n : nat) {struct n} : bool :=
  match n with
  | O => true
  | S n' =>
    match s, t with
    | EmptyString, EmptyString => true
    | String a s', String b t' =>
      Ascii.eqb (c_tolower a) (c_tolower b) && strncasecmp_eq s' t' n'
    | _, _ => false
    end
  end.

Definition getColorspace (r : FFmpegFile) : string :=
  let fallback := if isYUV r then "Gamma2.2" else "Gamma1.8" in
  match _context r with
  | None => fallback
  | Some context =>
    match ctx_metadata context with
    | None => fallback
    | Some metadata =>
      let t := av_dict_get metadata "uk.co.thefoundry.Colorspace" AV_DICT_IGNORE_SUFFIX in
      (* the result of the second lookup is not stored *)
      let _ :=
        match t with
        | None => av_dict_get metadata "uk.co.thefoundry.colorspace" AV_DICT_IGNORE_SUFFIX
        | Some _ => None
        end in
      match t with
      | Some e => snd e
      | None =>
        let t := av_dict_get metadata "com.arri.camera.ColorGammaSxS" AV_DICT_IGNORE_SUFFIX in
        let _ :=
          match t with
          | None => av_dict_get metadata "com.arri.camera.colorgammasxs" AV_DICT_IGNORE_SUFFIX
          | Some _ => None
          end in
        match t with
        | Some e =>
          if strncasecmp_eq (snd e) "LOG-C" 5 then "AlexaV3LogC"
          else if strncasecmp_eq (snd e) "REC-709" 7 then "rec709"
          else fallback
        | None => fallback
        end
      end
    end
  end.

(* ===================================================================== *)
(** ** Random-access decode: [FFmpegFile::decode] *)
(* ===================================================================== *)

(** What happened during a call, for counting: a seek (with the frame it
    aimed at), the switch of the timestamp field to DTS, a retry taken
    from the budget. *)
Inductive Event : Type :=
| EvSeek (target : Z)
| EvSwitchToDts
| EvRetry.

(** The state of one call of [decode]: the stream, the world, the
    reader's error fields and the locals of the function.  [trace] is not
    in the source: it records the events of the call, latest first. *)
Record DecodeState (W : Type) : Type := {
  stream : Stream;
  world : W;
  errorMsg : string;
  invalidState : bool;
  frame : Z;
  retriesRemaining : Z;
  awaitingFirstDecodeAfterSeek : bool;
  lastSeekedFrame : Z;
  hasPicture : bool;
  trace : list Event
}.

(** How one pass through the body of the do-while loop ends. *)
Inductive Flow (W : Type) : Type :=
| Next (st : DecodeState W)          (* reaches [while (!hasPicture)], also by [continue] *)
| Break (st : DecodeState W)         (* [break] *)
| ReturnFalse (st : DecodeState W)   (* [return false] inside the loop *)
| Aborted.                           (* the assertion of [getConvertCtx] *)
Arguments Aborted {W}.

(** How a call of [decode] ends. *)
Inductive DecodeResult : Type :=
| Throw (msg : string)
| Abort
| Return (b : bool).

Section Decode.

Variable W : Type.
Variable L : Libav W.
Variable ndebug : bool.

Abbreviation State := (DecodeState W).

Definition with_stream (s : Stream) (st : State) : State :=
  {| stream := s; world := world st; errorMsg := errorMsg st;
     invalidState := invalidState st; frame := frame st;
     retriesRemaining := retriesRemaining st;
     awaitingFirstDecodeAfterSeek := awaitingFirstDecodeAfterSeek st;
     lastSeekedFrame := lastSeekedFrame st; hasPicture := hasPicture st;
     trace := trace st |}.

Definition with_world (w : W) (st : State) : State :=
  {| stream := stream st; world := w; errorMsg := errorMsg st;
     invalidState := invalidState st; frame := frame st;
     retriesRemaining := retriesRemaining st;
     awaitingFirstDecodeAfterSeek := awaitingFirstDecodeAfterSeek st;
     lastSeekedFrame := lastSeekedFrame st; hasPicture := hasPicture st;
     trace := trace st |}.

Definition with_frame (f : Z) (st : State) : State :=
  {| stream := stream st; world := world st; errorMsg := errorMsg st;
     invalidState := invalidState st; frame := f;
     retriesRemaining := retriesRemaining st;
     awaitingFirstDecodeAfterSeek := awaitingFirstDecodeAfterSeek st;
     lastSeekedFrame := lastSeekedFrame st; hasPicture := hasPicture st;
     trace := trace st |}.

Definition with_retriesRemaining (n : Z) (st : State) : State :=
  {| stream := stream st; world := world st; errorMsg := errorMsg st;
     invalidState := invalidState st; frame := frame st;
     retriesRemaining := n;
     awaitingFirstDecodeAfterSeek := awaitingFirstDecodeAfterSeek st;
     lastSeekedFrame := lastSeekedFrame st; hasPicture := hasPicture st;
     trace := trace st |}.

Definition with_awaiting (b : bool) (st : State) : State :=
  {| stream := stream st; world := world st; errorMsg := errorMsg st;
     invalidState := invalidState st; frame := frame st;
     retriesRemaining := retriesRemaining st;
     awaitingFirstDecodeAfterSeek := b;
     lastSeekedFrame := lastSeekedFrame st; hasPicture := hasPicture st;
     trace := trace st |}.

Definition with_lastSeekedFrame (f : Z) (st : State) : State :=
  {| stream := stream st; world := world st; errorMsg := errorMsg st;
     invalidState := invalidState st; frame := frame st;
     retriesRemaining := retriesRemaining st;
     awaitingFirstDecodeAfterSeek := awaitingFirstDecodeAfterSeek st;
     lastSeekedFrame := f; hasPicture := hasPicture st;
     trace := trace st |}.

Definition with_hasPicture (b : bool) (st : State) : State :=
  {| stream := stream st; world := world st; errorMsg := errorMsg st;
     invalidState := invalidState st; frame := frame st;
     retriesRemaining := retriesRemaining st;
     awaitingFirstDecodeAfterSeek := awaitingFirstDecodeAfterSeek st;
     lastSeekedFrame := lastSeekedFrame st; hasPicture := b;
     trace := trace st |}.

Definition record (e : Event) (st : State) : State :=
  {| stream := stream st; world := world st; errorMsg := errorMsg st;
     invalidState := invalidState st; frame := frame st;
     retriesRemaining := retriesRemaining st;
     awaitingFirstDecodeAfterSeek := awaitingFirstDecodeAfterSeek st;
     lastSeekedFrame := lastSeekedFrame st; hasPicture := hasPicture st;
     trace := e :: trace st |}.

(** [setError (msg, prefix)] on the reader's fields kept in the state
    (see [setError] above). *)
Definition set_error (msg prefix : string) (st : State) : State :=
  {| stream := stream st; world := world st;
     errorMsg := (prefix ++ msg)%string;
     invalidState := true; frame := frame st;
     retriesRemaining := retriesRemaining st;
     awaitingFirstDecodeAfterSeek := awaitingFirstDecodeAfterSeek st;
     lastSeekedFrame := lastSeekedFrame st; hasPicture := hasPicture st;
     trace := trace st |}.

Definition setInternalError (error : Z) (prefix : string) (st : State) : State :=
  set_error (av_strerror L error) prefix st.

(** [FFmpegFile::seekFrame]. *)
Definition seekFrame (target : Z) (st : State) : bool * State :=
  let w := avcodec_flush_buffers L (world st) in
  let timestamp := frameToPts (stream st) target in
  let '(error, w) := av_seek_frame L (_idx (stream st)) timestamp w in
  let st := record (EvSeek target) (with_world w st) in
  if error <? 0
  then (false, setInternalError error "FFmpeg Reader failed to seek frame: " st)
  else (true, st).

(** The four assignments that precede every seek to a fresh target:
    the cursors become unknown, the latency is cleared and the first
    decode after the seek is awaited. *)
Definition invalidate (target : Z) (st : State) : State :=
  with_awaiting true
    (with_stream (Upd.cursor (-1) (-1) 0 (stream st))
       (with_lastSeekedFrame target st)).

(** The early-out of [decode]: the frame to decode, or [None] where
    [std::runtime_error("Missing frame")] is thrown.  The frame count
    is an [int64_t]; [(int)stream->_frames - 1] is computed in [int],
    both the cast and the subtraction with their wrap-around. *)
Definition clamp_frame (s : Stream) (frame : Z) (loadNearest : bool) : option Z :=
  if frame <? 0 then
    if loadNearest then Some 0 else None
  else if _frames s <=? frame then
    if loadNearest then Some (to_int (to_int (_frames s) - 1)) else None
  else Some frame.

(** The end of the loop body: what is done with the outcome of the
    decoder. *)
Definition after_decode (decodeAttempted frameDecoded : bool)
           (srcColourRange : AVColorRange) (st : State) : Flow W :=
  let s := stream st in
  if frameDecoded then
    let st := with_awaiting false st in
    if _decodeNextFrameOut s =? frame st then
      match getConvertCtx L ndebug s (_pix_fmt s) (_width s) (_height s)
                          srcColourRange
                          (_outputPixelFormat s) (_width s) (_height s)
                          (world st) with
      | AssertFailed => Aborted
      | Converted context s w =>
        let w := match context with
                 | Some c => sws_scale L c w
                 | None => w
                 end in
        let s := Upd.cursor (_decodeNextFrameIn s) (_decodeNextFrameOut s + 1)
                            (_accumDecodeLatency s) s in
        Next (with_hasPicture true (with_world w (with_stream s st)))
      end
    else
      let s := Upd.cursor (_decodeNextFrameIn s) (_decodeNextFrameOut s + 1)
                          (_accumDecodeLatency s) s in
      Next (with_stream s st)
  else if decodeAttempted then
    let s := Upd.cursor (_decodeNextFrameIn s) (_decodeNextFrameOut s)
                        (_accumDecodeLatency s + 1) s in
    let st := with_stream s st in
    if getCodecDelay L (world st) <? _accumDecodeLatency s then
      (* a decode stall: the frame to seek to for recovery, or the failure *)
      let choice : (Z * State) + State :=
        if awaitingFirstDecodeAfterSeek st then
          if 0 <? _decodeNextFrameOut s then
            inl (_decodeNextFrameOut s - 1, st)
          else if 0 <? retriesRemaining st then
            inl (frame st,
                 record EvRetry (with_retriesRemaining (retriesRemaining st - 1) st))
          else
            inr (set_error
                   "FFmpeg Reader failed to find decode reference frame, possible file corruption"
                   "" st)
        else
          if 0 <? retriesRemaining st then
            inl (frame st,
                 record EvRetry (with_retriesRemaining (retriesRemaining st - 1) st))
          else
            inr (set_error
                   "FFmpeg Reader detected decoding stall, possible file corruption"
                   "" st) in
      match choice with
      | inr st => Break st
      | inl (seekTargetFrame, st) =>
        let st := invalidate seekTargetFrame st in
        let '(ok, st) := seekFrame seekTargetFrame st in
        if ok then Next st else Break st
      end
    else Next st
  else Next st.

(** Synchronising the frame indices on the first packet of the stream
    after a seek.  [inl] is the state with which the body goes on,
    [inr] the state at a [break]. *)
Definition resync (pkt : AVPacket) (st : State) : State + State :=
  let s := stream st in
  let landingFrame := to_int (ptsToFrame s (timestamp_of (_timestampField s) pkt)) in
  if (timestamp_of (_timestampField s) pkt =? AV_NOPTS_VALUE)
     || (lastSeekedFrame st <? landingFrame)
  then
    let st := with_lastSeekedFrame (lastSeekedFrame st - 1) st in
    let wound : State + State :=
      if lastSeekedFrame st <? 0 then
        if is_pts (_timestampField s) && negb (_ptsSeen s) then
          inl (with_lastSeekedFrame (frame st)
                 (record EvSwitchToDts
                    (with_stream (Upd.timestampField FieldDts s) st)))
        else
          inr (set_error
                 "FFmpeg Reader failed to find timing reference frame, possible file corruption"
                 "" st)
      else inl st in
    match wound with
    | inr st => inr st
    | inl st =>
      let '(ok, st) := seekFrame (lastSeekedFrame st) st in
      if ok then inl st else inr st
    end
  else
    inl (with_lastSeekedFrame (-1)
           (with_stream (Upd.cursor landingFrame landingFrame
                                    (_accumDecodeLatency s) s) st)).

(** One pass through the body of the do-while loop. *)
Definition decode_iteration (loadNearest : bool) (st : State) : Flow W :=
  let srcColourRange := color_range L (world st) in
  let s := stream st in
  if _decodeNextFrameIn s <? _frames s then
    let '((error, pkt), w) := av_read_frame L (world st) in
    let st := with_world w st in
    if error =? to_int AVERROR_EOF then
      (* getStreamFrames() was probably wrong *)
      let s := Upd.frames (_decodeNextFrameIn s) s in
      let st := with_stream s st in
      if loadNearest then
        let st := with_frame (to_int (to_int (_frames s) - 1)) st in
        let st := invalidate (frame st) st in
        let '(ok, st) := seekFrame (frame st) st in
        if ok then Next st else ReturnFalse st
      else Next st
    else if error <? 0 then
      Break (setInternalError error "FFmpeg Reader failed to read frame: " st)
    else if stream_index pkt =? _idx s then
      let s := if negb (pts pkt =? AV_NOPTS_VALUE) then Upd.ptsSeen true s else s in
      let st := with_stream s st in
      let synced : State + State :=
        if 0 <=? lastSeekedFrame st then resync pkt st else inl st in
      match synced with
      | inr st => Break st
      | inl st =>
        if lastSeekedFrame st <? 0 then
          let s := stream st in
          let s := Upd.cursor (_decodeNextFrameIn s + 1) (_decodeNextFrameOut s)
                              (_accumDecodeLatency s) s in
          let st := with_stream s st in
          let '((error, frameDecoded), w) :=
            avcodec_decode_video2 L (Some pkt) (world st) in
          let st := with_world w st in
          if error <? 0 then
            Break (setInternalError error "FFmpeg Reader failed to decode frame: " st)
          else after_decode true frameDecoded srcColourRange st
        else after_decode false false srcColourRange st
      end
    else after_decode false false srcColourRange st
  else
    let '((error, frameDecoded), w) :=
      avcodec_decode_video2 L None (world st) in
    let st := with_world w st in
    if error <? 0 then
      Break (setInternalError error "FFmpeg Reader failed to decode frame: " st)
    else after_decode true frameDecoded srcColourRange st.

(** After the loop: a failed read resets the next frame expected out. *)
Definition decode_finish (st : State) : State :=
  if hasPicture st then st
  else
    let s := stream st in
    with_stream (Upd.cursor (_decodeNextFrameIn s) (-1) (_accumDecodeLatency s) s) st.

(** The do-while loop, [fuel] passes at most. *)
Fixpoint decode_loop (loadNearest : bool) (fuel : nat) (st : State)
  : option (DecodeResult * State) :=
  match fuel with
  | O => None
  | S fuel =>
    match decode_iteration loadNearest st with
    | Next st =>
      if hasPicture st then Some (Return true, decode_finish st)
      else decode_loop loadNearest fuel st
    | Break st =>
      let st := decode_finish st in
      Some (Return (hasPicture st), st)
    | ReturnFalse st => Some (Return false, st)
    | Aborted => Some (Abort, st)
    end
  end.

(** The state in which the body of [decode] starts on [stream], once
    the frame has been clamped. *)
Definition decode_init (s : Stream) (w : W) (msg : string) (invalid : bool)
           (frame maxRetries : Z) : State :=
  {| stream := s; world := w; errorMsg := msg; invalidState := invalid;
     frame := frame;
     retriesRemaining := Z.max 1 maxRetries;
     awaitingFirstDecodeAfterSeek := false;
     lastSeekedFrame := -1;
     hasPicture := false;
     trace := [] |}.

(** [decode] from the clamped frame on: the first seek if the frame is
    not the next one out of the decoder, then the loop. *)
Definition decode_from (fuel : nat) (loadNearest : bool) (st : State)
  : option (DecodeResult * State) :=
  if negb (frame st =? _decodeNextFrameOut (stream st)) then
    let st := invalidate (frame st) st in
    let '(ok, st) := seekFrame (frame st) st in
    if ok then decode_loop loadNearest fuel st
    else Some (Return false, st)
  else decode_loop loadNearest fuel st.

(** [FFmpegFile::decode (frame, loadNearest, maxRetries)] on the reader
    [r] in the world [w].  The state returned carries the stream, the
    world and the error fields after the call. *)
Definition decode (fuel : nat) (r : FFmpegFile) (w : W)
           (frame : Z) (loadNearest : bool) (maxRetries : Z)
  : option (DecodeResult * State) :=
  match _streams r with
  | [] =>
    Some (Return false,
          decode_init new_Stream w (_errorMsg r) (_invalidState r) frame maxRetries)
  | s :: _ =>
    match clamp_frame s frame loadNearest with
    | None =>
      Some (Throw "Missing frame",
            decode_init s w (_errorMsg r) (_invalidState r) frame maxRetries)
    | Some frame =>
      decode_from fuel loadNearest
        (decode_init s w (_errorMsg r) (_invalidState r) frame maxRetries)
    end
  end.

(** The reader after a call that ended in the state [st]. *)
Definition reader_after (r : FFmpegFile) (st : State) : FFmpegFile :=
  {| _filename := _filename r; _context := _context r;
     _streams := match _streams r with
                 | [] => []
                 | _ :: rest => stream st :: rest
                 end;
     _errorMsg := errorMsg st; _invalidState := invalidState st;
     _data := _data r |}.

End Decode.

(* ===================================================================== *)
(** ** The events of a call, counted *)
(* ===================================================================== *)

(** The number of seeks among the events of a call. *)
Fixpoint count_seeks (l : list Event) : nat :=
  match l with
  | [] => O
  | EvSeek _ :: l => S (count_seeks l)
  | _ :: l => count_seeks l
  end.

Fixpoint count_switches (l : list Event) : nat :=
  match l with
  | [] => O
  | EvSwitchToDts :: l => S (count_switches l)
  | _ :: l => count_switches l
  end.

Fixpoint count_retries (l : list Event) : nat :=
  match l with
  | [] => O
  | EvRetry :: l => S (count_retries l)
  | _ :: l => count_retries l
  end.

(* ===================================================================== *)
(** ** What the loop of [decode] keeps *)
(* ===================================================================== *)

(** What the loop of [decode] is proved to keep or to lower. *)
Section DecodeNotions.

Variable W : Type.
Variable L : Libav W.
Variable ndebug : bool.

(** A property of the state that every pass through the loop body
    keeps. *)
Definition kept_by_iteration (loadNearest : bool) (P : DecodeState W -> Prop) : Prop :=
  forall st : DecodeState W,
    P st ->
    match decode_iteration L ndebug loadNearest st with
    | Next st' | Break st' | ReturnFalse st' => P st'
    | Aborted => True
    end.

(** A seek to [target] issued from within the loop in the state [st],
    told by what reaches the library and by what the loop goes on
    with: the decoder's buffers are flushed, then [av_seek_frame] is
    called on the stream with the timestamp of [target]; the world is
    the one the library leaves and the seek is on record.  The pass
    ends at [while] if the library accepts the seek, and by [break]
    with the message of a failed seek if it does not.  [out] is how the
    pass ends. *)
Definition seeks_library (target : Z) (st : DecodeState W) (out : Flow W) : Prop :=
  let answer :=
    av_seek_frame L (_idx (stream st)) (frameToPts (stream st) target)
                  (avcodec_flush_buffers L (world st)) in
  exists st' : DecodeState W,
    out = (if fst answer <? 0 then Break st' else Next st') /\
    world st' = snd answer /\
    trace st' = EvSeek target :: trace st /\
    stream st' = stream st /\
    frame st' = frame st /\
    lastSeekedFrame st' = lastSeekedFrame st /\
    retriesRemaining st' = retriesRemaining st /\
    awaitingFirstDecodeAfterSeek st' = awaitingFirstDecodeAfterSeek st /\
    hasPicture st' = hasPicture st /\
    if fst answer <? 0
    then errorMsg st'
         = ("FFmpeg Reader failed to seek frame: " ++ av_strerror L (fst answer))%string /\
         invalidState st' = true
    else errorMsg st' = errorMsg st /\ invalidState st' = invalidState st.

(** The retries taken and the retries left add up to the budget. *)
Definition budget_kept (budget : Z) (st : DecodeState W) : Prop :=
  Z.of_nat (count_retries (trace st)) + retriesRemaining st = budget /\
  0 <= retriesRemaining st.

(** The timestamp field is switched to DTS at most once, and stays DTS. *)
Definition switched_once (st : DecodeState W) : Prop :=
  count_switches (trace st) = O \/
  (count_switches (trace st) = 1%nat /\ _timestampField (stream st) = FieldDts).

(** The container has ended before any frame index was known: the
    frame count has been set to the unknown cursor. *)
Definition ended_unsynced (st : DecodeState W) : Prop :=
  _frames (stream st) = -1 /\ _decodeNextFrameIn (stream st) = -1.

(** The seeks that may still be issued before the next retry, switch of
    timestamp field or picture: one for every frame below the frame the
    reader is seeking to, or has landed on without decoding anything. *)
Definition seeks_ahead (st : DecodeState W) : Z :=
  if 0 <=? lastSeekedFrame st then lastSeekedFrame st
  else if awaitingFirstDecodeAfterSeek st then Z.max 0 (_decodeNextFrameOut (stream st))
  else 0.

(** The fresh starts from the requested frame still possible: one per
    retry left, and one for the switch to DTS. *)
Definition restarts_ahead (st : DecodeState W) : Z :=
  retriesRemaining st + (if is_pts (_timestampField (stream st)) then 1 else 0).

(** The account of the seeks of a call that asks for frame [F] with the
    retry budget [R]. *)
Definition seeks_accounted (R F : Z) (st : DecodeState W) : Prop :=
  Z.of_nat (count_seeks (trace st)) + restarts_ahead st * (F + 1) + seeks_ahead st
  <= (R + 2) * (F + 1) /\
  frame st = F /\
  0 <= retriesRemaining st /\
  (0 <= lastSeekedFrame st -> awaitingFirstDecodeAfterSeek st = true ->
   _decodeNextFrameOut (stream st) <= 0).

End DecodeNotions.

(* ===================================================================== *)
(** ** A finite container as the world *)
(* ===================================================================== *)

(** The world of a container made of finitely many packets.  What the
    library does is fixed by the file and by choices the reader has no
    hand in, indexed by the number of library calls made so far: where a
    seek lands, whether a call fails, whether the decoder releases a
    frame it holds, what delay the codec reports. *)
Module FileWorld.

Record Oracle : Type := {
  file : list AVPacket;
  (** the error code of a seek to a timestamp and the position reached *)
  seek : nat -> Z -> Z * nat;
  (** negative: the read fails with this code *)
  read_code : nat -> Z;
  (** the code returned by the decoder, and whether it is willing to
      release a frame *)
  decoder : nat -> Z * bool;
  delay : nat -> Z;
  range : nat -> AVColorRange;
  sws_ok : nat -> bool;
  sws_code : nat -> Z;
  strerror : Z -> string
}.

Record World : Type := {
  pos : nat;     (* index of the next packet to read *)
  held : nat;    (* packets taken by the decoder and not yet released *)
  tick : nat     (* library calls so far *)
}.

Section Calls.

Variable orc : Oracle.

Definition read (w : World) : (Z * AVPacket) * World :=
  let t := tick w in
  if read_code orc t <? 0 then
    ((read_code orc t, empty_packet),
     {| pos := pos w; held := held w; tick := S t |})
  else
    match nth_error (file orc) (pos w) with
    | Some p => ((0, p), {| pos := S (pos w); held := held w; tick := S t |})
    | None => ((AVERROR_EOF, empty_packet),
               {| pos := pos w; held := held w; tick := S t |})
    end.

Definition flush (w : World) : World :=
  {| pos := pos w; held := O; tick := tick w |}.

Definition seek_to (idx timestamp : Z) (w : World) : Z * World :=
  let t := tick w in
  let '(code, p) := seek orc t timestamp in
  if code <? 0
  then (code, {| pos := pos w; held := held w; tick := S t |})
  else (code, {| pos := p; held := held w; tick := S t |}).

Definition decode_video (pkt : option AVPacket) (w : World)
  : (Z * bool) * World :=
  let t := tick w in
  let held := match pkt with
              | Some _ => S (held w)
              | None => held w
              end in
  let '(code, willing) := decoder orc t in
  if code <? 0 then
    ((code, false), {| pos := pos w; held := held; tick := S t |})
  else
    match held with
    | S h =>
      if willing
      then ((code, true), {| pos := pos w; held := h; tick := S t |})
      else ((code, false), {| pos := pos w; held := held; tick := S t |})
    | O => ((code, false), {| pos := pos w; held := held; tick := S t |})
    end.

Definition libav : Libav World :=
  {| av_read_frame := read;
     avcodec_flush_buffers := flush;
     av_seek_frame := seek_to;
     avcodec_decode_video2 := decode_video;
     color_range := fun w => range orc (tick w);
     getCodecDelay := fun w => delay orc (tick w);
     sws_getContext_ok := fun w => sws_ok orc (tick w);
     sws_setColorspaceDetails_code := fun w => sws_code orc (tick w);
     sws_scale := fun _ w => w;
     av_strerror := strerror orc |}.

End Calls.

Definition start : World := {| pos := O; held := O; tick := O |}.

End FileWorld.

(** The measure that every pass through the loop lowers on a finite
    container whose codec delay stays below [D], in lexicographic order:
    the frame count, which can only drop, and does at the end of the
    container; the retries left; whether the timestamp field is still
    PTS; the frames below the seek target or the landing frame; the
    packets left to read and those held by the decoder; the latency the
    codec still tolerates. *)
Module Measure.

Definition State : Type := DecodeState FileWorld.World.

Definition pts_left (st : State) : Z :=
  if is_pts (_timestampField (stream st)) then 1 else 0.

Definition targets (st : State) : Z :=
  (if 0 <=? lastSeekedFrame st then 2 * lastSeekedFrame st + 1 else 0)
  + (if awaitingFirstDecodeAfterSeek st
     then (if 0 <? _decodeNextFrameOut (stream st)
           then 2 * _decodeNextFrameOut (stream st) else 0)
     else 0).

Definition packets (orc : FileWorld.Oracle) (st : State) : Z :=
  2 * Z.of_nat (List.length (FileWorld.file orc) - FileWorld.pos (world st))
  + Z.of_nat (FileWorld.held (world st)).

Definition slack (D : Z) (st : State) : Z :=
  D + 1 - _accumDecodeLatency (stream st).

Definition measure (orc : FileWorld.Oracle) (D : Z) (st : State)
  : Z * (Z * (Z * (Z * (Z * Z)))) :=
  (_frames (stream st),
   (retriesRemaining st,
    (pts_left st, (targets st, (packets orc st, slack D st))))).

(** [x] is below [y], and [y] is not below the floor. *)
Definition under (floor : Z) (x y : Z) : Prop := floor <= y /\ x < y.

Definition below
  : Z * (Z * (Z * (Z * (Z * Z)))) -> Z * (Z * (Z * (Z * (Z * Z)))) -> Prop :=
  slexprod _ _ (under (INT_MIN + 1))
    (slexprod _ _ (under 1)
       (slexprod _ _ (under 1)
          (slexprod _ _ (under 1)
             (slexprod _ _ (under 1) (under 1))))).

End Measure.

(* ===================================================================== *)
(** ** What the open path and the colour space are stated with *)
(* ===================================================================== *)

(** What holds of [_streams] and [_data] all along the constructor's
    loop: the buffer is the one of the first stream registered, and
    every stream registered has at least three components. *)
Definition registered (streams : list Stream) (data : option Z) : Prop :=
  match streams with
  | [] => data = None
  | s :: _ => data = Some (output_buffer_size s)
  end /\ Forall (fun s => 3 <= _numberOfComponents s) streams.


Fixpoint lower (s : string) : string :=
  match s with
  | EmptyString => EmptyString
  | String c s' => String (c_tolower c) (lower s')
  end.



Definition foundry_key : string := "uk.co.thefoundry.Colorspace".



(* ===================================================================== *)
(** ** Scenarios *)
(* ===================================================================== *)

(** A 29.97 fps stream in a container with a millisecond time base. *)
Definition ntsc_ms_stream : Stream :=
  {| _idx := 0; _time_base := {| num := 1; den := 1000 |};
     _pix_fmt := AV_PIX_FMT_YUV420P;
     _isYUV := true; _isRec709Format := false;
     _fpsNum := 30000; _fpsDen := 1001; _startPTS := 0; _frames := 300;
     _bitDepth := 8; _numberOfComponents := 3;
     _outputPixelFormat := AV_PIX_FMT_RGB24;
     _width := 720; _height := 480;
     _decodeNextFrameIn := -1; _decodeNextFrameOut := -1;
     _accumDecodeLatency := 0;
     _timestampField := FieldPts; _ptsSeen := false;
     _resetConvertCtx := false; _colorMatrixTypeOverride := 0;
     _convertCtx := None |}.

(** The stream as it is when [getStreamFrames] is called on it: only the
    frame rate and the start PTS matter. *)
Definition stream_at (fpsNum fpsDen startPTS : Z) : Stream :=
  Upd.startPTS startPTS
    {| _idx := 0; _time_base := {| num := 1; den := fpsNum |};
       _pix_fmt := AV_PIX_FMT_RGB24;
       _isYUV := false; _isRec709Format := false;
       _fpsNum := fpsNum; _fpsDen := fpsDen; _startPTS := 0; _frames := 0;
       _bitDepth := 8; _numberOfComponents := 3;
       _outputPixelFormat := AV_PIX_FMT_RGB24;
       _width := 320; _height := 240;
       _decodeNextFrameIn := -1; _decodeNextFrameOut := -1;
       _accumDecodeLatency := 0;
       _timestampField := FieldPts; _ptsSeen := false;
       _resetConvertCtx := false; _colorMatrixTypeOverride := 0;
       _convertCtx := None |}.

Definition avstream_with (nb : Z) : AVStream :=
  {| start_time := 0; nb_frames := nb; duration := 0;
     time_base := {| num := 1; den := 24 |};
     r_frame_rate := {| num := 24; den := 1 |} |}.

(** A two-frame stream, one tick per frame, whose decoder never releases
    a frame (a file whose packets are all flagged as key frames and are
    not): the seek to the timestamp [t] lands on packet [t]. *)
Module Stalled.

Definition packet (t : Z) : AVPacket :=
  {| stream_index := 0; pts := t; dts := t |}.

Definition oracle : FileWorld.Oracle :=
  {| FileWorld.file := [packet 0; packet 1];
     FileWorld.seek := fun _ t => (0, Z.to_nat t);
     FileWorld.read_code := fun _ => 0;
     FileWorld.decoder := fun _ => (0, false);
     FileWorld.delay := fun _ => 0;
     FileWorld.range := fun _ => AVCOL_RANGE_UNSPECIFIED;
     FileWorld.sws_ok := fun _ => true;
     FileWorld.sws_code := fun _ => 0;
     FileWorld.strerror := fun _ => "error" |}.

Definition stream0 : Stream :=
  {| _idx := 0; _time_base := {| num := 1; den := 1 |};
     _pix_fmt := AV_PIX_FMT_RGB24;
     _isYUV := false; _isRec709Format := false;
     _fpsNum := 1; _fpsDen := 1; _startPTS := 0; _frames := 2;
     _bitDepth := 8; _numberOfComponents := 3;
     _outputPixelFormat := AV_PIX_FMT_RGB24;
     _width := 4; _height := 2;
     _decodeNextFrameIn := -1; _decodeNextFrameOut := -1;
     _accumDecodeLatency := 0;
     _timestampField := FieldPts; _ptsSeen := false;
     _resetConvertCtx := false; _colorMatrixTypeOverride := 0;
     _convertCtx := None |}.

Definition reader : FFmpegFile :=
  {| _filename := "stalled.mov"; _context := None; _streams := [stream0];
     _errorMsg := ""; _invalidState := false; _data := Some 24 |}.

End Stalled.

(** A three-frame stream whose packets carry no PTS, only a DTS; the
    decoder releases every frame at once. *)
Module NoPts.

Definition packet (t : Z) : AVPacket :=
  {| stream_index := 0; pts := AV_NOPTS_VALUE; dts := t |}.

Definition oracle : FileWorld.Oracle :=
  {| FileWorld.file := [packet 0; packet 1; packet 2];
     FileWorld.seek := fun _ t => (0, Z.to_nat t);
     FileWorld.read_code := fun _ => 0;
     FileWorld.decoder := fun _ => (0, true);
     FileWorld.delay := fun _ => 0;
     FileWorld.range := fun _ => AVCOL_RANGE_UNSPECIFIED;
     FileWorld.sws_ok := fun _ => true;
     FileWorld.sws_code := fun _ => 0;
     FileWorld.strerror := fun _ => "error" |}.

Definition stream0 : Stream := Upd.frames 3 Stalled.stream0.

(** The call [decode (1, false, 1)] once the first seek is done. *)
Definition seeking : DecodeState FileWorld.World :=
  snd (seekFrame (FileWorld.libav oracle) 1
         (invalidate 1 (decode_init stream0 FileWorld.start "" false 1 1))).

(** The same call one pass through the loop later: the reader has gone
    back to frame 0. *)
Definition seeking_start : DecodeState FileWorld.World :=
  match decode_iteration (FileWorld.libav oracle) true false seeking with
  | Next st | Break st | ReturnFalse st => st
  | Aborted => seeking
  end.

(** The reader once it goes by DTS, seeking frame 0 on a stream whose
    packet at the start has no DTS either. *)
Definition headless : FileWorld.Oracle :=
  {| FileWorld.file := [{| stream_index := 0; pts := AV_NOPTS_VALUE;
                           dts := AV_NOPTS_VALUE |}];
     FileWorld.seek := fun _ t => (0, Z.to_nat t);
     FileWorld.read_code := fun _ => 0;
     FileWorld.decoder := fun _ => (0, true);
     FileWorld.delay := fun _ => 0;
     FileWorld.range := fun _ => AVCOL_RANGE_UNSPECIFIED;
     FileWorld.sws_ok := fun _ => true;
     FileWorld.sws_code := fun _ => 0;
     FileWorld.strerror := fun _ => "error" |}.

Definition by_dts : DecodeState FileWorld.World :=
  snd (seekFrame (FileWorld.libav headless) 0
         (invalidate 0 (decode_init (Upd.timestampField FieldDts stream0)
                                    FileWorld.start "" false 0 1))).

End NoPts.

(** A stream that announces two frames in a container that holds no
    packet at all. *)
Module Truncated.

Definition oracle : FileWorld.Oracle :=
  {| FileWorld.file := [];
     FileWorld.seek := fun _ t => (0, Z.to_nat t);
     FileWorld.read_code := fun _ => 0;
     FileWorld.decoder := fun _ => (0, false);
     FileWorld.delay := fun _ => 0;
     FileWorld.range := fun _ => AVCOL_RANGE_UNSPECIFIED;
     FileWorld.sws_ok := fun _ => true;
     FileWorld.sws_code := fun _ => 0;
     FileWorld.strerror := fun _ => "error" |}.

(** The call [decode (1, _, 1)] once the first seek is done. *)
Definition seeking : DecodeState FileWorld.World :=
  snd (seekFrame (FileWorld.libav oracle) 1
         (invalidate 1 (decode_init Stalled.stream0 FileWorld.start "" false 1 1))).

End Truncated.

(** A source that never ends and only ever delivers packets of another
    stream (a live feed whose video has stopped). *)
Module Endless.

Definition libav : Libav unit :=
  {| av_read_frame := fun w => ((0, {| stream_index := 1; pts := 0; dts := 0 |}), w);
     avcodec_flush_buffers := fun w => w;
     av_seek_frame := fun _ _ w => (0, w);
     avcodec_decode_video2 := fun _ w => ((0, false), w);
     color_range := fun _ => AVCOL_RANGE_UNSPECIFIED;
     getCodecDelay := fun _ => 0;
     sws_getContext_ok := fun _ => true;
     sws_setColorspaceDetails_code := fun _ => 0;
     sws_scale := fun _ w => w;
     av_strerror := fun _ => "error" |}.

(** The call [decode (1, false, 1)] once the first seek is done. *)
Definition seeking : DecodeState unit :=
  snd (seekFrame libav 1
         (invalidate 1 (decode_init Stalled.stream0 tt "" false 1 1))).

End Endless.

(** A YUV stream without a converter, in a world whose
    [sws_setColorspaceDetails] answers -1. *)
Module Refused.

Definition oracle : FileWorld.Oracle :=
  {| FileWorld.file := [];
     FileWorld.seek := fun _ _ => (0, O);
     FileWorld.read_code := fun _ => 0;
     FileWorld.decoder := fun _ => (0, true);
     FileWorld.delay := fun _ => 0;
     FileWorld.range := fun _ => AVCOL_RANGE_MPEG;
     FileWorld.sws_ok := fun _ => true;
     FileWorld.sws_code := fun _ => -1;
     FileWorld.strerror := fun _ => "error" |}.

Definition call (ndebug : bool) (s : Stream) : ConvertResult FileWorld.World :=
  getConvertCtx (FileWorld.libav oracle) ndebug s
                (_pix_fmt s) (_width s) (_height s) AVCOL_RANGE_MPEG
                (_outputPixelFormat s) (_width s) (_height s)
                FileWorld.start.

End Refused.

(** A container that holds a single audio stream. *)
Definition audio_stream : ContainerStream :=
  {| cs_valid := true; cs_avstream := avstream_with 0;
     cs_is_video := false; cs_decoder := Some 0; cs_lowres := 0;
     cs_open := fun _ _ => 0;
     cs_bits_per_raw_sample := 0; cs_pix_fmt := AV_PIX_FMT_OTHER (-1);
     cs_nb_components := 0; cs_bits_per_pixel := 0;
     cs_width := 0; cs_height := 0; cs_isYUV := false; cs_isRec709 := false;
     cs_start_seek := 0; cs_start_packets := []; cs_scan_packets := [] |}.

Definition audio_only : Container :=
  {| open_input := 0; find_stream_info := 0;
     format_context := {| ctx_duration := 1000000; ctx_metadata := None;
                          ctx_streams := [audio_stream] |};
     nprocessors := 4; strerror := fun _ => "error" |}.

(** A 320x240 clip with one 8-bit RGBA video stream. *)
Definition rgba_stream : ContainerStream :=
  {| cs_valid := true; cs_avstream := avstream_with 10;
     cs_is_video := true; cs_decoder := Some 2; cs_lowres := 0;
     cs_open := fun _ _ => 0;
     cs_bits_per_raw_sample := 8; cs_pix_fmt := AV_PIX_FMT_RGBA;
     cs_nb_components := 4; cs_bits_per_pixel := 32;
     cs_width := 320; cs_height := 240; cs_isYUV := false; cs_isRec709 := false;
     cs_start_seek := 0; cs_start_packets := []; cs_scan_packets := [] |}.

Definition rgba_clip : Container :=
  {| open_input := 0; find_stream_info := 0;
     format_context := {| ctx_duration := 416667; ctx_metadata := None;
                          ctx_streams := [rgba_stream] |};
     nprocessors := 4; strerror := fun _ => "error" |}.

Definition rgba_descriptor : Stream :=
  Eval vm_compute in hd new_Stream (_streams (FFmpegFile_open "clip.mov" rgba_clip)).

(** The same clip with a picture of no width, as a file with a damaged
    header declares it. *)
Definition empty_rgba_stream : ContainerStream :=
  {| cs_valid := true; cs_avstream := avstream_with 10;
     cs_is_video := true; cs_decoder := Some 2; cs_lowres := 0;
     cs_open := fun _ _ => 0;
     cs_bits_per_raw_sample := 8; cs_pix_fmt := AV_PIX_FMT_RGBA;
     cs_nb_components := 4; cs_bits_per_pixel := 32;
     cs_width := 0; cs_height := 240; cs_isYUV := false; cs_isRec709 := false;
     cs_start_seek := 0; cs_start_packets := []; cs_scan_packets := [] |}.

Definition empty_rgba_clip : Container :=
  {| open_input := 0; find_stream_info := 0;
     format_context := {| ctx_duration := 416667; ctx_metadata := None;
                          ctx_streams := [empty_rgba_stream] |};
     nprocessors := 4; strerror := fun _ => "error" |}.

(** A 25 fps clip of unknown length: the container gives no duration,
    the stream no frame count, and the stream's duration is
    [AV_NOPTS_VALUE], the value libav leaves where it knows none. *)
Definition unknown_length_stream : ContainerStream :=
  {| cs_valid := true;
     cs_avstream := {| start_time := 0; nb_frames := 0; duration := AV_NOPTS_VALUE;
                       time_base := {| num := 1; den := 25 |};
                       r_frame_rate := {| num := 25; den := 1 |} |};
     cs_is_video := true; cs_decoder := Some 2; cs_lowres := 0;
     cs_open := fun _ _ => 0;
     cs_bits_per_raw_sample := 8; cs_pix_fmt := AV_PIX_FMT_RGBA;
     cs_nb_components := 4; cs_bits_per_pixel := 32;
     cs_width := 320; cs_height := 240; cs_isYUV := false; cs_isRec709 := false;
     cs_start_seek := 0; cs_start_packets := []; cs_scan_packets := [] |}.

Definition unknown_length_clip : Container :=
  {| open_input := 0; find_stream_info := 0;
     format_context := {| ctx_duration := 0; ctx_metadata := None;
                          ctx_streams := [unknown_length_stream] |};
     nprocessors := 4; strerror := fun _ => "error" |}.

Definition unknown_length_descriptor : Stream :=
  Eval vm_compute in
    hd new_Stream (_streams (FFmpegFile_open "clip.mov" unknown_length_clip)).

(** A reader of a file written by an old Arri camera, whose metadata
    keys are in lower case. *)
Definition lower_case_metadata : AVDictionary :=
  [("com.apple.quicktime.make", "ARRI");
   ("uk.co.thefoundry.colorspace", "sRGB");
   ("com.arri.camera.colorgammasxs", "LOG-C")].



(* ===================================================================== *)
(** * The rest of the reader *)
(* ===================================================================== *)

From Stdlib Require Import Sorted.

(** What FFmpegFile.cpp holds besides the code the specification's
    statements are about, and the notions and scenarios its properties
    are stated with. *)

(* ===================================================================== *)
(** ** Still images told from movies: [FFmpegFile::isImageFile] *)
(* ===================================================================== *)

(** [extensionCorrespondToImageFile]. *)
Definition extensionCorrespondToImageFile (ext : string) : bool :=
  (ext =? "bmp")%string ||
  (ext =? "pix")%string ||
  (ext =? "dpx")%string ||
  (ext =? "exr")%string ||
  (ext =? "jpeg")%string ||
  (ext =? "jpg")%string ||
  (ext =? "png")%string ||
  (ext =? "ppm")%string ||
  (ext =? "ptx")%string ||
  (ext =? "tiff")%string ||
  (ext =? "tga")%string ||
  (ext =? "rgba")%string ||
  (ext =? "rgb")%string.

(** [std::string::find_last_of (c)]: the index of the last [c] in [s],
    [None] for [npos]. *)
Fixpoint find_last_of (s : string) (c : ascii) : option nat :=
  match s with
  | EmptyString => None
  | String a s' =>
    match find_last_of s' c with
    | Some i => Some (S i)
    | None => if Ascii.eqb a c then Some O else None
    end
  end.

(** The loop of [isImageFile]: while [lastDot] is an index of
    [filename], the character there is appended to [ext] through
    [std::tolower] (of the classic locale) and [lastDot] moves on.
    [fuel] bounds the passes; the length of [filename] is enough. *)
Fixpoint append_lowered (fuel : nat) (filename : string) (lastDot : nat)
         (ext : string) : string :=
  match fuel with
  | O => ext
  | S fuel =>
    if (lastDot <? String.length filename)%nat then
      match String.get lastDot filename with
      | Some c =>
        append_lowered fuel filename (S lastDot)
                       (ext ++ String (c_tolower c) EmptyString)
      | None => ext (* [at] past the end throws; the test above excludes it *)
      end
    else ext
  end.

(** [FFmpegFile::isImageFile]. *)
Definition isImageFile (filename : string) : bool :=
  match find_last_of filename "."%char with
  | None => false
  | Some lastDot =>
    let lastDot := S lastDot in
    let ext := append_lowered (String.length filename) filename lastDot "" in
    extensionCorrespondToImageFile ext
  end.

(* ===================================================================== *)
(** ** The error state: [FFmpegFile::isInvalid], [FFmpegFile::getError] *)
(* ===================================================================== *)

(** [FFmpegFile::isInvalid]. *)
Definition isInvalid (r : FFmpegFile) : bool := _invalidState r.

(** [FFmpegFile::getError]. *)
Definition getError (r : FFmpegFile) : string := _errorMsg r.

(* ===================================================================== *)
(** ** The reader as its user sees it *)
(* ===================================================================== *)

(** The calls a user makes on an open reader: the public methods that
    FFmpegFile.cpp defines and that are embedded here. *)
Inductive Call : Type :=
| CallDecode (frame : Z) (loadNearest : bool) (maxRetries : Z)
| CallGetColorspace
| CallGetError
| CallIsInvalid
| CallGetRowSize
| CallGetBufferSize
| CallIsImageFile (filename : string).

(** What the caller gets: the value returned, the exception that
    escapes the call, or the abort of an assertion. *)
Inductive Seen : Type :=
| SeenBool (b : bool)
| SeenInt (z : Z)
| SeenText (s : string)
| SeenThrow (what : string)
| SeenAbort.

Section PublicCalls.

Variable W : Type.
Variable L : Libav W.
Variable ndebug : bool.

(** A call [c] on the reader [r] in the world [w]. *)
Definition public_call (fuel : nat) (r : FFmpegFile) (w : W) (c : Call)
  : option Seen :=
  match c with
  | CallDecode frame loadNearest maxRetries =>
    match decode L ndebug fuel r w frame loadNearest maxRetries with
    | None => None
    | Some (Throw what, _) => Some (SeenThrow what)
    | Some (Abort, _) => Some SeenAbort
    | Some (Return b, _) => Some (SeenBool b)
    end
  | CallGetColorspace => Some (SeenText (getColorspace r))
  | CallGetError => Some (SeenText (getError r))
  | CallIsInvalid => Some (SeenBool (isInvalid r))
  | CallGetRowSize => Some (SeenInt (getRowSize r))
  | CallGetBufferSize => Some (SeenInt (getBufferSize r))
  | CallIsImageFile filename => Some (SeenBool (isImageFile filename))
  end.

End PublicCalls.

(* ===================================================================== *)
(** ** What the further properties are stated with *)
(* ===================================================================== *)

(** The packets of stream [idx] that carry a PTS. *)
Definition has_pts_of (idx : Z) (p : AVPacket) : bool :=
  (stream_index p =? idx) && negb (pts p =? AV_NOPTS_VALUE).

(** The container stream [cs] with another answer of [avcodec_open2]. *)
Definition with_cs_open (open : Z -> bool -> Z) (cs : ContainerStream)
  : ContainerStream :=
  {| cs_valid := cs_valid cs; cs_avstream := cs_avstream cs;
     cs_is_video := cs_is_video cs; cs_decoder := cs_decoder cs;
     cs_lowres := cs_lowres cs; cs_open := open;
     cs_bits_per_raw_sample := cs_bits_per_raw_sample cs;
     cs_pix_fmt := cs_pix_fmt cs; cs_nb_components := cs_nb_components cs;
     cs_bits_per_pixel := cs_bits_per_pixel cs;
     cs_width := cs_width cs; cs_height := cs_height cs;
     cs_isYUV := cs_isYUV cs; cs_isRec709 := cs_isRec709 cs;
     cs_start_seek := cs_start_seek cs;
     cs_start_packets := cs_start_packets cs;
     cs_scan_packets := cs_scan_packets cs |}.

(** A stream of the container that the constructor registers: a valid
    video stream whose decoder is found. *)
Definition decodable_video (cs : ContainerStream) : Prop :=
  cs_valid cs = true /\ cs_is_video cs = true /\ cs_decoder cs <> None.

(** The streams registered point, in the order of the container, at
    decodable video streams of it. *)
Definition registered_in_order (container : list ContainerStream)
           (streams : list Stream) : Prop :=
  StronglySorted (fun s s' => _idx s < _idx s') streams /\
  Forall (fun s =>
            0 <= _idx s /\
            exists cs, nth_error container (Z.to_nat (_idx s)) = Some cs /\
                       decodable_video cs)
         streams.

(** The bytes libav's packed RGB formats take per pixel. *)
Definition bytes_per_pixel (f : AVPixelFormat) : Z :=
  match f with
  | AV_PIX_FMT_RGB24 => 3
  | AV_PIX_FMT_RGBA => 4
  | AV_PIX_FMT_RGB48LE => 6
  | AV_PIX_FMT_RGBA64LE => 8
  | _ => 0
  end.

(** The parts of a stream descriptor that describe the medium and not
    the progress of decoding. *)
Definition same_medium (s s' : Stream) : Prop :=
  _idx s' = _idx s /\ _time_base s' = _time_base s /\
  _pix_fmt s' = _pix_fmt s /\ _isYUV s' = _isYUV s /\
  _isRec709Format s' = _isRec709Format s /\
  _fpsNum s' = _fpsNum s /\ _fpsDen s' = _fpsDen s /\
  _startPTS s' = _startPTS s /\
  _bitDepth s' = _bitDepth s /\
  _numberOfComponents s' = _numberOfComponents s /\
  _outputPixelFormat s' = _outputPixelFormat s /\
  _width s' = _width s /\ _height s' = _height s /\
  _colorMatrixTypeOverride s' = _colorMatrixTypeOverride s.

(** The flag [sws_setColorspaceDetails] is given for the range of the
    source. *)
Definition source_range_flag (range : AVColorRange) : Z :=
  match range with
  | AVCOL_RANGE_JPEG => 1
  | _ => 0
  end.

(** The colour matrix chosen for a stream: the override of the user
    interface when there is one, what the stream says otherwise. *)
Definition chosen_matrix (s : Stream) : SwsColorspace :=
  if 0 <? _colorMatrixTypeOverride s
  then (if _colorMatrixTypeOverride s =? 1 then SWS_CS_ITU709 else SWS_CS_ITU601)
  else (if _isRec709Format s then SWS_CS_ITU709 else SWS_CS_ITU601).

(** Every seek among the events aims at a frame from 0 to [f]. *)
Definition seeks_within (f : Z) (l : list Event) : Prop :=
  forall t : Z, In (EvSeek t) l -> 0 <= t <= f.

(** The errors a call of [decode] records: a failure of the library,
    with the text the library gives for its code, or one of the three
    verdicts of the reader on the file. *)
Definition decode_error (strerror : Z -> string) (msg : string) : Prop :=
  (exists error : Z,
      error < 0 /\
      (msg = "FFmpeg Reader failed to seek frame: " ++ strerror error \/
       msg = "FFmpeg Reader failed to read frame: " ++ strerror error \/
       msg = "FFmpeg Reader failed to decode frame: " ++ strerror error)) \/
  msg = "FFmpeg Reader failed to find timing reference frame, possible file corruption" \/
  msg = "FFmpeg Reader failed to find decode reference frame, possible file corruption" \/
  msg = "FFmpeg Reader detected decoding stall, possible file corruption".

(** What a call of [decode] keeps, besides what the specification's
    statements need. *)
Section DecodeFurtherNotions.

Variable W : Type.

(** The medium of the stream [s0] is kept, and the frame count is not
    above [F0]. *)
Definition medium_kept (s0 : Stream) (F0 : Z) (st : DecodeState W) : Prop :=
  same_medium s0 (stream st) /\ _frames (stream st) <= F0.

(** The seeks so far and the seeks the state can lead to aim at frames
    from 0 to [F], the frame asked for. *)
Definition seeks_in_range (F : Z) (st : DecodeState W) : Prop :=
  seeks_within F (trace st) /\ frame st = F /\ lastSeekedFrame st <= F /\
  (awaitingFirstDecodeAfterSeek st = true ->
   _decodeNextFrameOut (stream st) <= F).

(** A PTS has been seen on the stream, which goes by the timestamp
    field [field] and has not been switched to DTS in this call. *)
Definition pts_seen (field : TimestampField) (st : DecodeState W) : Prop :=
  _ptsSeen (stream st) = true /\
  count_switches (trace st) = O /\
  _timestampField (stream st) = field.

(** The events [first] are the earliest of the call. *)
Definition began_with (first : list Event) (st : DecodeState W) : Prop :=
  exists later : list Event, trace st = (later ++ first)%list.

End DecodeFurtherNotions.

(** A container that holds the frames of the stream [s] and nothing
    else: one packet per frame, in presentation order, each with a
    timestamp that maps to the index of its frame.  Reads, seeks and the
    decoder do not fail, and the decoder releases a frame for every
    packet it is fed. *)
Definition plain_file (orc : FileWorld.Oracle) (s : Stream) : Prop :=
  (forall t : nat, 0 <= FileWorld.read_code orc t) /\
  (forall t : nat,
      0 <= fst (FileWorld.decoder orc t) /\ snd (FileWorld.decoder orc t) = true) /\
  (forall (t : nat) (timestamp : Z), 0 <= fst (FileWorld.seek orc t timestamp)) /\
  (forall (i : nat) (p : AVPacket),
      nth_error (FileWorld.file orc) i = Some p ->
      stream_index p = _idx s /\
      timestamp_of (_timestampField s) p <> AV_NOPTS_VALUE /\
      to_int (ptsToFrame s (timestamp_of (_timestampField s) p)) = Z.of_nat i).

(** A three-frame stream, one packet per frame in presentation order,
    whose only key frame is the first: every seek lands at the start of
    the container; the decoder releases each frame as it is fed. *)
Module Plain.

Definition oracle : FileWorld.Oracle :=
  {| FileWorld.file := [Stalled.packet 0; Stalled.packet 1; Stalled.packet 2];
     FileWorld.seek := fun _ _ => (0, O);
     FileWorld.read_code := fun _ => 0;
     FileWorld.decoder := fun _ => (0, true);
     FileWorld.delay := fun _ => 0;
     FileWorld.range := fun _ => AVCOL_RANGE_UNSPECIFIED;
     FileWorld.sws_ok := fun _ => true;
     FileWorld.sws_code := fun _ => 0;
     FileWorld.strerror := fun _ => "error" |}.

Definition stream0 : Stream := Upd.frames 3 Stalled.stream0.

Definition reader : FFmpegFile :=
  {| _filename := "plain.mov"; _context := None; _streams := [stream0];
     _errorMsg := ""; _invalidState := false; _data := Some 24 |}.

(** The same stream in YUV, with the colour matrix forced to Rec. 601
    from the user interface. *)
Definition yuv_stream : Stream :=
  {| _idx := 0; _time_base := {| num := 1; den := 1 |};
     _pix_fmt := AV_PIX_FMT_YUVJ420P;
     _isYUV := true; _isRec709Format := true;
     _fpsNum := 1; _fpsDen := 1; _startPTS := 0; _frames := 3;
     _bitDepth := 8; _numberOfComponents := 3;
     _outputPixelFormat := AV_PIX_FMT_RGB24;
     _width := 4; _height := 2;
     _decodeNextFrameIn := -1; _decodeNextFrameOut := -1;
     _accumDecodeLatency := 0;
     _timestampField := FieldPts; _ptsSeen := false;
     _resetConvertCtx := true; _colorMatrixTypeOverride := 2;
     _convertCtx := None |}.

(** A reader of the same container that takes it to hold five
    frames. *)
Definition overstated : FFmpegFile :=
  {| _filename := "plain.mov"; _context := None;
     _streams := [Upd.frames 5 Stalled.stream0];
     _errorMsg := ""; _invalidState := false; _data := Some 24 |}.

(** The reader and the world after the call [decode (0, false, 1)]. *)
Definition first_call : option (DecodeResult * DecodeState FileWorld.World) :=
  decode (FileWorld.libav oracle) true 20 reader FileWorld.start 0 false 1.

Definition playing : FFmpegFile :=
  match first_call with
  | Some (_, st) => reader_after reader st
  | None => reader
  end.

Definition after_first : FileWorld.World :=
  match first_call with
  | Some (_, st) => world st
  | None => FileWorld.start
  end.

(** The same container read through a scaler that refuses the colour
    details. *)
Definition refusing : FileWorld.Oracle :=
  {| FileWorld.file := [Stalled.packet 0; Stalled.packet 1; Stalled.packet 2];
     FileWorld.seek := fun _ _ => (0, O);
     FileWorld.read_code := fun _ => 0;
     FileWorld.decoder := fun _ => (0, true);
     FileWorld.delay := fun _ => 0;
     FileWorld.range := fun _ => AVCOL_RANGE_UNSPECIFIED;
     FileWorld.sws_ok := fun _ => true;
     FileWorld.sws_code := fun _ => -1;
     FileWorld.strerror := fun _ => "error" |}.

Definition yuv_reader : FFmpegFile :=
  {| _filename := "plain.mov"; _context := None; _streams := [yuv_stream];
     _errorMsg := ""; _invalidState := false; _data := Some 24 |}.

Definition convert (s : Stream) : ConvertResult FileWorld.World :=
  getConvertCtx (FileWorld.libav oracle) false s
                (_pix_fmt s) (_width s) (_height s) AVCOL_RANGE_UNSPECIFIED
                (_outputPixelFormat s) (_width s) (_height s)
                FileWorld.start.

End Plain.

(** An 8-bit gray video stream for which the codec reports no bits per
    raw sample. *)
Definition gray_stream : ContainerStream :=
  {| cs_valid := true; cs_avstream := avstream_with 10;
     cs_is_video := true; cs_decoder := Some 2; cs_lowres := 0;
     cs_open := fun _ _ => 0;
     cs_bits_per_raw_sample := 0; cs_pix_fmt := AV_PIX_FMT_OTHER 8;
     cs_nb_components := 1; cs_bits_per_pixel := 8;
     cs_width := 320; cs_height := 240; cs_isYUV := true; cs_isRec709 := false;
     cs_start_seek := 0; cs_start_packets := []; cs_scan_packets := [] |}.

(* ===================================================================== *)
(** * Properties *)
(* ===================================================================== *)

(** ** Machine integers *)

Lemma to_int_id (z : Z) : in_int z -> to_int z = z.
Proof.
  unfold in_int, INT_MIN, INT_MAX, to_int, wrap. intros H.
  rewrite Z.mod_small; lia.
Qed.

Lemma to_int64_id (z : Z) : in_int64 z -> to_int64 z = z.
Proof.
  unfold in_int64, to_int64, wrap. intros H.
  rewrite Z.mod_small; lia.
Qed.

Lemma to_int_range (z : Z) : in_int (to_int z).
Proof.
  unfold in_int, INT_MIN, INT_MAX, to_int, wrap.
  pose proof (Z.mod_pos_bound (z + 2 ^ (32 - 1)) (2 ^ 32) ltac:(lia)). lia.
Qed.

(** ** Frame and timestamp mapping (C2) *)

(** C2, as stated, fails: frame 1 of a 29.97 fps stream with a
    millisecond time base starts at tick 33, and tick 33 maps back to
    frame 0. *)
Lemma C2_round_trip_fails :
  ~ (forall (s : Stream) (f : Z),
        0 < _fpsNum s -> 0 < _fpsDen s ->
        0 < num (_time_base s) -> 0 < den (_time_base s) ->
        0 <= f < _frames s ->
        ptsToFrame s (frameToPts s f) = f).
Proof.
  intros H.
  specialize (H ntsc_ms_stream 1).
  vm_compute in H.
  assert (E : 0 = 1) by (apply H; split; congruence).
  discriminate E.
Qed.

(** C2, amended: with positive rates the round trip never overshoots,
    [pts_to_frame (frame_to_pts f) <= f] for every [f >= 0], and it gives
    [f] back whenever frame [f] starts on a whole tick, that is when
    [fps_num * tb_num] divides [f * fps_den * tb_den]. *)
Theorem C2_round_trip_amended (s : Stream) (f : Z) :
  0 < _fpsNum s -> 0 < _fpsDen s ->
  0 < num (_time_base s) -> 0 < den (_time_base s) ->
  0 <= f ->
  ptsToFrame s (frameToPts s f) <= f /\
  ((_fpsNum s * num (_time_base s) | f * _fpsDen s * den (_time_base s)) ->
   ptsToFrame s (frameToPts s f) = f).
Proof.
  intros Hn Hd Htn Htd Hf.
  unfold ptsToFrame, frameToPts.
  set (a := _fpsDen s * den (_time_base s)).
  set (b := _fpsNum s * num (_time_base s)).
  assert (Ha : 0 < a) by (unfold a; nia).
  assert (Hb : 0 < b) by (unfold b; nia).
  replace (f * _fpsDen s * den (_time_base s)) with (f * a) by (unfold a; ring).
  assert (Hfa : 0 <= f * a) by nia.
  rewrite (Z.quot_div_nonneg (f * a) b) by lia.
  set (q := f * a / b).
  assert (Hq : 0 <= q) by (apply Z.div_pos; lia).
  replace ((q + _startPTS s - _startPTS s) * _fpsNum s * num (_time_base s))
    with (q * b) by (unfold b; ring).
  assert (Hqb : q * b <= f * a).
  { unfold q. rewrite Z.mul_comm. apply Z.mul_div_le. lia. }
  rewrite Z.quot_div_nonneg by nia.
  split.
  - apply Z.div_le_upper_bound; [lia | nia].
  - intros [k Hk].
    assert (Hqk : q = k) by (unfold q; rewrite Hk; apply Z.div_mul; lia).
    rewrite Hqk, <- Hk. apply Z.div_mul. lia.
Qed.

Lemma C2_round_trip_amended_witness :
  ptsToFrame ntsc_ms_stream (frameToPts ntsc_ms_stream 30) <= 30 /\
  ptsToFrame ntsc_ms_stream (frameToPts ntsc_ms_stream 30) = 30.
Proof.
  assert (H := C2_round_trip_amended ntsc_ms_stream (f := 30)).
  simpl in H.
  destruct H as [Hle Heq]; try lia.
  split; [exact Hle |].
  apply Heq. exists 1001. reflexivity.
Defined.

(** ** Frame count from the container duration (C5) *)

(** C5, as stated, fails on its own example: a container reporting
    5.0042 seconds at 24 fps whose stream counts 5 frames gets 121
    frames, the stream's count being 116 away. *)
Lemma C5_five_seconds_is_121_frames :
  getStreamFrames 5004200 (avstream_with 5) (stream_at 24 1 0) [] = 121 /\
  getStreamFrames 5004200 (avstream_with 5) (stream_at 24 1 0) [] <> 5.
Proof. split; vm_compute; congruence. Qed.

(** C5, amended: when the container reports a nonzero duration and the
    arithmetic stays within [int64_t], the count is
    [((duration - 1) * fps_num + divisor - 1) / divisor] with
    [divisor = AV_TIME_BASE * fps_den], replaced by the stream's own count
    when that is positive and at most 1 away; this value is
    [total_frames] whenever it is not zero. *)
Theorem C5_frames_from_duration
        (ctx_duration : Z) (avstream : AVStream) (s : Stream)
        (packets : list AVPacket) :
  let divisor := AV_TIME_BASE * _fpsDen s in
  let frames := Z.quot ((ctx_duration - 1) * _fpsNum s + divisor - 1) divisor in
  let chosen :=
    if (0 <? nb_frames avstream) && (Z.abs (frames - nb_frames avstream) <=? 1)
    then nb_frames avstream else frames in
  ctx_duration <> 0 ->
  in_int64 divisor ->
  in_int64 ((ctx_duration - 1) * _fpsNum s + divisor - 1) ->
  in_int64 (frames - nb_frames avstream) ->
  chosen <> 0 ->
  getStreamFrames ctx_duration avstream s packets = chosen.
Proof.
  intros divisor frames chosen Hd Hdiv Hnum Hdiff Hc.
  unfold getStreamFrames, frames_from_duration.
  fold divisor.
  destruct (Z.eqb_spec ctx_duration 0) as [E | _]; [contradiction |].
  cbv zeta. cbn [negb].
  rewrite (to_int64_id Hdiv), (to_int64_id Hnum).
  fold frames.
  rewrite (to_int64_id Hdiff).
  fold chosen.
  assert (E : (chosen =? 0) = false) by (apply Z.eqb_neq; exact Hc).
  repeat (rewrite E; cbv iota).
  reflexivity.
Qed.

(** Five frames at 24 fps whose duration was rounded up to 0.209 s: the
    duration gives 6, the stream counts 5, and 5 it is. *)
Lemma C5_frames_from_duration_witness :
  getStreamFrames 209000 (avstream_with 5) (stream_at 24 1 0) [] = 5.
Proof.
  apply (@C5_frames_from_duration 209000 (avstream_with 5) (stream_at 24 1 0) []);
    unfold in_int64; simpl; lia.
Defined.

(** ** The scaler cache when the configuration fails (C7) *)

(** C7, as stated, fails: after [sws_setColorspaceDetails] has answered
    -1 the converter is still cached, and the next call hands the same
    converter out again. *)
Lemma C7_converter_kept_after_failure :
  exists (c : SwsContext) (s' : Stream),
    Refused.call true ntsc_ms_stream = Converted (Some c) s' FileWorld.start /\
    _convertCtx s' = Some c /\
    _convertCtx s' <> None /\
    Refused.call true s' = Converted (Some c) s' FileWorld.start.
Proof.
  eexists. eexists.
  split; [vm_compute; reflexivity |].
  split; [reflexivity |].
  split; [discriminate | vm_compute; reflexivity].
Qed.

(** C7, amended: when the native configuration call answers -1 on a
    freshly built converter of a YUV stream, a build with assertions
    stops at [assert(result != -1)]; with assertions compiled out the
    converter stays cached, without colour details, and is returned, and
    every later call on the stream returns that same converter without
    building or configuring anything. *)
Theorem C7_failed_configuration
        (W : Type) (L : Libav W) (s : Stream)
        (src dst : AVPixelFormat) (w h : Z) (range : AVColorRange) (world : W) :
  _isYUV s = true ->
  _resetConvertCtx s = true \/ _convertCtx s = None ->
  sws_getContext_ok L world = true ->
  sws_setColorspaceDetails_code L world = -1 ->
  getConvertCtx L false s src w h range dst w h world = AssertFailed /\
  exists (c : SwsContext) (s' : Stream),
    getConvertCtx L true s src w h range dst w h world = Converted (Some c) s' world /\
    _convertCtx s' = Some c /\
    sws_details c = None /\
    forall (src' dst' : AVPixelFormat) (w' h' : Z) (range' : AVColorRange) (world' : W),
      getConvertCtx L true s' src' w' h' range' dst' w' h' world'
      = Converted (Some c) s' world'.
Proof.
  intros Hyuv Hfresh Hok Hcode.
  unfold getConvertCtx.
  assert (Hnone : _convertCtx (if _resetConvertCtx s
                               then Upd.convert false None s else s) = None).
  { destruct (_resetConvertCtx s) eqn:E; [reflexivity |].
    destruct Hfresh as [H | H]; [discriminate | exact H]. }
  assert (Hy : _isYUV (if _resetConvertCtx s
                       then Upd.convert false None s else s) = true).
  { destruct (_resetConvertCtx s); simpl; exact Hyuv. }
  assert (Hr : _resetConvertCtx (if _resetConvertCtx s
                                 then Upd.convert false None s else s) = false).
  { destruct (_resetConvertCtx s) eqn:E; simpl; [reflexivity | exact E]. }
  rewrite Hnone, Hok, Hcode. cbn -[Z.pow].
  rewrite Hy. cbn -[Z.pow].
  split; [reflexivity |].
  eexists. eexists. split; [reflexivity |].
  split; [reflexivity |]. split; [reflexivity |].
  intros. cbn -[Z.pow]. rewrite Hr. reflexivity.
Qed.

Lemma C7_failed_configuration_witness :
  Refused.call false ntsc_ms_stream = AssertFailed /\
  exists (c : SwsContext) (s' : Stream),
    Refused.call true ntsc_ms_stream = Converted (Some c) s' FileWorld.start /\
    _convertCtx s' = Some c /\
    sws_details c = None /\
    forall (src' dst' : AVPixelFormat) (w' h' : Z) (range' : AVColorRange)
           (world' : FileWorld.World),
      getConvertCtx (FileWorld.libav Refused.oracle) true s' src' w' h' range' dst' w' h' world'
      = Converted (Some c) s' world'.
Proof.
  unfold Refused.call.
  apply (@C7_failed_configuration _ (FileWorld.libav Refused.oracle) ntsc_ms_stream
           (_pix_fmt ntsc_ms_stream) (_outputPixelFormat ntsc_ms_stream)
           (_width ntsc_ms_stream) (_height ntsc_ms_stream));
    try reflexivity.
  right; reflexivity.
Defined.

(** ** Opening a container (C8, C10) *)

Lemma open_stream_components (duration nproc i : Z) (cs : ContainerStream) (s : Stream) :
  open_stream duration nproc i cs = Some s -> 3 <= _numberOfComponents s.
Proof.
  unfold open_stream.
  destruct (cs_valid cs); [| discriminate].
  destruct (cs_is_video cs); [| discriminate].
  destruct (cs_decoder cs) as [capabilities |]; [| discriminate].
  cbn [negb].
  destruct (cs_open cs _ _ <? 0); [discriminate |].
  intros H. injection H as <-. cbn.
  destruct (Z.ltb_spec (cs_nb_components cs) 3); lia.
Qed.

Lemma open_streams_registered (duration nproc : Z) (l : list ContainerStream) :
  forall (i : Z) (streams : list Stream) (data : option Z),
    registered streams data ->
    registered (fst (open_streams duration nproc i l streams data))
               (snd (open_streams duration nproc i l streams data)).
Proof.
  induction l as [| cs rest IH]; intros i streams data Hreg; cbn [open_streams].
  - exact Hreg.
  - destruct (open_stream duration nproc i cs) as [s |] eqn:E.
    + apply IH. destruct Hreg as [Hdata Hall]. split.
      * destruct streams as [| s0 tl]; cbn; [reflexivity | exact Hdata].
      * apply Forall_app. split; [exact Hall |].
        constructor; [| constructor].
        exact (open_stream_components _ _ _ _ E).
    + apply IH. exact Hreg.
Qed.

(** The loop registers nothing from nothing: it never drops a stream. *)
Lemma open_streams_keeps (duration nproc : Z) (l : list ContainerStream) :
  forall (i : Z) (streams : list Stream) (data : option Z),
    fst (open_streams duration nproc i l streams data) = [] -> streams = [].
Proof.
  induction l as [| cs rest IH]; intros i streams data H; cbn [open_streams] in H.
  - exact H.
  - destruct (open_stream duration nproc i cs) as [s |].
    + apply IH in H. destruct streams; discriminate H.
    + apply IH in H. exact H.
Qed.

(** The reader once the container and its stream information have been
    obtained. *)
Lemma FFmpegFile_open_loop (filename : string) (c : Container) :
  filename <> "" -> 0 <= open_input c -> 0 <= find_stream_info c ->
  let result :=
    open_streams (ctx_duration (format_context c)) (nprocessors c) 0
                 (ctx_streams (format_context c)) [] None in
  _streams (FFmpegFile_open filename c) = fst result /\
  _data (FFmpegFile_open filename c) = snd result /\
  _errorMsg (FFmpegFile_open filename c)
  = match fst result with
    | [] => "unable to find video stream"
    | _ => ""
    end.
Proof.
  intros Hname Hopen Hinfo result.
  unfold FFmpegFile_open.
  destruct (String.eqb_spec filename "") as [E | _]; [contradiction |].
  destruct (Z.ltb_spec (open_input c) 0); [lia |].
  destruct (Z.ltb_spec (find_stream_info c) 0); [lia |].
  fold result. destruct result as [streams data]. cbn [fst snd].
  destruct streams; cbn; auto.
Qed.

(** C10: once the container is open, a reader without any registered
    video stream always stores "unable to find video stream"; the
    message "unsupported codec..." is never stored, the flag that selects
    it being false on every path through the loop. *)
Theorem C10_no_stream_message (filename : string) (c : Container) :
  filename <> "" -> 0 <= open_input c -> 0 <= find_stream_info c ->
  (_streams (FFmpegFile_open filename c) = [] ->
   _errorMsg (FFmpegFile_open filename c) = "unable to find video stream" /\
   _invalidState (FFmpegFile_open filename c) = true) /\
  _errorMsg (FFmpegFile_open filename c) <> "unsupported codec...".
Proof.
  intros Hname Hopen Hinfo.
  destruct (FFmpegFile_open_loop c Hname Hopen Hinfo) as (Hs & _ & Hmsg).
  split.
  - intros Hempty. split.
    + rewrite Hmsg, <- Hs, Hempty. reflexivity.
    + revert Hempty. unfold FFmpegFile_open.
      destruct (String.eqb_spec filename "") as [E | _]; [contradiction |].
      destruct (Z.ltb_spec (open_input c) 0); [lia |].
      destruct (Z.ltb_spec (find_stream_info c) 0); [lia |].
      destruct (open_streams _ _ _ _ _ _) as [streams data].
      destruct streams; cbn; [reflexivity | discriminate].
  - rewrite Hmsg. destruct (fst _); discriminate.
Qed.

Lemma C10_no_stream_message_witness :
  _errorMsg (FFmpegFile_open "audio.wav" audio_only) = "unable to find video stream" /\
  _invalidState (FFmpegFile_open "audio.wav" audio_only) = true.
Proof.
  apply (@C10_no_stream_message "audio.wav" audio_only).
  - discriminate.
  - simpl; lia.
  - simpl; lia.
  - reflexivity.
Defined.

(** C8: the buffer allocated with the first stream holds
    [width * height * 3 * sample_size] bytes whatever the number of
    components, while [getBufferSize] answers
    [num_components * width * sample_size * height]; with four components
    the answer exceeds the allocation, and the two agree exactly when
    there are three.  The sizes are those of a picture that is not empty
    and whose byte count fits an [int]. *)
Theorem C8_buffer_size (filename : string) (c : Container)
        (s : Stream) (rest : list Stream) :
  filename <> "" -> 0 <= open_input c -> 0 <= find_stream_info c ->
  _streams (FFmpegFile_open filename c) = s :: rest ->
  let sample_size := if 8 <? _bitDepth s then 2 else 1 in
  0 < _width s -> 0 < _height s ->
  _numberOfComponents s * _width s * sample_size * _height s <= INT_MAX ->
  let allocated := _width s * _height s * 3 * sample_size in
  let reported := _numberOfComponents s * _width s * sample_size * _height s in
  _data (FFmpegFile_open filename c) = Some allocated /\
  getBufferSize (FFmpegFile_open filename c) = reported /\
  (_numberOfComponents s = 4 -> allocated < reported) /\
  (reported = allocated <-> _numberOfComponents s = 3).
Proof.
  intros Hname Hopen Hinfo Hstreams.
  destruct (FFmpegFile_open_loop c Hname Hopen Hinfo) as (Hs & Hd & _).
  pose proof (open_streams_registered (ctx_duration (format_context c))
                (nprocessors c) (ctx_streams (format_context c)) 0
                (streams := []) (data := None)
                (conj eq_refl (Forall_nil _))) as [Hdata Hall].
  rewrite <- Hs, Hstreams in Hdata, Hall.
  rewrite <- Hd in Hdata.
  apply Forall_inv in Hall.
  rewrite Hdata.
  unfold getBufferSize, getRowSize, getBitDepth, getNumberOfComponents,
    getWidth, getHeight, output_buffer_size.
  rewrite Hstreams. cbv zeta.
  set (n := _numberOfComponents s) in *.
  set (w := _width s). set (h := _height s).
  destruct (8 <? _bitDepth s); intros Hw Hh Hfit;
    assert (Hwh : 0 < w * h) by nia;
    unfold INT_MAX in Hfit.
  - rewrite (to_int_id (z := w * h * 3))
      by (unfold in_int, INT_MIN, INT_MAX; nia).
    rewrite (Z.mod_small (w * h * 3 * 2)) by nia.
    rewrite (to_int_id (z := n * w))
      by (unfold in_int, INT_MIN, INT_MAX; nia).
    rewrite (Z.mod_small (n * w * 2)) by nia.
    rewrite (to_int_id (z := n * w * 2))
      by (unfold in_int, INT_MIN, INT_MAX; nia).
    rewrite (to_int_id (z := n * w * 2 * h))
      by (unfold in_int, INT_MIN, INT_MAX; nia).
    split; [reflexivity |]. split; [reflexivity |].
    split; [intros H4; rewrite H4; nia |].
    split; intros H; [nia | rewrite H; ring].
  - rewrite (to_int_id (z := w * h * 3))
      by (unfold in_int, INT_MIN, INT_MAX; nia).
    rewrite (Z.mod_small (w * h * 3 * 1)) by nia.
    rewrite (to_int_id (z := n * w))
      by (unfold in_int, INT_MIN, INT_MAX; nia).
    rewrite (to_int_id (z := n * w * h))
      by (unfold in_int, INT_MIN, INT_MAX; nia).
    split; [reflexivity |]. split; [ring |].
    split; [intros H4; rewrite H4; nia |].
    split; intros H; [nia | rewrite H; ring].
Qed.

Lemma C8_buffer_size_witness :
  _data (FFmpegFile_open "clip.mov" rgba_clip) = Some 230400 /\
  getBufferSize (FFmpegFile_open "clip.mov" rgba_clip) = 307200 /\
  (_numberOfComponents rgba_descriptor = 4 -> 230400 < 307200) /\
  (307200 = 230400 <-> _numberOfComponents rgba_descriptor = 3).
Proof.
  apply (@C8_buffer_size "clip.mov" rgba_clip rgba_descriptor []).
  - discriminate.
  - simpl; lia.
  - simpl; lia.
  - reflexivity.
  - reflexivity.
  - reflexivity.
  - vm_compute; discriminate.
Defined.

(** C8, as stated, fails on a picture without pixels.  The clip whose
    RGBA stream declares a width of 0 opens like any other; four
    components are registered, the buffer allocated has 0 bytes and
    [getBufferSize] answers 0: with four components the answer does not
    exceed the allocation, and the two agree without there being three
    components. *)
Theorem C8_excess_fails :
  let r := FFmpegFile_open "clip.mov" empty_rgba_clip in
  isInvalid r = false /\
  getNumberOfComponents r = 4 /\
  _data r = Some 0 /\
  getBufferSize r = 0 /\
  ~ (0 < getBufferSize r).
Proof.
  cbv zeta. repeat split; try (vm_compute; reflexivity).
  vm_compute. discriminate.
Qed.

(** ** Colour space of the source (C6) *)









(** Had the lookup been asked to match the letter case, the lower-case
    key would not have been found by the first lookup. *)
Example case_sensitive_lookup_misses :
  av_dict_get lower_case_metadata foundry_key
              (AV_DICT_IGNORE_SUFFIX + AV_DICT_MATCH_CASE) = None.
Proof. reflexivity. Qed.

(** ** Random-access decode (C1, C3, C4, C9) *)

(** Symbolic execution of the loop body: case analysis on the test the
    goal hangs on, one path of the body after the other. *)
Ltac head_of t :=
  lazymatch t with
  | match ?x with _ => _ end => head_of x
  | _ => t
  end.

Ltac exec_step :=
  lazymatch goal with
  | |- match ?x with _ => _ end =>
    let h := head_of x in destruct h eqn:?
  | |- ?P (match ?x with _ => _ end) =>
    let h := head_of x in destruct h eqn:?
  | |- _ -> _ => intro
  end.

Ltac simp :=
  cbn -[Z.pow Z.add Z.sub Z.mul Z.max to_int ptsToFrame frameToPts getConvertCtx].

Ltac exec :=
  repeat (simp;
          first [ match goal with
                  | |- context [if negb (pts ?a =? AV_NOPTS_VALUE) then _ else _] =>
                    destruct (pts a =? AV_NOPTS_VALUE) eqn:?
                  end
                | exec_step ]).

Ltac bool_facts :=
  repeat match goal with
         | H : (_ <? _) = true |- _ => apply Z.ltb_lt in H
         | H : (_ <? _) = false |- _ => apply Z.ltb_ge in H
         | H : (_ <=? _) = true |- _ => apply Z.leb_le in H
         | H : (_ <=? _) = false |- _ => apply Z.leb_gt in H
         | H : (_ =? _) = true |- _ => apply Z.eqb_eq in H
         | H : (_ =? _) = false |- _ => apply Z.eqb_neq in H
         | H : (_ && _) = true |- _ => apply andb_true_iff in H; destruct H
         | H : (_ || _) = false |- _ => apply orb_false_iff in H; destruct H
         | H : negb _ = true |- _ => apply negb_true_iff in H
         | H : negb _ = false |- _ => apply negb_false_iff in H
         end.

Ltac unfold_body :=
  unfold decode_iteration, after_decode, resync, seekFrame, invalidate,
    setInternalError.

Section DecodeProperties.

Variable W : Type.
Variable L : Libav W.
Variable ndebug : bool.

Lemma decode_loop_keeps (loadNearest : bool) (P : DecodeState W -> Prop) :
kept_by_iteration L ndebug loadNearest P ->
(forall st, P st -> P (decode_finish st)) ->
forall (fuel : nat) (st st' : DecodeState W) (res : DecodeResult),
  P st ->
  decode_loop L ndebug loadNearest fuel st = Some (res, st') ->
  P st'.
Proof.
intros Hstep Hfin. induction fuel as [| fuel IH]; intros st st' res HP Hrun.
- discriminate Hrun.
- cbn [decode_loop] in Hrun. specialize (Hstep st HP).
  destruct (decode_iteration L ndebug loadNearest st) as [st1 | st1 | st1 |].
  + destruct (hasPicture st1).
    * injection Hrun as _ <-. apply Hfin. exact Hstep.
    * exact (IH _ _ _ Hstep Hrun).
  + injection Hrun as _ <-. apply Hfin. exact Hstep.
  + injection Hrun as _ <-. exact Hstep.
  + injection Hrun as _ <-. exact HP.
Qed.

(** The converter does not touch the cursor, the frame count or the
  timestamp field, nor the world. *)
Lemma getConvertCtx_stream (s s' : Stream) (src dst : AVPixelFormat)
    (sw sh dw dh : Z) (range : AVColorRange) (w w' : W) (ctx : option SwsContext) :
getConvertCtx L ndebug s src sw sh range dst dw dh w = Converted ctx s' w' ->
w' = w /\
_frames s' = _frames s /\
_decodeNextFrameIn s' = _decodeNextFrameIn s /\
_decodeNextFrameOut s' = _decodeNextFrameOut s /\
_accumDecodeLatency s' = _accumDecodeLatency s /\
_timestampField s' = _timestampField s /\
_ptsSeen s' = _ptsSeen s.
Proof.
unfold getConvertCtx.
repeat (cbn -[Z.pow];
        match goal with
        | |- context [match ?x with _ => _ end] =>
          let h := head_of x in destruct h eqn:?
        end);
  cbn -[Z.pow]; intros H; try discriminate H;
  inversion H; subst; cbn; auto 10.
Qed.

End DecodeProperties.

(** What the converter leaves alone, read off the equation of a path. *)
Ltac converter_facts :=
  repeat match goal with
         | H : getConvertCtx _ _ _ _ _ _ _ _ _ _ _ = Converted _ _ _ |- _ =>
           apply getConvertCtx_stream in H;
           cbn -[Z.add Z.sub] in H;
           destruct H as (? & ? & ? & ? & ? & ? & ?)
         end.

Section DecodeInvariants.

Variable W : Type.
Variable L : Libav W.
Variable ndebug : bool.

Lemma budget_kept_iteration (loadNearest : bool) (budget : Z) :
kept_by_iteration L ndebug loadNearest (budget_kept budget).
Proof.
intros st [Hsum Hpos].
remember (budget_kept budget) as P eqn:HP.
unfold_body. exec; subst P; try exact I;
  unfold budget_kept; simp; bool_facts; split; lia.
Qed.

Lemma switched_once_iteration (loadNearest : bool) :
kept_by_iteration L ndebug loadNearest (@switched_once W).
Proof.
intros st Hsw.
remember (@switched_once W) as P eqn:HP.
unfold_body. exec.
all: subst P; try exact I; converter_facts;
  unfold switched_once in *; simp; bool_facts.
all: destruct Hsw as [Hsw | [Hsw Hdts]];
  first [ left; lia
        | right; split; [lia | congruence]
        | rewrite Hdts in *; discriminate ].
Qed.

Lemma ended_unsynced_iteration (loadNearest : bool) :
kept_by_iteration L ndebug loadNearest (@ended_unsynced W).
Proof.
intros st [Hframes Hin].
remember (@ended_unsynced W) as P eqn:HP.
unfold_body.
destruct (_decodeNextFrameIn (stream st) <? _frames (stream st)) eqn:Hlt;
  [apply Z.ltb_lt in Hlt; lia |].
exec.
all: subst P; try exact I; converter_facts;
  unfold ended_unsynced in *; simp; split; congruence.
Qed.

End DecodeInvariants.

Section OutOfRange.

Variable W : Type.
Variable L : Libav W.
Variable ndebug : bool.

Lemma decode_loop_no_throw (loadNearest : bool) (fuel : nat) :
forall (st st' : DecodeState W) (res : DecodeResult),
  decode_loop L ndebug loadNearest fuel st = Some (res, st') ->
  forall msg, res <> Throw msg.
Proof.
induction fuel as [| fuel IH]; intros st st' res Hrun msg; cbn [decode_loop] in Hrun.
- discriminate Hrun.
- destruct (decode_iteration L ndebug loadNearest st) as [st1 | st1 | st1 |].
  + destruct (hasPicture st1).
    * injection Hrun as <- _. discriminate.
    * exact (@IH _ _ _ Hrun msg).
  + injection Hrun as <- _. discriminate.
  + injection Hrun as <- _. discriminate.
  + injection Hrun as <- _. discriminate.
Qed.

Lemma decode_from_no_throw (loadNearest : bool) (fuel : nat)
    (st st' : DecodeState W) (res : DecodeResult) :
decode_from L ndebug fuel loadNearest st = Some (res, st') ->
forall msg, res <> Throw msg.
Proof.
unfold decode_from. intros Hrun msg.
destruct (negb (frame st =? _decodeNextFrameOut (stream st))).
- destruct (seekFrame L _ _) as [[|] st1].
  + exact (@decode_loop_no_throw _ _ _ _ _ Hrun msg).
  + injection Hrun as <- _. discriminate.
- exact (@decode_loop_no_throw _ _ _ _ _ Hrun msg).
Qed.

(** C1: on a reader with a registered stream, a frame outside
  [0, total_frames) asked for with [load_nearest] makes the call go on
  with frame 0 when it is negative, and with [(int)total_frames - 1],
  taken in [int], when it is [total_frames] or more: that is
  [total_frames - 1] for every frame count above [INT_MIN], and it is
  what asking for that frame does when the stream has frames.  Without
  [load_nearest] the call throws "Missing frame".  Of the calls on a
  reader none but such a call of [decode] throws, and nothing else is
  thrown. *)
Theorem C1_out_of_range (fuel : nat) (r : FFmpegFile) (w : W) (f maxRetries : Z)
      (s : Stream) (rest : list Stream) :
_streams r = s :: rest ->
f < 0 \/ _frames s <= f ->
let nearest := if f <? 0 then 0 else to_int (to_int (_frames s) - 1) in
decode L ndebug fuel r w f true maxRetries
= decode_from L ndebug fuel true
    (decode_init s w (_errorMsg r) (_invalidState r) nearest maxRetries) /\
(0 <= f -> in_int f -> INT_MIN < _frames s -> nearest = _frames s - 1) /\
(in_int f -> 0 < _frames s ->
 decode L ndebug fuel r w f true maxRetries
 = decode L ndebug fuel r w nearest true maxRetries) /\
(exists st : DecodeState W,
    decode L ndebug fuel r w f false maxRetries = Some (Throw "Missing frame", st)) /\
(forall (c : Call) (what : string),
    public_call L ndebug fuel r w c = Some (SeenThrow what) ->
    what = "Missing frame" /\
    exists f' maxRetries' : Z,
      c = CallDecode f' false maxRetries' /\ (f' < 0 \/ _frames s <= f')).
Proof.
intros Hs Hout nearest.
assert (Hclamp : clamp_frame s f true = Some nearest).
{ unfold clamp_frame, nearest.
  destruct (Z.ltb_spec f 0); [reflexivity |].
  destruct (Z.leb_spec (_frames s) f); [reflexivity | lia]. }
assert (Hnear : 0 <= f -> in_int f -> INT_MIN < _frames s -> nearest = _frames s - 1).
{ intros H0 Hf Hmin. unfold nearest.
  destruct (Z.ltb_spec f 0); [lia |].
  unfold in_int, INT_MIN, INT_MAX in *.
  rewrite (to_int_id (z := _frames s))
    by (unfold in_int, INT_MIN, INT_MAX; lia).
  apply to_int_id. unfold in_int, INT_MIN, INT_MAX. lia. }
split; [| split; [| split; [| split]]].
- unfold decode. rewrite Hs, Hclamp. reflexivity.
- exact Hnear.
- intros Hf Hpos. unfold decode. rewrite Hs, Hclamp.
  assert (Hn : clamp_frame s nearest true = Some nearest).
  { destruct (Z.ltb_spec f 0) as [Hneg | Hnn].
    - unfold clamp_frame, nearest.
      cbn.
      destruct (Z.leb_spec (_frames s) 0); [lia | reflexivity].
    - rewrite (Hnear Hnn Hf) by (unfold INT_MIN; lia).
      unfold clamp_frame.
      destruct (Z.ltb_spec (_frames s - 1) 0); [lia |].
      destruct (Z.leb_spec (_frames s) (_frames s - 1)); [lia | reflexivity]. }
  rewrite Hn. reflexivity.
- unfold decode. rewrite Hs.
  assert (Hnone : clamp_frame s f false = None).
  { unfold clamp_frame.
    destruct (Z.ltb_spec f 0); [reflexivity |].
    destruct (Z.leb_spec (_frames s) f); [reflexivity | lia]. }
  rewrite Hnone. eexists. reflexivity.
- intros c what Hthrow.
  destruct c as [f' loadNearest maxRetries' | | | | | |];
    try discriminate Hthrow.
  cbn [public_call] in Hthrow.
  destruct (decode L ndebug fuel r w f' loadNearest maxRetries')
    as [[[msg | | b] st] |] eqn:Hrun; try discriminate Hthrow.
  injection Hthrow as ->.
  unfold decode in Hrun. rewrite Hs in Hrun.
  destruct (clamp_frame s f' loadNearest) as [f'' |] eqn:Hc.
  + exfalso. exact (@decode_from_no_throw _ _ _ _ _ Hrun what eq_refl).
  + injection Hrun as <- _. split; [reflexivity |].
    unfold clamp_frame in Hc.
    destruct (Z.ltb_spec f' 0).
    * destruct loadNearest; [discriminate Hc |].
      exists f', maxRetries'. split; [reflexivity | lia].
    * destruct (Z.leb_spec (_frames s) f'); [| discriminate Hc].
      destruct loadNearest; [discriminate Hc |].
      exists f', maxRetries'. split; [reflexivity | lia].
Qed.

End OutOfRange.

Lemma C1_out_of_range_witness :
  decode (FileWorld.libav Stalled.oracle) true 20 Stalled.reader FileWorld.start 5 true 1
  = decode (FileWorld.libav Stalled.oracle) true 20 Stalled.reader FileWorld.start 1 true 1 /\
  exists st : DecodeState FileWorld.World,
    decode (FileWorld.libav Stalled.oracle) true 20 Stalled.reader FileWorld.start 5 false 1
    = Some (Throw "Missing frame", st).
Proof.
  destruct (@C1_out_of_range _ (FileWorld.libav Stalled.oracle) true 20 Stalled.reader
              FileWorld.start 5 1 Stalled.stream0 [] eq_refl)
    as (_ & _ & Hnearest & Hthrow & _).
  - right. simpl. lia.
  - split; [| exact Hthrow].
    apply Hnearest.
    + unfold in_int. vm_compute. split; discriminate.
    + simpl. lia.
Defined.

(** C1, as stated, fails where the frame count lies below what an [int]
    holds.  A 25 fps clip that gives neither a frame count nor a
    duration is opened with a frame count of -368934881474191032 (the
    unknown duration [AV_NOPTS_VALUE] put through the frame rate); the
    reader is valid.  Asked for frame 0 with [load_nearest], [decode]
    goes on with frame 343597383, which is [(int)total_frames - 1] and
    not [total_frames - 1], and seeks there. *)
Theorem C1_nearest_frame_fails :
  let r := FFmpegFile_open "clip.mov" unknown_length_clip in
  let s := unknown_length_descriptor in
  _streams r = [s] /\ isInvalid r = false /\
  _frames s = -368934881474191032 /\
  _frames s <= 0 /\
  clamp_frame s 0 true = Some 343597383 /\
  343597383 <> _frames s - 1 /\
  (forall (W : Type) (L : Libav W) (ndebug : bool) (fuel : nat) (w : W) (maxRetries : Z),
      decode L ndebug fuel r w 0 true maxRetries
      = decode_from L ndebug fuel true
          (decode_init s w "" false 343597383 maxRetries)) /\
  exists st : DecodeState FileWorld.World,
    decode (FileWorld.libav Plain.oracle) true 20 r FileWorld.start 0 true 1
    = Some (Return false, st) /\
    last (trace st) EvRetry = EvSeek 343597383.
Proof.
  cbv zeta.
  assert (Hr : _streams (FFmpegFile_open "clip.mov" unknown_length_clip)
               = [unknown_length_descriptor]) by (vm_compute; reflexivity).
  split; [exact Hr |].
  split; [vm_compute; reflexivity |].
  split; [reflexivity |].
  split; [vm_compute; discriminate |].
  split; [vm_compute; reflexivity |].
  split; [vm_compute; discriminate |].
  split.
  - intros W L ndebug fuel w maxRetries.
    unfold decode. rewrite Hr.
    replace (clamp_frame unknown_length_descriptor 0 true) with (Some 343597383)
      by (vm_compute; reflexivity).
    reflexivity.
  - eexists. split; vm_compute; reflexivity.
Qed.

Section Resync.

Variable W : Type.
Variable L : Libav W.
Variable ndebug : bool.

Lemma seekFrame_fields (target : Z) (st st' : DecodeState W) (ok : bool) :
seekFrame L target st = (ok, st') ->
stream st' = stream st /\ frame st' = frame st /\
retriesRemaining st' = retriesRemaining st /\
awaitingFirstDecodeAfterSeek st' = awaitingFirstDecodeAfterSeek st /\
lastSeekedFrame st' = lastSeekedFrame st /\
hasPicture st' = hasPicture st /\
trace st' = EvSeek target :: trace st.
Proof.
unfold seekFrame.
destruct (av_seek_frame L _ _ _) as [error w].
destruct (error <? 0); intros H; injection H as _ <-; cbn; auto 10.
Qed.

Lemma AVERROR_EOF_negative : to_int AVERROR_EOF < 0.
Proof. vm_compute. reflexivity. Qed.

(** C4: while a seek is in progress, a packet of the stream whose
  selected timestamp is missing, or whose landing frame lies beyond the
  last seeked frame, makes the reader seek again one frame earlier:
  the decoder is flushed and [av_seek_frame] is called with the
  timestamp of that frame.  From frame 0 the reader, if it goes by PTS
  and has never seen one, switches to DTS and seeks in the same way to
  the requested frame, and fails with "failed to find timing reference
  frame" otherwise. *)
Theorem C4_resync (loadNearest : bool) (st : DecodeState W)
      (e : Z) (pkt : AVPacket) (w' : W) :
_decodeNextFrameIn (stream st) < _frames (stream st) ->
av_read_frame L (world st) = ((e, pkt), w') ->
0 <= e ->
stream_index pkt = _idx (stream st) ->
0 <= lastSeekedFrame st ->
hasPicture st = false ->
let s1 := if negb (pts pkt =? AV_NOPTS_VALUE)
          then Upd.ptsSeen true (stream st) else stream st in
let st1 := with_stream s1 (with_world w' st) in
timestamp_of (_timestampField s1) pkt = AV_NOPTS_VALUE \/
lastSeekedFrame st < to_int (ptsToFrame s1 (timestamp_of (_timestampField s1) pkt)) ->
(0 < lastSeekedFrame st ->
 seeks_library L (lastSeekedFrame st - 1)
   (with_lastSeekedFrame (lastSeekedFrame st - 1) st1)
   (decode_iteration L ndebug loadNearest st)) /\
(lastSeekedFrame st = 0 ->
 _timestampField s1 = FieldPts -> _ptsSeen s1 = false ->
 0 <= frame st ->
 seeks_library L (frame st)
   (with_lastSeekedFrame (frame st)
      (record EvSwitchToDts
         (with_stream (Upd.timestampField FieldDts s1) st1)))
   (decode_iteration L ndebug loadNearest st)) /\
(lastSeekedFrame st = 0 ->
 _timestampField s1 = FieldDts \/ _ptsSeen s1 = true ->
 exists st' : DecodeState W,
   decode_iteration L ndebug loadNearest st = Break st' /\
   errorMsg st'
   = "FFmpeg Reader failed to find timing reference frame, possible file corruption" /\
   world st' = w' /\ trace st' = trace st /\
   forall fuel : nat,
     decode_loop L ndebug loadNearest (S fuel) st
     = Some (Return false, decode_finish st')).
Proof.
intros Hin Hread He Hidx Hseek Hpic s1 st1 Hinvalid.
pose proof AVERROR_EOF_negative as Heof.
assert (Hcond : (timestamp_of (_timestampField s1) pkt =? AV_NOPTS_VALUE)
                || (lastSeekedFrame st <?
                    to_int (ptsToFrame s1 (timestamp_of (_timestampField s1) pkt)))
                = true).
{ apply orb_true_iff. destruct Hinvalid as [H | H].
  - left. apply Z.eqb_eq. exact H.
  - right. apply Z.ltb_lt. exact H. }
assert (Hne : (e =? to_int AVERROR_EOF) = false) by (apply Z.eqb_neq; lia).
assert (Hge : (e <? 0) = false) by (apply Z.ltb_ge; lia).
assert (Hix : (stream_index pkt =? _idx (stream st)) = true)
  by (apply Z.eqb_eq; exact Hidx).
assert (Hsk : (0 <=? lastSeekedFrame st) = true) by (apply Z.leb_le; lia).
assert (Hno : lastSeekedFrame st = 0 ->
              _timestampField s1 = FieldDts \/ _ptsSeen s1 = true ->
              is_pts (_timestampField s1) && negb (_ptsSeen s1) = false).
{ intros _ [H | H]; rewrite H; [reflexivity | apply andb_false_r]. }
assert (Hyes : _timestampField s1 = FieldPts -> _ptsSeen s1 = false ->
               is_pts (_timestampField s1) && negb (_ptsSeen s1) = true).
{ intros H1 H2. rewrite H1, H2. reflexivity. }
clear Hinvalid.
unfold seeks_library.
unfold decode_iteration, resync, seekFrame, after_decode in *.
cbn [decode_loop]. unfold decode_iteration, resync, seekFrame, after_decode, decode_finish.
rewrite (proj2 (Z.ltb_lt _ _) Hin), Hread, Hne, Hge, Hix.
subst st1 s1.
destruct (pts pkt =? AV_NOPTS_VALUE); simp;
  cbn -[Z.pow Z.add Z.sub Z.mul Z.max to_int ptsToFrame frameToPts getConvertCtx] in Hcond, Hno, Hyes;
  rewrite Hsk, Hcond; simp.
all: split; [| split].
all: try (intros Hpos;
          rewrite (proj2 (Z.ltb_ge (lastSeekedFrame st - 1) 0)) by lia; simp;
          destruct (av_seek_frame L _ _ _) as [err w2]; simp;
          destruct (err <? 0) eqn:Herr; simp;
          rewrite ?(proj2 (Z.ltb_ge (lastSeekedFrame st - 1) 0)) by lia;
          eexists; (split; [reflexivity |]); cbn;
          repeat split; reflexivity).
all: try (intros Hzero Hfield Hseen Hframe;
          rewrite (proj2 (Z.ltb_lt (lastSeekedFrame st - 1) 0)) by lia;
          rewrite (Hyes Hfield Hseen); simp;
          destruct (av_seek_frame L _ _ _) as [err w2]; simp;
          destruct (err <? 0) eqn:Herr; simp;
          rewrite ?(proj2 (Z.ltb_ge (frame st) 0)) by lia;
          eexists; (split; [reflexivity |]); cbn;
          repeat split; reflexivity).
all: intros Hzero Hfield;
  rewrite (proj2 (Z.ltb_lt (lastSeekedFrame st - 1) 0)) by lia;
  rewrite (Hno Hzero Hfield); simp;
  eexists; split; [reflexivity |]; split; [reflexivity |];
  split; [reflexivity |]; split; [reflexivity |];
  intros fuel; simp; rewrite Hpic; simp; rewrite Hpic; reflexivity.
Qed.

End Resync.

Lemma C4_resync_witness :
  (exists st' : DecodeState FileWorld.World,
      decode_iteration (FileWorld.libav NoPts.oracle) true false NoPts.seeking = Next st' /\
      lastSeekedFrame st' = 0 /\ trace st' = [EvSeek 0; EvSeek 1] /\
      world st'
      = snd (FileWorld.seek_to NoPts.oracle 0 0
               (FileWorld.flush
                  (snd (FileWorld.read NoPts.oracle (world NoPts.seeking)))))) /\
  (exists st' : DecodeState FileWorld.World,
      decode_iteration (FileWorld.libav NoPts.oracle) true false NoPts.seeking_start
      = Next st' /\
      lastSeekedFrame st' = 1 /\ _timestampField (stream st') = FieldDts /\
      trace st' = [EvSeek 1; EvSwitchToDts; EvSeek 0; EvSeek 1]) /\
  (exists st' : DecodeState FileWorld.World,
      decode_loop (FileWorld.libav NoPts.headless) true false 1 NoPts.by_dts
      = Some (Return false, st') /\
      errorMsg st'
      = "FFmpeg Reader failed to find timing reference frame, possible file corruption").
Proof.
  split; [| split].
  - destruct (@C4_resync _ (FileWorld.libav NoPts.oracle) true false NoPts.seeking
                0 (NoPts.packet 1)
                (snd (FileWorld.read NoPts.oracle (world NoPts.seeking))))
      as (Hback & _ & _);
      try reflexivity; try (vm_compute; discriminate).
    + left. reflexivity.
    + destruct Hback as (st' & Hflow & Hworld & Htrace & _ & _ & Hlast & _);
        [reflexivity |].
      exists st'. split; [exact Hflow |]. split; [exact Hlast |].
      split; [exact Htrace | exact Hworld].
  - destruct (@C4_resync _ (FileWorld.libav NoPts.oracle) true false NoPts.seeking_start
                0 (NoPts.packet 0)
                (snd (FileWorld.read NoPts.oracle (world NoPts.seeking_start))))
      as (_ & Hswitch & _);
      try reflexivity; try (vm_compute; discriminate).
    + left. reflexivity.
    + destruct Hswitch as (st' & Hflow & _ & Htrace & Hstream & _ & Hlast & _);
        try reflexivity; try (vm_compute; discriminate).
      exists st'. split; [exact Hflow |]. split; [exact Hlast |].
      split; [rewrite Hstream; reflexivity | exact Htrace].
  - destruct (@C4_resync _ (FileWorld.libav NoPts.headless) true false NoPts.by_dts
                0 {| stream_index := 0; pts := AV_NOPTS_VALUE; dts := AV_NOPTS_VALUE |}
                (snd (FileWorld.read NoPts.headless (world NoPts.by_dts))))
      as (_ & _ & Hfail);
      try reflexivity; try (vm_compute; discriminate).
    + left. reflexivity.
    + destruct Hfail as (st' & _ & Hmsg & _ & _ & Hloop); [reflexivity | left; reflexivity |].
      exists (decode_finish st'). split; [apply Hloop |].
      unfold decode_finish. destruct (hasPicture st'); [exact Hmsg |]. exact Hmsg.
Defined.

Section EndOfInput.

Variable W : Type.
Variable L : Libav W.
Variable ndebug : bool.

Lemma to_int_AVERROR_EOF : to_int AVERROR_EOF = AVERROR_EOF.
Proof. reflexivity. Qed.

Lemma ended_unsynced_finish (st : DecodeState W) :
ended_unsynced st -> ended_unsynced (decode_finish st).
Proof.
unfold ended_unsynced, decode_finish. destruct (hasPicture st); cbn; auto.
Qed.

(** C9: when the container ends while [decode_next_frame_in] is still
  -1, the frame count of the stream becomes -1; with [load_nearest]
  the frame asked for becomes -2 and a seek to it is issued.  The count
  stays -1 to the end of the call, so that no frame index lies in
  [0, total_frames) when the call returns, a picture or not. *)
Theorem C9_eof_before_sync (st : DecodeState W) (pkt : AVPacket) (w' : W) :
_decodeNextFrameIn (stream st) = -1 ->
0 <= _frames (stream st) ->
av_read_frame L (world st) = ((AVERROR_EOF, pkt), w') ->
(exists st' : DecodeState W,
    decode_iteration L ndebug false st = Next st' /\
    _frames (stream st') = -1 /\ _decodeNextFrameIn (stream st') = -1 /\
    frame st' = frame st) /\
(exists st' : DecodeState W,
    (decode_iteration L ndebug true st = Next st' \/
     decode_iteration L ndebug true st = ReturnFalse st') /\
    _frames (stream st') = -1 /\ _decodeNextFrameIn (stream st') = -1 /\
    frame st' = -2 /\ lastSeekedFrame st' = -2 /\
    trace st' = EvSeek (-2) :: trace st) /\
(forall (loadNearest : bool) (fuel : nat) (st1 st2 : DecodeState W)
        (res : DecodeResult),
    _frames (stream st1) = -1 -> _decodeNextFrameIn (stream st1) = -1 ->
    decode_loop L ndebug loadNearest fuel st1 = Some (res, st2) ->
    _frames (stream st2) = -1 /\
    forall out : Z, ~ (0 <= out < _frames (stream st2))).
Proof.
intros Hin Hframes Hread.
assert (Hlt : (_decodeNextFrameIn (stream st) <? _frames (stream st)) = true)
  by (apply Z.ltb_lt; lia).
split; [| split].
- unfold decode_iteration.
  rewrite Hlt, Hread, to_int_AVERROR_EOF, Z.eqb_refl.
  eexists. split; [reflexivity |]. simp. auto.
- unfold decode_iteration, seekFrame, invalidate.
  rewrite Hlt, Hread, to_int_AVERROR_EOF, Z.eqb_refl. simp.
  rewrite Hin. change (to_int (-1) - 1) with (-2).
  destruct (av_seek_frame L _ _ _) as [err w2]. simp.
  destruct (err <? 0); eexists; (split; [(left; reflexivity) || (right; reflexivity) |]);
    simp; auto 10.
- intros loadNearest fuel st1 st2 res Hf Hi Hrun.
  assert (H : ended_unsynced st2).
  { eapply (@decode_loop_keeps W L ndebug loadNearest (@ended_unsynced W)).
    - apply ended_unsynced_iteration.
    - apply ended_unsynced_finish.
    - exact (conj Hf Hi).
    - exact Hrun. }
  destruct H as [H _]. split; [exact H |]. intros out. rewrite H. lia.
Qed.

End EndOfInput.

Lemma C9_eof_before_sync_witness :
  (exists st' : DecodeState FileWorld.World,
      decode_iteration (FileWorld.libav Truncated.oracle) true false Truncated.seeking
      = Next st' /\
      _frames (stream st') = -1 /\ _decodeNextFrameIn (stream st') = -1 /\
      frame st' = 1) /\
  (exists st' : DecodeState FileWorld.World,
      (decode_iteration (FileWorld.libav Truncated.oracle) true true Truncated.seeking
       = Next st' \/
       decode_iteration (FileWorld.libav Truncated.oracle) true true Truncated.seeking
       = ReturnFalse st') /\
      _frames (stream st') = -1 /\ _decodeNextFrameIn (stream st') = -1 /\
      frame st' = -2 /\ lastSeekedFrame st' = -2 /\
      trace st' = [EvSeek (-2); EvSeek 1]).
Proof.
  destruct (@C9_eof_before_sync _ (FileWorld.libav Truncated.oracle) true
              Truncated.seeking empty_packet
              (snd (FileWorld.read Truncated.oracle (world Truncated.seeking))))
    as (Hplain & Hnearest & _).
  - reflexivity.
  - vm_compute. discriminate.
  - reflexivity.
  - split; [exact Hplain | exact Hnearest].
Defined.

(** ** Seeks and termination (C3) *)

Ltac split_ifs :=
  repeat match goal with
         | |- context [if ?b then _ else _] => destruct b eqn:?
         | H : context [if ?b then _ else _] |- _ => destruct b eqn:?
         end.

Section SeekAccount.

Variable W : Type.
Variable L : Libav W.
Variable ndebug : bool.

Lemma seeks_accounted_iteration (R F : Z) :
0 <= F ->
kept_by_iteration L ndebug false (seeks_accounted R F).
Proof.
intros HF st Hacc.
remember (seeks_accounted R F) as P eqn:HP.
destruct st as [s w em inv fr ret aw ls pic tr].
destruct s. destruct aw.
all: unfold_body; simp; exec.
all: subst P; try exact I; converter_facts;
  unfold seeks_accounted, seeks_ahead, restarts_ahead in *;
  cbn -[Z.pow Z.add Z.sub Z.mul Z.max Z.of_nat to_int ptsToFrame frameToPts
        getConvertCtx] in *;
  destruct Hacc as (Hsum & Hfr & Hret & Hout);
  subst; bool_facts.
all: split_ifs; bool_facts;
  try (assert (Hout' : 0 <= ls -> _decodeNextFrameOut0 <= 0) by auto);
  repeat split; intros; try congruence; try lia; nia.
Qed.

End SeekAccount.

Lemma under_wf (floor : Z) : well_founded (Measure.under floor).
Proof.
  apply (wf_incl _ _ (fun x y => Z.to_nat (x - floor + 1) < Z.to_nat (y - floor + 1))%nat).
  - intros x y [H1 H2]. lia.
  - apply (wf_inverse_image _ _ lt (fun x => Z.to_nat (x - floor + 1))). apply lt_wf.
Qed.

Lemma below_wf : well_founded Measure.below.
Proof.
  unfold Measure.below.
  repeat apply wf_slexprod; apply under_wf.
Qed.

Lemma below_intro (f r k t p s f' r' k' t' p' s' : Z) :
  (INT_MIN + 1 <= f' /\ f < f') \/
  (f = f' /\
   ((1 <= r' /\ r < r') \/
    (r = r' /\
     ((1 <= k' /\ k < k') \/
      (k = k' /\
       ((1 <= t' /\ t < t') \/
        (t = t' /\
         ((1 <= p' /\ p < p') \/
          (p = p' /\ 1 <= s' /\ s < s'))))))))) ->
  Measure.below (f, (r, (k, (t, (p, s))))) (f', (r', (k', (t', (p', s'))))).
Proof.
  unfold Measure.below, Measure.under.
  intros [H | [-> [H | [-> [H | [-> [H | [-> [H | [-> H]]]]]]]]]].
  - apply left_slex. exact H.
  - apply right_slex. apply left_slex. exact H.
  - apply right_slex. apply right_slex. apply left_slex. exact H.
  - apply right_slex. apply right_slex. apply right_slex. apply left_slex. exact H.
  - apply right_slex. apply right_slex. apply right_slex. apply right_slex.
    apply left_slex. exact H.
  - apply right_slex. apply right_slex. apply right_slex. apply right_slex.
    apply right_slex. exact H.
Qed.

Lemma nth_error_lt (A : Type) (l : list A) (n : nat) (x : A) :
  nth_error l n = Some x -> (n < List.length l)%nat.
Proof.
  intros H. apply nth_error_Some. rewrite H. discriminate.
Qed.

Section Termination.

Variable orc : FileWorld.Oracle.
Variable D : Z.
Hypothesis delay_bounded : forall t : nat, FileWorld.delay orc t <= D.
Variable ndebug : bool.
Variable loadNearest : bool.

Lemma iteration_lowers (st : Measure.State) :
INT_MIN <= _decodeNextFrameIn (stream st) ->
match decode_iteration (FileWorld.libav orc) ndebug loadNearest st with
| Next st' =>
  hasPicture st' = false ->
  INT_MIN <= _decodeNextFrameIn (stream st') /\
  Measure.below (Measure.measure orc D st') (Measure.measure orc D st)
| _ => True
end.
Proof.
intros Hin.
destruct st as [s w em inv fr ret aw ls pic tr].
destruct s. destruct w as [pos held tick].
unfold_body; unfold FileWorld.libav; simp;
  unfold FileWorld.read, FileWorld.decode_video, FileWorld.seek_to, FileWorld.flush;
  simp.
exec.
all: try exact I; try discriminate.
all: converter_facts; subst;
  repeat match goal with
         | H : nth_error _ _ = Some _ |- _ => apply nth_error_lt in H
         | H : (FileWorld.delay orc ?t <? _) = false |- _ =>
           pose proof (delay_bounded t); apply Z.ltb_ge in H
         | |- context [to_int ?x] =>
           lazymatch goal with
           | _ : in_int (to_int x) |- _ => fail
           | _ => pose proof (to_int_range x)
           end
         end;
  bool_facts.
all: (split; [| apply below_intro]);
  unfold Measure.measure, Measure.pts_left, Measure.targets, Measure.packets,
    Measure.slack, in_int, INT_MIN, INT_MAX in *;
  cbn -[Z.add Z.sub Z.mul Z.max Z.of_nat Z.pow to_int ptsToFrame frameToPts
        getConvertCtx Z.to_nat Nat.sub Nat.add Nat.mul List.length] in *.
all: split_ifs; lia.
Qed.

Lemma decode_loop_terminates (st : Measure.State) :
INT_MIN <= _decodeNextFrameIn (stream st) ->
exists (fuel : nat) (res : DecodeResult) (st' : Measure.State),
  decode_loop (FileWorld.libav orc) ndebug loadNearest fuel st = Some (res, st').
Proof.
remember (Measure.measure orc D st) as m eqn:Hm.
revert st Hm.
induction m as [m IH] using (well_founded_induction below_wf).
intros st -> Hin.
pose proof (iteration_lowers st Hin) as Hstep.
destruct (decode_iteration (FileWorld.libav orc) ndebug loadNearest st)
  as [st1 | st1 | st1 |] eqn:E.
- destruct (hasPicture st1) eqn:Hp.
  + exists 1%nat. cbn [decode_loop]. rewrite E, Hp. eauto.
  + destruct (Hstep eq_refl) as [Hin1 Hlt].
    destruct (IH _ Hlt st1 eq_refl Hin1) as (fuel & res & st' & Hrun).
    exists (S fuel). cbn [decode_loop]. rewrite E, Hp. eauto.
- exists 1%nat. cbn [decode_loop]. rewrite E. eauto.
- exists 1%nat. cbn [decode_loop]. rewrite E. eauto.
- exists 1%nat. cbn [decode_loop]. rewrite E. eauto.
Qed.

End Termination.

Lemma decode_terminates (orc : FileWorld.Oracle) (D : Z) (ndebug : bool)
      (r : FFmpegFile) (w : FileWorld.World) (f : Z) (loadNearest : bool)
      (maxRetries : Z) :
  (forall t : nat, FileWorld.delay orc t <= D) ->
  (forall s : Stream, In s (_streams r) -> INT_MIN <= _decodeNextFrameIn s) ->
  exists (fuel : nat) (res : DecodeResult) (st : Measure.State),
    decode (FileWorld.libav orc) ndebug fuel r w f loadNearest maxRetries
    = Some (res, st).
Proof.
  intros Hdelay Hin. unfold decode.
  destruct (_streams r) as [| s rest] eqn:Hs.
  - exists O. eauto.
  - destruct (clamp_frame s f loadNearest) as [f' |].
    + unfold decode_from.
      destruct (negb (frame _ =? _)).
      * destruct (seekFrame _ _ _) as [[|] st1] eqn:Hseek.
        -- apply seekFrame_fields in Hseek. destruct Hseek as (Hst & _).
           eapply decode_loop_terminates; [exact Hdelay |].
           rewrite Hst. cbn. unfold INT_MIN. lia.
        -- exists O. eauto.
      * eapply decode_loop_terminates; [exact Hdelay |]. cbn.
        apply Hin. left. reflexivity.
    + exists O. eauto.
Qed.

Section Counts.

Variable W : Type.
Variable L : Libav W.
Variable ndebug : bool.

Lemma budget_kept_finish (budget : Z) (st : DecodeState W) :
budget_kept budget st -> budget_kept budget (decode_finish st).
Proof.
unfold budget_kept, decode_finish. destruct (hasPicture st); cbn; auto.
Qed.

Lemma switched_once_finish (st : DecodeState W) :
switched_once st -> switched_once (decode_finish st).
Proof.
unfold switched_once, decode_finish. destruct (hasPicture st); cbn; auto.
Qed.

Lemma seeks_accounted_finish (R F : Z) (st : DecodeState W) :
seeks_accounted R F st -> seeks_accounted R F (decode_finish st).
Proof.
unfold seeks_accounted, seeks_ahead, restarts_ahead, decode_finish.
destruct (hasPicture st); [auto |]. cbn.
intros (Hsum & Hf & Hr & Hout).
destruct (0 <=? lastSeekedFrame st);
  destruct (awaitingFirstDecodeAfterSeek st);
  repeat split; intros; try assumption; lia.
Qed.

(** What is kept from the start of [decode_from] to the end of the call. *)
Lemma decode_from_keeps (loadNearest : bool) (P : DecodeState W -> Prop) :
kept_by_iteration L ndebug loadNearest P ->
(forall st, P st -> P (decode_finish st)) ->
forall (fuel : nat) (st st' : DecodeState W) (res : DecodeResult),
  P st ->
  (forall ok st1,
      seekFrame L (frame st) (invalidate (frame st) st) = (ok, st1) -> P st1) ->
  decode_from L ndebug fuel loadNearest st = Some (res, st') ->
  P st'.
Proof.
intros Hstep Hfin fuel st st' res HP Hseek Hrun.
unfold decode_from in Hrun.
destruct (negb (frame st =? _decodeNextFrameOut (stream st))).
- destruct (seekFrame L _ _) as [[|] st1] eqn:E.
  + apply (@decode_loop_keeps W L ndebug loadNearest P Hstep Hfin fuel st1 st' res);
      [| exact Hrun].
    exact (Hseek _ _ eq_refl).
  + injection Hrun as _ <-.
    exact (Hseek _ _ eq_refl).
- exact (@decode_loop_keeps W L ndebug loadNearest P Hstep Hfin fuel st st' res HP Hrun).
Qed.

Lemma decode_counts (fuel : nat) (r : FFmpegFile) (w : W) (f : Z)
    (loadNearest : bool) (maxRetries : Z) (res : DecodeResult) (st : DecodeState W) :
decode L ndebug fuel r w f loadNearest maxRetries = Some (res, st) ->
Z.of_nat (count_retries (trace st)) <= Z.max 1 maxRetries /\
(count_switches (trace st) <= 1)%nat /\
(loadNearest = false -> 0 <= f ->
 Z.of_nat (count_seeks (trace st)) <= (Z.max 1 maxRetries + 2) * (f + 1)).
Proof.
unfold decode. intros Hrun.
destruct (_streams r) as [| s rest].
{ injection Hrun as _ <-. cbn. repeat split; intros; nia. }
destruct (clamp_frame s f loadNearest) as [f' |] eqn:Hclamp.
2: { injection Hrun as _ <-. cbn. repeat split; intros; nia. }
set (st0 := decode_init s w (_errorMsg r) (_invalidState r) f' maxRetries) in *.
split; [| split].
- assert (H : budget_kept (Z.max 1 maxRetries) st).
  { refine (@decode_from_keeps loadNearest (budget_kept (Z.max 1 maxRetries))
              (@budget_kept_iteration W L ndebug loadNearest (Z.max 1 maxRetries))
              (@budget_kept_finish (Z.max 1 maxRetries))
              fuel st0 st res _ _ Hrun).
    - unfold budget_kept. cbn. lia.
    - intros ok st1 E.
      apply seekFrame_fields in E.
      destruct E as (_ & _ & Hr & _ & _ & _ & Ht).
      unfold budget_kept. rewrite Ht, Hr. cbn. lia. }
  destruct H as [H1 H2]. lia.
- assert (H : switched_once st).
  { refine (@decode_from_keeps loadNearest (@switched_once W)
              (@switched_once_iteration W L ndebug loadNearest)
              (@switched_once_finish)
              fuel st0 st res _ _ Hrun).
    - left. reflexivity.
    - intros ok st1 E.
      apply seekFrame_fields in E.
      destruct E as (Hs & _ & _ & _ & _ & _ & Ht).
      left. rewrite Ht. reflexivity. }
  destruct H as [H | [H _]]; lia.
- intros -> Hf.
  assert (Hf' : f' = f).
  { unfold clamp_frame in Hclamp.
    destruct (f <? 0); [discriminate |].
    destruct (_frames s <=? f); [discriminate |].
    injection Hclamp as ->. reflexivity. }
  subst f'.
  assert (H : seeks_accounted (Z.max 1 maxRetries) f st).
  { refine (@decode_from_keeps false (seeks_accounted (Z.max 1 maxRetries) f)
              (@seeks_accounted_iteration W L ndebug (Z.max 1 maxRetries) f Hf)
              (@seeks_accounted_finish (Z.max 1 maxRetries) f)
              fuel st0 st res _ _ Hrun).
    - unfold seeks_accounted, seeks_ahead, restarts_ahead. cbn -[Z.mul Z.add Z.max].
      destruct (is_pts (_timestampField s)); repeat split; intros; try lia; nia.
    - intros ok st1 E.
      apply seekFrame_fields in E.
      destruct E as (Hs & Hfr' & Hr & Ha & Hl & _ & Ht).
      unfold seeks_accounted, seeks_ahead, restarts_ahead.
      rewrite Ht, Hs, Hfr', Hr, Ha, Hl. cbn -[Z.mul Z.add Z.max Z.of_nat].
      rewrite (proj2 (Z.leb_le 0 f) Hf).
      destruct (is_pts (_timestampField s));
        repeat split; intros; try lia; nia. }
  destruct H as (Hsum & _ & Hret & _).
  unfold seeks_ahead, restarts_ahead in Hsum.
  destruct (0 <=? lastSeekedFrame st) eqn:E1;
    destruct (awaitingFirstDecodeAfterSeek st);
    destruct (is_pts (_timestampField (stream st)));
    bool_facts; nia.
Qed.

End Counts.

(** Without an end to the container there is no end to the call: the
    loop reads on for as long as packets of other streams arrive. *)
Lemma endless_source_never_returns (fuel : nat) :
  decode Endless.libav true fuel Stalled.reader tt 1 false 1 = None.
Proof.
  change (decode_loop Endless.libav true false fuel Endless.seeking = None).
  induction fuel as [| fuel IH]; [reflexivity |].
  cbn [decode_loop].
  change (decode_iteration Endless.libav true false Endless.seeking)
    with (Next Endless.seeking).
  exact IH.
Qed.

(** C3, as stated, fails: on a two-frame stream whose decoder releases
    nothing, [decode (1, false, 1)] seeks to frame 1, walks back to frame
    0, retries from frame 1, walks back to frame 0 again and gives up:
    four seeks, one more than [max (1, 1) + 2]. *)
Lemma C3_seek_bound_fails :
  ~ (forall (fuel : nat) (r : FFmpegFile) (s : Stream) (rest : list Stream)
            (w : FileWorld.World) (f : Z) (loadNearest : bool) (maxRetries : Z)
            (res : DecodeResult) (st : DecodeState FileWorld.World),
        _streams r = s :: rest ->
        decode (FileWorld.libav Stalled.oracle) true fuel r w f loadNearest maxRetries
        = Some (res, st) ->
        Z.of_nat (count_seeks (trace st)) <= Z.max 1 maxRetries + _frames s).
Proof.
  intros H.
  specialize (H 20%nat Stalled.reader Stalled.stream0 [] FileWorld.start 1 false 1).
  vm_compute in H.
  exact (H _ _ eq_refl eq_refl eq_refl).
Qed.

(** C3, amended: every call to [decode] on a container of finitely many
    packets whose codec delay stays bounded terminates.  In every call
    the stall-recovery seeks from the requested frame each take one unit
    of the retry budget, so there are at most [max (1, max_retries)] of
    them, and the timestamp field is switched to DTS at most once.  The
    seeks of a call are not bounded by [max (1, max_retries) +
    total_frames]: without [load_nearest] a call for frame [f] makes at
    most [(max (1, max_retries) + 2) * (f + 1)] of them. *)
Theorem C3_termination_and_seeks :
  (forall (orc : FileWorld.Oracle) (D : Z) (ndebug : bool) (r : FFmpegFile)
          (w : FileWorld.World) (f : Z) (loadNearest : bool) (maxRetries : Z),
      (forall t : nat, FileWorld.delay orc t <= D) ->
      (forall s : Stream, In s (_streams r) -> INT_MIN <= _decodeNextFrameIn s) ->
      exists (fuel : nat) (res : DecodeResult) (st : DecodeState FileWorld.World),
        decode (FileWorld.libav orc) ndebug fuel r w f loadNearest maxRetries
        = Some (res, st)) /\
  (forall (W : Type) (L : Libav W) (ndebug : bool) (fuel : nat) (r : FFmpegFile)
          (w : W) (f : Z) (loadNearest : bool) (maxRetries : Z)
          (res : DecodeResult) (st : DecodeState W),
      decode L ndebug fuel r w f loadNearest maxRetries = Some (res, st) ->
      Z.of_nat (count_retries (trace st)) <= Z.max 1 maxRetries /\
      (count_switches (trace st) <= 1)%nat /\
      (loadNearest = false -> 0 <= f ->
       Z.of_nat (count_seeks (trace st)) <= (Z.max 1 maxRetries + 2) * (f + 1))).
Proof.
  split.
  - intros. eapply decode_terminates; eassumption.
  - intros. eapply decode_counts; eassumption.
Qed.

Lemma C3_termination_and_seeks_witness :
  (exists (fuel : nat) (res : DecodeResult) (st : DecodeState FileWorld.World),
      decode (FileWorld.libav Stalled.oracle) true fuel Stalled.reader
             FileWorld.start 1 false 1 = Some (res, st)) /\
  (forall (res : DecodeResult) (st : DecodeState FileWorld.World),
      decode (FileWorld.libav Stalled.oracle) true 20 Stalled.reader
             FileWorld.start 1 false 1 = Some (res, st) ->
      Z.of_nat (count_seeks (trace st)) <= (Z.max 1 1 + 2) * (1 + 1)).
Proof.
  destruct C3_termination_and_seeks as [Hterm Hcount].
  split.
  - apply (Hterm Stalled.oracle 0).
    + intros t. simpl. lia.
    + intros s [<- | []]. vm_compute. discriminate.
  - intros res st Hrun.
    destruct (Hcount _ _ _ _ _ _ _ _ _ _ _ Hrun) as (_ & _ & Hseeks).
    apply Hseeks; [reflexivity | lia].
Defined.


(* ===================================================================== *)
(** * Further properties of the reader *)
(* ===================================================================== *)

(** ** Still images told from movies *)

Lemma find_last_of_none (s : string) (c : ascii) :
  ~ In c (list_ascii_of_string s) -> find_last_of s c = None.
Proof.
  induction s as [| a s IH]; cbn; intros H; [reflexivity |].
  rewrite IH by tauto.
  destruct (Ascii.eqb_spec a c) as [E | _]; [| reflexivity].
  exfalso. apply H. left. exact E.
Qed.

Lemma find_last_of_app (base ext : string) (c : ascii) :
  ~ In c (list_ascii_of_string ext) ->
  find_last_of (base ++ String c ext) c = Some (String.length base).
Proof.
  intros H. induction base as [| a base IH]; cbn.
  - rewrite (@find_last_of_none _ _ H). rewrite Ascii.eqb_refl. reflexivity.
  - rewrite IH. reflexivity.
Qed.

Lemma length_append (s t : string) :
  String.length (s ++ t) = (String.length s + String.length t)%nat.
Proof. induction s as [| a s IH]; cbn; [reflexivity | rewrite IH; reflexivity]. Qed.

Lemma get_append_here (s : string) (c : ascii) (t : string) :
  String.get (String.length s) (s ++ String c t) = Some c.
Proof. induction s as [| a s IH]; cbn; [reflexivity | exact IH]. Qed.

Lemma append_assoc (s t u : string) : ((s ++ t) ++ u = s ++ (t ++ u))%string.
Proof. induction s as [| a s IH]; cbn; [reflexivity | rewrite IH; reflexivity]. Qed.

Lemma append_empty (s : string) : (s ++ "" = s)%string.
Proof. induction s as [| a s IH]; cbn; [reflexivity | rewrite IH; reflexivity]. Qed.

(** The loop, started where [rest] begins, appends [rest] in lower case. *)
Lemma append_lowered_rest (rest : string) :
  forall (fuel : nat) (done ext : string),
    (String.length rest <= fuel)%nat ->
    append_lowered fuel (done ++ rest) (String.length done) ext
    = (ext ++ lower rest)%string.
Proof.
  induction rest as [| c rest IH]; intros fuel done ext Hfuel.
  - rewrite append_empty. cbn [lower]. rewrite append_empty.
    destruct fuel as [| fuel]; cbn [append_lowered]; [reflexivity |].
    rewrite Nat.ltb_irrefl. reflexivity.
  - destruct fuel as [| fuel]; [cbn in Hfuel; lia |].
    cbn [append_lowered].
    assert (Hlt : (String.length done <? String.length (done ++ String c rest))%nat = true).
    { apply Nat.ltb_lt. rewrite length_append. cbn. lia. }
    rewrite Hlt, get_append_here.
    replace (done ++ String c rest)%string
      with ((done ++ String c "") ++ rest)%string
      by (rewrite append_assoc; reflexivity).
    replace (S (String.length done))
      with (String.length (done ++ String c ""))
      by (rewrite length_append; cbn; lia).
    rewrite IH by (cbn in Hfuel; lia).
    cbn [lower]. rewrite append_assoc. reflexivity.
Qed.

(** X1: a file name without any dot is never taken for an image,
    whatever its letters. *)
Theorem isImageFile_without_dot (filename : string) :
  ~ In "."%char (list_ascii_of_string filename) ->
  isImageFile filename = false.
Proof.
  intros H. unfold isImageFile. rewrite (@find_last_of_none _ _ H). reflexivity.
Qed.

Lemma isImageFile_without_dot_witness :
  ~ In "."%char (list_ascii_of_string "png") /\ isImageFile "png" = false.
Proof.
  assert (H : ~ In "."%char (list_ascii_of_string "png")).
  { cbn. intros [E | [E | [E | []]]]; discriminate E. }
  split; [exact H | exact (@isImageFile_without_dot "png" H)].
Defined.

(** X2: what decides is the text after the last dot, letter case
    ignored: a name [base.ext] whose [ext] holds no dot is an image file
    exactly when [ext], in lower case, is one of the thirteen image
    extensions.  Dots in [base] (directories, version numbers) play no
    part. *)
Theorem isImageFile_by_extension (base ext : string) :
  ~ In "."%char (list_ascii_of_string ext) ->
  isImageFile (base ++ "." ++ ext)
  = extensionCorrespondToImageFile (lower ext).
Proof.
  intros H. unfold isImageFile.
  change (base ++ "." ++ ext)%string with (base ++ String "."%char ext)%string.
  rewrite (@find_last_of_app base _ _ H). cbv zeta.
  replace (base ++ String "."%char ext)%string
    with ((base ++ ".") ++ ext)%string
    by (rewrite append_assoc; reflexivity).
  replace (S (String.length base)) with (String.length (base ++ "."))
    by (rewrite length_append; cbn; lia).
  rewrite append_lowered_rest; [reflexivity |].
  rewrite length_append. lia.
Qed.

Lemma isImageFile_by_extension_witness :
  isImageFile "shots/v1.2/plate.0001.TIFF" = true /\
  isImageFile "plate.tiff.mov" = false.
Proof.
  split.
  - assert (H : ~ In "."%char (list_ascii_of_string "TIFF")).
    { cbn. intros [E | [E | [E | [E | []]]]]; discriminate E. }
    exact (@isImageFile_by_extension "shots/v1.2/plate.0001" "TIFF" H).
  - assert (H : ~ In "."%char (list_ascii_of_string "mov")).
    { cbn. intros [E | [E | [E | []]]]; discriminate E. }
    exact (@isImageFile_by_extension "plate.tiff" "mov" H).
Defined.

(** ** Start time and frame count *)

Lemma search_start_pts_find (idx : Z) (packets : list AVPacket) :
  search_start_pts idx packets AV_NOPTS_VALUE
  = match find (has_pts_of idx) packets with
    | Some p => pts p
    | None => AV_NOPTS_VALUE
    end.
Proof.
  induction packets as [| p rest IH]; cbn [search_start_pts find]; [reflexivity |].
  unfold has_pts_of at 1.
  destruct (stream_index p =? idx); cbn [andb].
  - destruct (pts p =? AV_NOPTS_VALUE) eqn:E; cbn [negb]; [| reflexivity].
    apply Z.eqb_eq in E. rewrite E. exact IH.
  - rewrite Z.eqb_refl. exact IH.
Qed.

Lemma find_has_pts (idx : Z) (packets : list AVPacket) (p : AVPacket) :
  find (has_pts_of idx) packets = Some p -> pts p <> AV_NOPTS_VALUE.
Proof.
  intros H. apply find_some in H. destruct H as [_ H].
  unfold has_pts_of in H. apply andb_true_iff in H. destruct H as [_ H].
  apply negb_true_iff in H. apply Z.eqb_neq in H. exact H.
Qed.

(** X3: the start time is the one of the stream header when it has one;
    otherwise, if the seek to the start succeeds, the PTS of the first
    packet of the stream that carries one, among the packets read up to
    the first failing read; and 0 when there is none or the seek fails.
    Packets of other streams and packets without PTS are passed over. *)
Theorem getStreamStartTime_first_pts (idx : Z) (avstream : AVStream)
        (seek_code : Z) (packets : list AVPacket) :
  getStreamStartTime idx avstream seek_code packets
  = if negb (start_time avstream =? AV_NOPTS_VALUE) then start_time avstream
    else if seek_code <? 0 then 0
    else match find (has_pts_of idx) packets with
         | Some p => pts p
         | None => 0
         end.
Proof.
  unfold getStreamStartTime.
  destruct (start_time avstream =? AV_NOPTS_VALUE) eqn:E; cbn [negb].
  - apply Z.eqb_eq in E. rewrite E.
    destruct (Z.leb_spec 0 seek_code) as [H | H].
    + destruct (Z.ltb_spec seek_code 0); [lia |].
      rewrite search_start_pts_find.
      destruct (find (has_pts_of idx) packets) as [p |] eqn:F.
      * apply find_has_pts in F. apply Z.eqb_neq in F. rewrite F. reflexivity.
      * reflexivity.
    + destruct (Z.ltb_spec seek_code 0); [| lia]. reflexivity.
  - rewrite E. reflexivity.
Qed.

Lemma scan_max_pts_above (idx : Z) (packets : list AVPacket) :
  forall maxPts : Z, maxPts <= scan_max_pts idx packets maxPts.
Proof.
  induction packets as [| p rest IH]; intros maxPts; cbn [scan_max_pts]; [lia |].
  destruct ((stream_index p =? idx) && negb (pts p =? AV_NOPTS_VALUE)
            && (maxPts <? pts p)) eqn:E.
  - apply andb_true_iff in E. destruct E as [_ E]. apply Z.ltb_lt in E.
    specialize (IH (pts p)). lia.
  - apply IH.
Qed.

(** X4: the scan that ends [getStreamFrames] yields the largest PTS among
    the start PTS and the PTS of the stream's packets: it is not below
    the start PTS, not below the PTS of any packet of the stream that
    carries one, and it is one of these values. *)
Theorem scan_max_pts_largest (idx : Z) (packets : list AVPacket) (startPTS : Z) :
  startPTS <= scan_max_pts idx packets startPTS /\
  (forall p : AVPacket,
      In p packets -> has_pts_of idx p = true ->
      pts p <= scan_max_pts idx packets startPTS) /\
  (scan_max_pts idx packets startPTS = startPTS \/
   exists p : AVPacket,
     In p packets /\ has_pts_of idx p = true /\
     scan_max_pts idx packets startPTS = pts p).
Proof.
  split; [apply scan_max_pts_above |].
  revert startPTS.
  induction packets as [| p rest IH]; intros startPTS; cbn [scan_max_pts].
  - split; [intros p [] | left; reflexivity].
  - unfold has_pts_of in *.
    destruct ((stream_index p =? idx) && negb (pts p =? AV_NOPTS_VALUE)) eqn:V;
      cbn [andb].
    + destruct (Z.ltb_spec startPTS (pts p)) as [Hlt | Hge].
      * destruct (IH (pts p)) as [Hall Hone]. split.
        -- intros q [<- | Hq] Hv; [apply scan_max_pts_above | exact (Hall q Hq Hv)].
        -- right. destruct Hone as [E | (q & Hq & Hv & E)].
           ++ exists p. split; [left; reflexivity | split; [exact V | exact E]].
           ++ exists q. split; [right; exact Hq | split; [exact Hv | exact E]].
      * destruct (IH startPTS) as [Hall Hone]. split.
        -- intros q [<- | Hq] Hv; [| exact (Hall q Hq Hv)].
           pose proof (scan_max_pts_above idx rest startPTS). lia.
        -- destruct Hone as [E | (q & Hq & Hv & E)]; [left; exact E |].
           right. exists q. split; [right; exact Hq | split; [exact Hv | exact E]].
    + destruct (IH startPTS) as [Hall Hone]. split.
      * intros q [<- | Hq] Hv; [congruence | exact (Hall q Hq Hv)].
      * destruct Hone as [E | (q & Hq & Hv & E)]; [left; exact E |].
        right. exists q. split; [right; exact Hq | split; [exact Hv | exact E]].
Qed.

(** X5: a frame count in the stream header settles the matter: the
    count returned is not 0, the packets of the container are not
    scanned for it, and without a container duration it is the header's
    count itself. *)
Theorem getStreamFrames_header_count (ctx_duration : Z) (avstream : AVStream)
        (stream : Stream) (packets : list AVPacket) :
  nb_frames avstream <> 0 ->
  getStreamFrames ctx_duration avstream stream packets <> 0 /\
  (forall packets' : list AVPacket,
      getStreamFrames ctx_duration avstream stream packets'
      = getStreamFrames ctx_duration avstream stream packets) /\
  (ctx_duration = 0 ->
   getStreamFrames ctx_duration avstream stream packets = nb_frames avstream).
Proof.
  intros Hnb. unfold getStreamFrames. cbv zeta.
  assert (En : (nb_frames avstream =? 0) = false) by (apply Z.eqb_neq; exact Hnb).
  destruct (ctx_duration =? 0) eqn:Ed; cbn [negb].
  - rewrite Z.eqb_refl, !En. repeat split; auto.
  - set (f := frames_from_duration ctx_duration (_fpsNum stream) (_fpsDen stream)).
    set (g := if (0 <? nb_frames avstream)
                 && (Z.abs (to_int64 (f - nb_frames avstream)) <=? 1)
              then nb_frames avstream else f).
    destruct (g =? 0) eqn:Eg.
    + rewrite !En. repeat split; auto.
    + rewrite !Eg. apply Z.eqb_neq in Eg.
      repeat split; auto.
      intros E. subst ctx_duration. discriminate Ed.
Qed.

Lemma getStreamFrames_header_count_witness :
  getStreamFrames 0 (avstream_with 48) (stream_at 24 1 0) [] = 48.
Proof.
  assert (H : nb_frames (avstream_with 48) <> 0) by (cbn; lia).
  exact (proj2 (proj2 (@getStreamFrames_header_count
                         0 (avstream_with 48) (stream_at 24 1 0) [] H)) eq_refl).
Defined.

(** ** The open path *)

(** What the loop body establishes of a stream it registers. *)
Lemma open_stream_facts (duration nproc i : Z) (cs : ContainerStream) (s : Stream) :
  open_stream duration nproc i cs = Some s ->
  _idx s = i /\ decodable_video cs /\
  _fpsNum s <> 0 /\ _fpsDen s <> 0 /\ _startPTS s <> AV_NOPTS_VALUE /\
  3 <= _numberOfComponents s /\
  _outputPixelFormat s
  = (if 8 <? _bitDepth s
     then (if _numberOfComponents s =? 4 then AV_PIX_FMT_RGBA64LE else AV_PIX_FMT_RGB48LE)
     else (if _numberOfComponents s =? 4 then AV_PIX_FMT_RGBA else AV_PIX_FMT_RGB24)).
Proof.
  unfold open_stream, decodable_video.
  destruct (cs_valid cs); [| discriminate].
  destruct (cs_is_video cs); [| discriminate].
  destruct (cs_decoder cs) as [capabilities |]; [| discriminate].
  cbn [negb].
  destruct (cs_open cs _ _ <? 0); [discriminate |].
  intros H. injection H as <-. cbn -[getStreamStartTime getStreamFrames].
  repeat split; try congruence.
  - destruct (num (r_frame_rate (cs_avstream cs)) =? 0) eqn:E; cbn; [lia |].
    destruct (den (r_frame_rate (cs_avstream cs)) =? 0); cbn; [lia |].
    apply Z.eqb_neq in E. exact E.
  - destruct (num (r_frame_rate (cs_avstream cs)) =? 0) eqn:E; cbn; [lia |].
    destruct (den (r_frame_rate (cs_avstream cs)) =? 0) eqn:E'; cbn; [lia |].
    apply Z.eqb_neq in E'. exact E'.
  - unfold getStreamStartTime.
    match goal with
    | |- (if ?x =? _ then _ else _) <> _ =>
      destruct (Z.eqb_spec x AV_NOPTS_VALUE) as [_ | N]; [discriminate | exact N]
    end.
  - destruct (Z.ltb_spec (cs_nb_components cs) 3); lia.
Qed.

(** What the loop body establishes of every stream holds of all the
    streams of the reader. *)
Lemma open_streams_all (P : Stream -> Prop) (duration nproc : Z) :
  (forall i cs s, open_stream duration nproc i cs = Some s -> P s) ->
  forall (l : list ContainerStream) (i : Z) (streams : list Stream) (data : option Z),
    Forall P streams ->
    Forall P (fst (open_streams duration nproc i l streams data)).
Proof.
  intros Hbody. induction l as [| cs rest IH]; intros i streams data Hall;
    cbn [open_streams].
  - exact Hall.
  - destruct (open_stream duration nproc i cs) as [s |] eqn:E.
    + apply IH. apply Forall_app. split; [exact Hall |].
      constructor; [exact (Hbody _ _ _ E) | constructor].
    + apply IH. exact Hall.
Qed.

(** The reader is made by the loop, or has no stream at all. *)
Lemma FFmpegFile_open_cases (filename : string) (c : Container) :
  (_streams (FFmpegFile_open filename c) = [] /\
   _data (FFmpegFile_open filename c) = None /\
   _invalidState (FFmpegFile_open filename c) = true) \/
  (exists s rest,
      open_streams (ctx_duration (format_context c)) (nprocessors c) 0
                   (ctx_streams (format_context c)) [] None
      = (s :: rest, _data (FFmpegFile_open filename c)) /\
      _streams (FFmpegFile_open filename c) = s :: rest /\
      _invalidState (FFmpegFile_open filename c) = false /\
      _errorMsg (FFmpegFile_open filename c) = "" /\
      _context (FFmpegFile_open filename c) = Some (format_context c)).
Proof.
  unfold FFmpegFile_open.
  destruct (filename =? "")%string; [left; cbn; auto |].
  destruct (open_input c <? 0); [left; cbn; auto |].
  destruct (find_stream_info c <? 0); [left; cbn; auto |].
  pose proof (@open_streams_registered
                (ctx_duration (format_context c)) (nprocessors c)
                (ctx_streams (format_context c)) 0 [] None) as Hreg.
  destruct (open_streams _ _ 0 _ [] None) as [streams data] eqn:E.
  cbn [fst snd] in Hreg.
  destruct streams as [| s rest].
  - left. cbn. destruct Hreg as [Hdata _]; [split; [reflexivity | constructor] |].
    auto.
  - right. exists s, rest. cbn. auto 10.
Qed.

Lemma FFmpegFile_open_all (P : Stream -> Prop) (filename : string) (c : Container) :
  (forall i cs s,
      open_stream (ctx_duration (format_context c)) (nprocessors c) i cs = Some s ->
      P s) ->
  Forall P (_streams (FFmpegFile_open filename c)).
Proof.
  intros Hbody.
  destruct (FFmpegFile_open_cases filename c)
    as [(E & _) | (s & rest & Hloop & E & _)]; rewrite E; [constructor |].
  pose proof (@open_streams_all P _ _ Hbody (ctx_streams (format_context c))
                                0 [] None (Forall_nil P)) as H.
  rewrite Hloop in H. exact H.
Qed.

(** X6: every stream of an opened reader has usable timing: the
    numerator and the denominator of its frame rate are not 0 (a rate
    the container reports with a zero in it is dropped for the default
    of 1 fps), and its start PTS is a timestamp, never the "no PTS"
    value. *)
Theorem open_streams_have_timing (filename : string) (c : Container) :
  Forall (fun s => _fpsNum s <> 0 /\ _fpsDen s <> 0 /\
                   _startPTS s <> AV_NOPTS_VALUE)
         (_streams (FFmpegFile_open filename c)).
Proof.
  apply FFmpegFile_open_all. intros i cs s H.
  apply open_stream_facts in H. tauto.
Qed.

(** X7: the row size the reader announces is the one of the pixel format
    it converts to: for the first stream of an opened reader, with at
    most four components and a row that an [int] can hold, [getRowSize]
    is the width times the bytes per pixel of the output format, and the
    output format has an alpha channel exactly when the stream has four
    components. *)
Theorem row_size_matches_output_format (filename : string) (c : Container)
        (s : Stream) (rest : list Stream) :
  _streams (FFmpegFile_open filename c) = s :: rest ->
  0 <= _width s -> _numberOfComponents s <= 4 -> 8 * _width s <= INT_MAX ->
  getRowSize (FFmpegFile_open filename c)
  = _width s * bytes_per_pixel (_outputPixelFormat s) /\
  (_numberOfComponents s = 4 <->
   _outputPixelFormat s = AV_PIX_FMT_RGBA \/
   _outputPixelFormat s = AV_PIX_FMT_RGBA64LE).
Proof.
  intros Hs Hw Hc Hmax.
  pose proof (@FFmpegFile_open_all
                (fun s => 3 <= _numberOfComponents s /\
                          _outputPixelFormat s
                          = (if 8 <? _bitDepth s
                             then (if _numberOfComponents s =? 4
                                   then AV_PIX_FMT_RGBA64LE else AV_PIX_FMT_RGB48LE)
                             else (if _numberOfComponents s =? 4
                                   then AV_PIX_FMT_RGBA else AV_PIX_FMT_RGB24)))
                filename c) as Hall.
  rewrite Hs in Hall.
  assert (H : 3 <= _numberOfComponents s /\
              _outputPixelFormat s
              = (if 8 <? _bitDepth s
                 then (if _numberOfComponents s =? 4
                       then AV_PIX_FMT_RGBA64LE else AV_PIX_FMT_RGB48LE)
                 else (if _numberOfComponents s =? 4
                       then AV_PIX_FMT_RGBA else AV_PIX_FMT_RGB24))).
  { refine (Forall_inv (Hall _)). intros i cs s' H.
    apply open_stream_facts in H. tauto. }
  destruct H as [H3 Hfmt].
  unfold getRowSize, getBitDepth, getNumberOfComponents, getWidth.
  rewrite Hs, Hfmt.
  unfold INT_MAX in Hmax.
  assert (Hn : _numberOfComponents s = 3 \/ _numberOfComponents s = 4) by lia.
  destruct (8 <? _bitDepth s); destruct Hn as [-> | ->]; cbn [Z.eqb Pos.eqb bytes_per_pixel].
  all: split; [| split; [intros E; first [discriminate E | auto]
                        | intros [E | E]; first [discriminate E | reflexivity]]].
  all: rewrite ?Z.mod_small; rewrite ?to_int_id;
    unfold in_int, INT_MIN, INT_MAX; try lia.
  all: rewrite ?to_int_id; unfold in_int, INT_MIN, INT_MAX; lia.
Qed.

Lemma row_size_matches_output_format_witness :
  getRowSize (FFmpegFile_open "clip.mov" rgba_clip) = 320 * 4.
Proof.
  assert (Hs : _streams (FFmpegFile_open "clip.mov" rgba_clip) = [rgba_descriptor])
    by reflexivity.
  assert (Hw : 0 <= _width rgba_descriptor) by (cbn; lia).
  assert (Hc : _numberOfComponents rgba_descriptor <= 4) by (cbn; lia).
  assert (Hm : 8 * _width rgba_descriptor <= INT_MAX) by (vm_compute; discriminate).
  exact (proj1 (@row_size_matches_output_format "clip.mov" rgba_clip
                  rgba_descriptor [] Hs Hw Hc Hm)).
Defined.

(** The streams registered so far lie below the index the loop is at. *)
Lemma open_streams_in_order (duration nproc : Z) (container : list ContainerStream) :
  forall (l pre : list ContainerStream) (i : Z) (streams : list Stream) (data : option Z),
    container = (pre ++ l)%list -> i = Z.of_nat (List.length pre) ->
    registered_in_order container streams ->
    Forall (fun s => _idx s < i) streams ->
    registered_in_order container
                        (fst (open_streams duration nproc i l streams data)).
Proof.
  induction l as [| cs rest IH]; intros pre i streams data Hc Hi Hreg Hbelow;
    cbn [open_streams].
  - exact Hreg.
  - assert (Hc' : container = ((pre ++ [cs]) ++ rest)%list)
      by (rewrite <- app_assoc; exact Hc).
    assert (Hi' : i + 1 = Z.of_nat (List.length (pre ++ [cs])))
      by (rewrite length_app; cbn; lia).
    destruct (open_stream duration nproc i cs) as [s |] eqn:E.
    + apply (IH (pre ++ [cs])%list); [exact Hc' | exact Hi' | |].
      * apply open_stream_facts in E. destruct E as (Hidx & Hdec & _).
        destruct Hreg as [Hsorted Hall]. split.
        -- clear - Hsorted Hbelow Hidx.
           induction streams as [| a tl IHs]; cbn.
           ++ constructor; constructor.
           ++ apply StronglySorted_inv in Hsorted. destruct Hsorted as [Htl Ha].
              constructor.
              ** apply IHs; [exact Htl | exact (Forall_inv_tail Hbelow)].
              ** apply Forall_app. split; [exact Ha |].
                 constructor; [| constructor].
                 pose proof (Forall_inv Hbelow) as Hlt. cbn in Hlt. lia.
        -- apply Forall_app. split; [exact Hall |].
           constructor; [| constructor]. split; [lia |].
           exists cs. split; [| exact Hdec].
           rewrite Hidx, Hi, Nat2Z.id, Hc.
           rewrite nth_error_app2 by lia. rewrite Nat.sub_diag. reflexivity.
      * apply Forall_app. split.
        -- eapply Forall_impl; [| exact Hbelow]. cbn. intros a Ha. lia.
        -- constructor; [| constructor].
           apply open_stream_facts in E. destruct E as (Hidx & _). lia.
    + apply (IH (pre ++ [cs])%list); [exact Hc' | exact Hi' | exact Hreg |].
      eapply Forall_impl; [| exact Hbelow]. cbn. intros a Ha. lia.
Qed.

(** X8: the streams of an opened reader are the decodable video streams
    of the container in the container's order: their indices increase
    strictly, and each is the index of a valid video stream of the
    container for which a decoder was found. *)
Theorem open_registers_in_order (filename : string) (c : Container) :
  registered_in_order (ctx_streams (format_context c))
                      (_streams (FFmpegFile_open filename c)).
Proof.
  destruct (FFmpegFile_open_cases filename c)
    as [(E & _) | (s & rest & Hloop & E & _)]; rewrite E.
  - split; constructor.
  - pose proof (@open_streams_in_order
                  (ctx_duration (format_context c)) (nprocessors c)
                  (ctx_streams (format_context c))
                  (ctx_streams (format_context c)) [] 0 [] None
                  eq_refl eq_refl) as H.
    rewrite Hloop in H. apply H; [split; constructor | constructor].
Qed.

(** X9: an opened reader is in the invalid state exactly when it has no
    stream, which is also exactly when no output buffer was allocated;
    a reader that is not invalid has no error message. *)
Theorem open_invalid_iff_no_stream (filename : string) (c : Container) :
  (isInvalid (FFmpegFile_open filename c) = true
   <-> _streams (FFmpegFile_open filename c) = []) /\
  (_data (FFmpegFile_open filename c) = None
   <-> _streams (FFmpegFile_open filename c) = []) /\
  (isInvalid (FFmpegFile_open filename c) = false
   <-> getError (FFmpegFile_open filename c) = ""
       /\ _streams (FFmpegFile_open filename c) <> []).
Proof.
  unfold isInvalid, getError.
  destruct (FFmpegFile_open_cases filename c)
    as [(E & Hd & Hi) | (s & rest & Hloop & E & Hi & Hm & _)];
    rewrite E, Hi.
  - rewrite Hd. repeat split; auto; try discriminate.
    intros [_ H]. contradiction.
  - pose proof (@open_streams_registered
                  (ctx_duration (format_context c)) (nprocessors c)
                  (ctx_streams (format_context c)) 0 [] None) as Hreg.
    rewrite Hloop in Hreg. cbn [fst snd] in Hreg.
    destruct Hreg as [Hdata _]; [split; [reflexivity | constructor] |].
    rewrite Hdata, Hm. repeat split; auto; discriminate.
Qed.

(** X10: whatever the number of processors, [avcodec_open2] is asked for
    a thread count from 1 to 16: the outcome for a stream depends on
    the answers of [avcodec_open2] for these counts only. *)
Theorem open_stream_thread_count (duration nproc i : Z) (cs : ContainerStream)
        (open : Z -> bool -> Z) :
  (forall (n : Z) (emu_edge : bool),
      1 <= n <= 16 -> open n emu_edge = cs_open cs n emu_edge) ->
  open_stream duration nproc i (with_cs_open open cs)
  = open_stream duration nproc i cs.
Proof.
  intros H. unfold open_stream.
  cbn [with_cs_open cs_valid cs_is_video cs_decoder cs_lowres cs_open cs_avstream
       cs_bits_per_raw_sample cs_nb_components cs_bits_per_pixel cs_pix_fmt
       cs_isYUV cs_isRec709 cs_width cs_height cs_start_seek cs_start_packets
       cs_scan_packets].
  destruct (cs_valid cs); [| reflexivity].
  destruct (cs_is_video cs); [| reflexivity].
  destruct (cs_decoder cs) as [capabilities |]; [| reflexivity].
  cbn [negb]. rewrite H; [reflexivity |].
  unfold video_decoding_threads.
  destruct (Z.ltb_spec nproc 1); [lia |].
  destruct (Z.ltb_spec 16 nproc); lia.
Qed.

Lemma open_stream_thread_count_witness :
  open_stream 416667 64 0
              (with_cs_open (fun n _ => if n <=? 16 then 0 else -1) rgba_stream)
  = open_stream 416667 64 0 rgba_stream.
Proof.
  apply (@open_stream_thread_count 416667 64 0 rgba_stream
           (fun n _ => if n <=? 16 then 0 else -1)).
  intros n emu_edge Hn. cbn [rgba_stream cs_open].
  destruct (Z.leb_spec n 16); [reflexivity | lia].
Defined.

(** ** The scaler cache *)

Section ConverterProperties.

Variable W : Type.
Variable L : Libav W.

(** What a call that returns leaves behind: the context returned is the
  one cached, the reset flag is down, and the call has changed nothing
  else of the stream, nor the world. *)
Lemma getConvertCtx_result (ndebug : bool) (s s' : Stream) (src dst : AVPixelFormat)
    (sw sh dw dh : Z) (range : AVColorRange) (w w' : W) (ctx : option SwsContext) :
getConvertCtx L ndebug s src sw sh range dst dw dh w = Converted ctx s' w' ->
_convertCtx s' = ctx /\ _resetConvertCtx s' = false /\ w' = w /\
same_medium s s' /\ _frames s' = _frames s.
Proof.
unfold getConvertCtx, same_medium.
repeat (cbn -[Z.pow];
        match goal with
        | |- context [match ?x with _ => _ end] =>
          let h := head_of x in destruct h eqn:?
        end);
  cbn -[Z.pow]; intros H; try discriminate H;
  inversion H; subst; cbn; auto 20.
Qed.

(** X11: once a converter has been delivered it is the one every later
  call returns, whatever pixel formats, sizes and colour range the
  call passes and whatever the library would answer: the call leaves
  stream and world as they are.  Only the reset flag makes the reader
  build another. *)
Theorem getConvertCtx_reuses (ndebug : bool) (s s' : Stream) (src dst : AVPixelFormat)
      (sw sh dw dh : Z) (range : AVColorRange) (w w' : W) (c : SwsContext) :
getConvertCtx L ndebug s src sw sh range dst dw dh w = Converted (Some c) s' w' ->
forall (ndebug' : bool) (src' dst' : AVPixelFormat) (sw' sh' dw' dh' : Z)
       (range' : AVColorRange) (w'' : W),
  getConvertCtx L ndebug' s' src' sw' sh' range' dst' dw' dh' w''
  = Converted (Some c) s' w''.
Proof.
intros H. apply getConvertCtx_result in H.
destruct H as (Hc & Hr & _).
intros. unfold getConvertCtx. rewrite Hr, Hc. reflexivity.
Qed.

(** X12: how a converter that is built is set up.  It is built for the
  sizes and the destination format asked for, and for the source
  format with the deprecated JPEG-range tags replaced.  For a stream
  that is not YUV no colour details are configured.  For a YUV stream
  the details the library accepts are: the matrix chosen for the
  stream, the source range flag 1 for a JPEG colour range and 0 for
  every other, the default table, full destination range, brightness
  0, contrast and saturation [1 << 16]. *)
Theorem getConvertCtx_builds (ndebug : bool) (s s' : Stream) (src dst : AVPixelFormat)
      (sw sh dw dh : Z) (range : AVColorRange) (w w' : W) (c : SwsContext) :
_resetConvertCtx s = true \/ _convertCtx s = None ->
getConvertCtx L ndebug s src sw sh range dst dw dh w = Converted (Some c) s' w' ->
sws_srcFormat c = undeprecate src /\
sws_srcW c = sw /\ sws_srcH c = sh /\
sws_dstFormat c = dst /\ sws_dstW c = dw /\ sws_dstH c = dh /\
sws_flags c = SWS_BICUBIC /\
match sws_details c with
| None => _isYUV s = false \/ sws_setColorspaceDetails_code L w < 0
| Some d =>
  _isYUV s = true /\ 0 <= sws_setColorspaceDetails_code L w /\
  inv_table d = chosen_matrix s /\
  srcRange d = source_range_flag range /\
  table d = SWS_CS_DEFAULT /\ dstRange d = 1 /\
  brightness d = 0 /\ contrast d = 65536 /\ saturation d = 65536
end.
Proof.
intros Hfresh. unfold getConvertCtx, chosen_matrix, source_range_flag.
assert (Hnone : _convertCtx (if _resetConvertCtx s
                             then Upd.convert false None s else s) = None).
{ destruct (_resetConvertCtx s) eqn:E; [reflexivity |].
  destruct Hfresh as [H | H]; [discriminate | exact H]. }
rewrite Hnone.
destruct (_resetConvertCtx s) eqn:Er; destruct (sws_getContext_ok L w);
  destruct (_isYUV s) eqn:Ey; cbn -[Z.pow]; rewrite ?Ey; cbn -[Z.pow];
  intros H; try discriminate H.
all: try (injection H as <- _ _; cbn; auto 10).
all: destruct (Z.ltb_spec (sws_setColorspaceDetails_code L w) 0);
  destruct (ndebug || negb (sws_setColorspaceDetails_code L w =? -1));
  try discriminate H; injection H as <- _ _; cbn -[Z.pow]; try (auto 10; fail).
all: repeat split; try lia; try reflexivity.
all: destruct (0 <? _colorMatrixTypeOverride s); try reflexivity.
all: destruct range; reflexivity.
Qed.

End ConverterProperties.

Lemma getConvertCtx_reuses_witness :
  exists (c : SwsContext) (s' : Stream),
    Plain.convert Plain.yuv_stream = Converted (Some c) s' FileWorld.start /\
    getConvertCtx (FileWorld.libav Plain.oracle) true s'
                  AV_PIX_FMT_RGBA 1920 1080 AVCOL_RANGE_JPEG
                  AV_PIX_FMT_RGB48LE 16 16 FileWorld.start
    = Converted (Some c) s' FileWorld.start.
Proof.
  assert (E : exists (c : SwsContext) (s' : Stream),
             Plain.convert Plain.yuv_stream = Converted (Some c) s' FileWorld.start)
    by (eexists; eexists; reflexivity).
  destruct E as (c & s' & E). exists c, s'. split; [exact E |].
  unfold Plain.convert in E.
  exact (@getConvertCtx_reuses _ (FileWorld.libav Plain.oracle) false
           Plain.yuv_stream s' _ _ _ _ _ _ _ _ _ c E
           true AV_PIX_FMT_RGBA AV_PIX_FMT_RGB48LE 1920 1080 16 16
           AVCOL_RANGE_JPEG FileWorld.start).
Defined.

Lemma getConvertCtx_builds_witness :
  exists (c : SwsContext) (s' : Stream),
    Plain.convert Plain.yuv_stream = Converted (Some c) s' FileWorld.start /\
    sws_srcFormat c = AV_PIX_FMT_YUV420P /\
    sws_details c
    = Some {| inv_table := SWS_CS_ITU601; srcRange := 0;
              table := SWS_CS_DEFAULT; dstRange := 1;
              brightness := 0; contrast := 65536; saturation := 65536 |}.
Proof.
  assert (E : exists (c : SwsContext) (s' : Stream),
             Plain.convert Plain.yuv_stream = Converted (Some c) s' FileWorld.start)
    by (eexists; eexists; reflexivity).
  destruct E as (c & s' & E). exists c, s'. split; [exact E |].
  unfold Plain.convert in E.
  pose proof (@getConvertCtx_builds _ (FileWorld.libav Plain.oracle) false
                Plain.yuv_stream s' _ _ _ _ _ _ _ _ _ c
                (or_introl eq_refl) E) as H.
  destruct H as (Hsrc & _ & _ & _ & _ & _ & _ & Hd).
  split; [exact Hsrc |].
  destruct (sws_details c) as [d |].
  - destruct Hd as (_ & _ & H1 & H2 & H3 & H4 & H5 & H6 & H7).
    destruct d; cbn in *. subst. reflexivity.
  - exfalso. destruct Hd as [Hd | Hd]; [discriminate Hd | vm_compute in Hd; discriminate Hd].
Defined.

(** ** What a call of [decode] leaves behind *)

Section DecodeOutcomes.

Variable W : Type.
Variable L : Libav W.
Variable ndebug : bool.

(** One pass through the loop body.  A pass that goes on leaves the
  error state alone and, without [loadNearest], the frame asked for;
  the picture it may deliver is the one of that frame, and the next
  frame out is then the one after it.  A pass that leaves the loop
  without picture has recorded an error. *)
Lemma iteration_outcome (loadNearest : bool) (st : DecodeState W) :
match decode_iteration L ndebug loadNearest st with
| Next st' =>
  errorMsg st' = errorMsg st /\ invalidState st' = invalidState st /\
  (loadNearest = false -> frame st' = frame st) /\
  (hasPicture st = false -> hasPicture st' = true ->
   _decodeNextFrameOut (stream st') = frame st' + 1)
| Break st' =>
  hasPicture st' = hasPicture st /\ invalidState st' = true /\
  errorMsg st' <> ""
| ReturnFalse st' =>
  hasPicture st' = hasPicture st /\ invalidState st' = true /\
  errorMsg st' <> "" /\ _decodeNextFrameOut (stream st') = -1
| Aborted => True
end.
Proof.
unfold_body. exec.
all: try exact I; converter_facts; simp; bool_facts.
all: repeat split; intros; try congruence; try discriminate; try lia.
Qed.

Lemma decode_loop_false (loadNearest : bool) (fuel : nat) :
forall st st' : DecodeState W,
  hasPicture st = false ->
  decode_loop L ndebug loadNearest fuel st = Some (Return false, st') ->
  invalidState st' = true /\ errorMsg st' <> "" /\
  _decodeNextFrameOut (stream st') = -1.
Proof.
induction fuel as [| fuel IH]; intros st st' Hpic Hrun; cbn [decode_loop] in Hrun.
- discriminate Hrun.
- pose proof (iteration_outcome loadNearest st) as Hout.
  destruct (decode_iteration L ndebug loadNearest st) as [st1 | st1 | st1 |].
  + destruct (hasPicture st1) eqn:E; [discriminate Hrun |].
    exact (IH _ _ E Hrun).
  + destruct Hout as (Hp & Hi & Hm). rewrite Hpic in Hp.
    unfold decode_finish in Hrun. rewrite Hp in Hrun.
    injection Hrun as _ <-. cbn. auto.
  + destruct Hout as (Hp & Hi & Hm & Ho).
    injection Hrun as <-. auto.
  + discriminate Hrun.
Qed.

Lemma decode_loop_true (loadNearest : bool) (fuel : nat) :
forall st st' : DecodeState W,
  hasPicture st = false ->
  decode_loop L ndebug loadNearest fuel st = Some (Return true, st') ->
  hasPicture st' = true /\
  _decodeNextFrameOut (stream st') = frame st' + 1 /\
  errorMsg st' = errorMsg st /\ invalidState st' = invalidState st /\
  (loadNearest = false -> frame st' = frame st).
Proof.
induction fuel as [| fuel IH]; intros st st' Hpic Hrun; cbn [decode_loop] in Hrun.
- discriminate Hrun.
- pose proof (iteration_outcome loadNearest st) as Hout.
  destruct (decode_iteration L ndebug loadNearest st) as [st1 | st1 | st1 |].
  + destruct Hout as (Hm & Hi & Hf & Ho).
    destruct (hasPicture st1) eqn:E.
    * unfold decode_finish in Hrun. rewrite E in Hrun.
      injection Hrun as <-. auto.
    * destruct (IH _ _ E Hrun) as (H1 & H2 & H3 & H4 & H5).
      repeat split; try congruence.
      intros Hn. rewrite (H5 Hn). exact (Hf Hn).
  + destruct Hout as (Hp & _). rewrite Hpic in Hp.
    unfold decode_finish in Hrun. rewrite Hp in Hrun. cbn in Hrun.
    rewrite Hp in Hrun. discriminate Hrun.
  + discriminate Hrun.
  + discriminate Hrun.
Qed.

(** X13: a call on a reader with a stream that returns false has put
  the reader in the invalid state with an error message that is not
  empty, and has reset the next frame expected out of the decoder to
  -1. *)
Theorem decode_failure_is_recorded (fuel : nat) (r : FFmpegFile) (w : W)
      (f : Z) (loadNearest : bool) (maxRetries : Z) (st : DecodeState W) :
_streams r <> [] ->
decode L ndebug fuel r w f loadNearest maxRetries = Some (Return false, st) ->
isInvalid (reader_after r st) = true /\
getError (reader_after r st) <> "" /\
_decodeNextFrameOut (stream st) = -1.
Proof.
intros Hs Hrun. unfold isInvalid, getError, reader_after. cbn.
unfold decode in Hrun.
destruct (_streams r) as [| s rest]; [contradiction |].
destruct (clamp_frame s f loadNearest) as [f' |]; [| discriminate Hrun].
unfold decode_from in Hrun.
set (st0 := decode_init s w (_errorMsg r) (_invalidState r) f' maxRetries) in *.
destruct (negb (frame st0 =? _decodeNextFrameOut (stream st0))).
- unfold seekFrame, invalidate, setInternalError in Hrun.
  destruct (av_seek_frame L _ _ _) as [error w1].
  cbn -[Z.max] in Hrun.
  destruct (error <? 0).
  + injection Hrun as <-. cbn. repeat split; try reflexivity; discriminate.
  + apply decode_loop_false in Hrun; [exact Hrun | reflexivity].
- apply decode_loop_false in Hrun; [exact Hrun | reflexivity].
Qed.

(** X14: a call that returns true has decoded the frame it was after,
  which without [loadNearest] is the frame asked for: the next frame
  expected out of the decoder is the one that follows it.  It leaves
  the error state of the reader as it was; in particular it does not
  clear the invalid state an earlier call has set. *)
Theorem decode_success (fuel : nat) (r : FFmpegFile) (w : W)
      (f : Z) (loadNearest : bool) (maxRetries : Z) (st : DecodeState W) :
decode L ndebug fuel r w f loadNearest maxRetries = Some (Return true, st) ->
hasPicture st = true /\
_decodeNextFrameOut (stream st) = frame st + 1 /\
(loadNearest = false -> frame st = f) /\
isInvalid (reader_after r st) = isInvalid r /\
getError (reader_after r st) = getError r.
Proof.
intros Hrun. unfold isInvalid, getError, reader_after. cbn.
unfold decode in Hrun.
destruct (_streams r) as [| s rest]; [discriminate Hrun |].
destruct (clamp_frame s f loadNearest) as [f' |] eqn:Hclamp; [| discriminate Hrun].
assert (Hf : loadNearest = false -> f' = f).
{ intros ->. unfold clamp_frame in Hclamp.
  destruct (f <? 0); [discriminate |].
  destruct (_frames s <=? f); [discriminate |].
  injection Hclamp as ->. reflexivity. }
unfold decode_from in Hrun.
set (st0 := decode_init s w (_errorMsg r) (_invalidState r) f' maxRetries) in *.
destruct (negb (frame st0 =? _decodeNextFrameOut (stream st0))).
- unfold seekFrame, invalidate, setInternalError in Hrun.
  destruct (av_seek_frame L _ _ _) as [error w1].
  cbn -[Z.max] in Hrun.
  destruct (error <? 0); [discriminate Hrun |].
  apply decode_loop_true in Hrun; [| reflexivity].
  cbn -[Z.max] in Hrun. destruct Hrun as (H1 & H2 & H3 & H4 & H5).
  repeat split; try assumption.
  intros Hn. rewrite (H5 Hn). exact (Hf Hn).
- apply decode_loop_true in Hrun; [| reflexivity].
  cbn -[Z.max] in Hrun. destruct Hrun as (H1 & H2 & H3 & H4 & H5).
  repeat split; try assumption.
  intros Hn. rewrite (H5 Hn). exact (Hf Hn).
Qed.

End DecodeOutcomes.

Lemma decode_failure_is_recorded_witness :
  exists st : DecodeState FileWorld.World,
    decode (FileWorld.libav Stalled.oracle) true 20 Stalled.reader FileWorld.start
           1 false 1 = Some (Return false, st) /\
    isInvalid (reader_after Stalled.reader st) = true /\
    getError (reader_after Stalled.reader st) <> "" /\
    _decodeNextFrameOut (stream st) = -1.
Proof.
  assert (E : exists st : DecodeState FileWorld.World,
             decode (FileWorld.libav Stalled.oracle) true 20 Stalled.reader
                    FileWorld.start 1 false 1 = Some (Return false, st))
    by (eexists; vm_compute; reflexivity).
  destruct E as (st & E). exists st. split; [exact E |].
  assert (Hs : _streams Stalled.reader <> []) by discriminate.
  exact (@decode_failure_is_recorded _ (FileWorld.libav Stalled.oracle) true 20
           Stalled.reader FileWorld.start 1 false 1 st Hs E).
Defined.

Lemma decode_success_witness :
  exists st : DecodeState FileWorld.World,
    decode (FileWorld.libav Plain.oracle) true 20 Plain.reader FileWorld.start
           2 false 1 = Some (Return true, st) /\
    _decodeNextFrameOut (stream st) = frame st + 1 /\
    frame st = 2.
Proof.
  assert (E : exists st : DecodeState FileWorld.World,
             decode (FileWorld.libav Plain.oracle) true 20 Plain.reader
                    FileWorld.start 2 false 1 = Some (Return true, st))
    by (eexists; vm_compute; reflexivity).
  destruct E as (st & E). exists st. split; [exact E |].
  destruct (@decode_success _ (FileWorld.libav Plain.oracle) true 20
              Plain.reader FileWorld.start 2 false 1 st E)
    as (_ & Hout & Hf & _).
  split; [exact Hout | exact (Hf eq_refl)].
Defined.

(** The converter leaves the medium alone, read off the equation of a
    path. *)
Ltac converter_kept :=
  repeat match goal with
         | H : getConvertCtx _ _ _ _ _ _ _ _ _ _ _ = Converted _ _ _ |- _ =>
           apply getConvertCtx_result in H;
           unfold same_medium in H;
           cbn -[Z.add Z.sub] in H;
           decompose [and] H; clear H
         end.

Lemma seeks_within_seek (f t : Z) (l : list Event) :
  0 <= t <= f -> seeks_within f l -> seeks_within f (EvSeek t :: l).
Proof.
  intros Ht Hl t' [E | Hin]; [injection E as <-; exact Ht | exact (Hl t' Hin)].
Qed.

Lemma seeks_within_other (f : Z) (e : Event) (l : list Event) :
  (forall t, e <> EvSeek t) -> seeks_within f l -> seeks_within f (e :: l).
Proof.
  intros He Hl t' [E | Hin]; [exfalso; exact (He t' E) | exact (Hl t' Hin)].
Qed.

Section DecodeKeeps.

Variable W : Type.
Variable L : Libav W.
Variable ndebug : bool.

Lemma medium_kept_iteration (loadNearest : bool) (s0 : Stream) (F0 : Z) :
kept_by_iteration L ndebug loadNearest (@medium_kept W s0 F0).
Proof.
intros st Hkept.
remember (@medium_kept W s0 F0) as P eqn:HP.
unfold_body. exec.
all: subst P; try exact I; converter_kept;
  unfold medium_kept, same_medium in *; simp; bool_facts.
all: decompose [and] Hkept; clear Hkept;
  repeat split; try congruence; try lia.
Qed.

Lemma medium_kept_finish (s0 : Stream) (F0 : Z) (st : DecodeState W) :
medium_kept s0 F0 st -> medium_kept s0 F0 (decode_finish st).
Proof.
unfold medium_kept, same_medium, decode_finish.
destruct (hasPicture st); cbn; auto.
Qed.

Lemma seeks_in_range_iteration (F : Z) :
0 <= F ->
kept_by_iteration L ndebug false (@seeks_in_range W F).
Proof.
intros HF st Hkept.
remember (@seeks_in_range W F) as P eqn:HP.
unfold_body. exec.
all: subst P; try exact I; converter_facts;
  unfold seeks_in_range in *; simp; bool_facts.
all: destruct Hkept as (Htr & Hfr & Hls & Haw).
all: try (assert (Hout : _decodeNextFrameOut (stream st) <= F)
           by (apply Haw; assumption)).
all: repeat match goal with
            | |- _ /\ _ => split
            | |- seeks_within _ (EvSeek _ :: _) => apply seeks_within_seek
            | |- seeks_within _ (_ :: _) =>
              apply seeks_within_other; [intros; discriminate |]
            end;
  try assumption; intros; try discriminate; try lia.
Qed.

Lemma seeks_in_range_finish (F : Z) (st : DecodeState W) :
0 <= F -> seeks_in_range F st -> seeks_in_range F (decode_finish st).
Proof.
unfold seeks_in_range, decode_finish.
destruct (hasPicture st); cbn; [auto |].
intros HF (H1 & H2 & H3 & H4).
split; [exact H1 | repeat split; auto; intros; lia].
Qed.

(** X15: a call changes nothing of what describes the medium of the
  first stream: index, time base, pixel formats, frame rate, start
  PTS, bit depth, components, size and colour matrix override are
  after the call what they were before it, whatever the call returns.
  The frame count can change, and only downwards. *)
Theorem decode_keeps_medium (fuel : nat) (r : FFmpegFile) (w : W)
      (f : Z) (loadNearest : bool) (maxRetries : Z)
      (s : Stream) (rest : list Stream)
      (res : DecodeResult) (st : DecodeState W) :
_streams r = s :: rest ->
decode L ndebug fuel r w f loadNearest maxRetries = Some (res, st) ->
same_medium s (stream st) /\ _frames (stream st) <= _frames s.
Proof.
intros Hs Hrun. unfold decode in Hrun. rewrite Hs in Hrun.
assert (Hrefl : same_medium s s) by (unfold same_medium; auto 20).
destruct (clamp_frame s f loadNearest) as [f' |].
2: { injection Hrun as _ <-. cbn. split; [exact Hrefl | lia]. }
refine (@decode_from_keeps W L ndebug loadNearest (@medium_kept W s (_frames s))
          (@medium_kept_iteration loadNearest s (_frames s))
          (@medium_kept_finish s (_frames s))
          fuel _ st res _ _ Hrun).
- split; [exact Hrefl | cbn; lia].
- intros ok st1 E. apply seekFrame_fields in E.
  destruct E as (E & _). unfold medium_kept. rewrite E. cbn.
  split; [exact Hrefl | lia].
Qed.

(** X16: without [loadNearest], every seek of a call for frame [f] aims
  at a frame from 0 to [f]: the reader never seeks past the frame
  asked for, nor before the first frame. *)
Theorem decode_seeks_within (fuel : nat) (r : FFmpegFile) (w : W)
      (f : Z) (maxRetries : Z) (res : DecodeResult) (st : DecodeState W) :
decode L ndebug fuel r w f false maxRetries = Some (res, st) ->
seeks_within f (trace st).
Proof.
intros Hrun. unfold decode in Hrun.
destruct (_streams r) as [| s rest].
{ injection Hrun as _ <-. intros t []. }
destruct (clamp_frame s f false) as [f' |] eqn:Hclamp.
2: { injection Hrun as _ <-. intros t []. }
assert (Hf : f' = f /\ 0 <= f).
{ unfold clamp_frame in Hclamp.
  destruct (Z.ltb_spec f 0); [discriminate |].
  destruct (_frames s <=? f); [discriminate |].
  injection Hclamp as ->. split; [reflexivity | assumption]. }
destruct Hf as [-> Hf].
assert (H : seeks_in_range f st).
{ refine (@decode_from_keeps W L ndebug false (@seeks_in_range W f)
            (@seeks_in_range_iteration f Hf)
            (fun st => @seeks_in_range_finish f st Hf)
            fuel _ st res _ _ Hrun).
  - unfold seeks_in_range. cbn -[Z.max].
    split; [intros t [] |]. repeat split; intros; try lia; discriminate.
  - intros ok st1 E. apply seekFrame_fields in E.
    destruct E as (Es & Ef & _ & Ea & El & _ & Et).
    unfold seeks_in_range. rewrite Et, Es, Ef, Ea, El. cbn -[Z.max].
    split; [apply seeks_within_seek; [lia | intros t []] |].
    repeat split; intros; lia. }
exact (proj1 H).
Qed.

End DecodeKeeps.

Lemma decode_keeps_medium_witness :
  exists st : DecodeState FileWorld.World,
    decode (FileWorld.libav Truncated.oracle) true 20 Stalled.reader FileWorld.start
           1 false 1 = Some (Return false, st) /\
    same_medium Stalled.stream0 (stream st) /\
    _frames (stream st) <= _frames Stalled.stream0.
Proof.
  assert (E : exists st : DecodeState FileWorld.World,
             decode (FileWorld.libav Truncated.oracle) true 20 Stalled.reader
                    FileWorld.start 1 false 1 = Some (Return false, st))
    by (eexists; vm_compute; reflexivity).
  destruct E as (st & E). exists st. split; [exact E |].
  exact (@decode_keeps_medium _ (FileWorld.libav Truncated.oracle) true 20
           Stalled.reader FileWorld.start 1 false 1 Stalled.stream0 []
           (Return false) st eq_refl E).
Defined.

Lemma decode_seeks_within_witness :
  exists st : DecodeState FileWorld.World,
    decode (FileWorld.libav Stalled.oracle) true 20 Stalled.reader FileWorld.start
           1 false 1 = Some (Return false, st) /\
    seeks_within 1 (trace st).
Proof.
  assert (E : exists st : DecodeState FileWorld.World,
             decode (FileWorld.libav Stalled.oracle) true 20 Stalled.reader
                    FileWorld.start 1 false 1 = Some (Return false, st))
    by (eexists; vm_compute; reflexivity).
  destruct E as (st & E). exists st. split; [exact E |].
  exact (@decode_seeks_within _ (FileWorld.libav Stalled.oracle) true 20
           Stalled.reader FileWorld.start 1 1 (Return false) st E).
Defined.

(** ** Reading on, and reading from a failed open *)

Section DecodePaths.

Variable W : Type.
Variable L : Libav W.
Variable ndebug : bool.

(** The converter returns unless the assertion is compiled in and the
  library answers -1. *)
Lemma getConvertCtx_returns (s : Stream) (src dst : AVPixelFormat)
    (sw sh dw dh : Z) (range : AVColorRange) (w : W) :
ndebug = true \/ sws_setColorspaceDetails_code L w <> -1 ->
exists (ctx : option SwsContext) (s' : Stream),
  getConvertCtx L ndebug s src sw sh range dst dw dh w = Converted ctx s' w.
Proof.
intros H. unfold getConvertCtx.
assert (E : ndebug || negb (sws_setColorspaceDetails_code L w =? -1) = true).
{ destruct H as [-> | H]; [reflexivity |].
  apply Z.eqb_neq in H. rewrite H. apply orb_true_r. }
repeat (cbn -[Z.pow];
        match goal with
        | |- context [match ?x with _ => _ end] =>
          let h := head_of x in destruct h eqn:?
        end);
  cbn -[Z.pow]; try (eexists; eexists; reflexivity).
all: congruence.
Qed.

(** X17: a reader whose open has failed answers every call of [decode]
  with false at once: no call into the library is made, nothing is
  thrown even for a frame out of range without [loadNearest], and the
  error recorded by the open stays. *)
Theorem decode_after_failed_open (filename : string) (c : Container)
      (fuel : nat) (w : W) (f : Z) (loadNearest : bool) (maxRetries : Z) :
isInvalid (FFmpegFile_open filename c) = true ->
exists st : DecodeState W,
  decode L ndebug fuel (FFmpegFile_open filename c) w f loadNearest maxRetries
  = Some (Return false, st) /\
  world st = w /\ trace st = [] /\
  errorMsg st = getError (FFmpegFile_open filename c) /\
  invalidState st = true.
Proof.
unfold isInvalid, getError. intros Hinv.
destruct (FFmpegFile_open_cases filename c)
  as [(E & _) | (s & rest & _ & _ & Hi & _)].
- unfold decode. rewrite E. eexists. split; [reflexivity |].
  cbn. auto.
- rewrite Hi in Hinv. discriminate Hinv.
Qed.

(** One pass through the loop body that reads a packet of the stream
  from which the decoder releases a frame.  [i] and [o] are the frames
  next in and next out when the packet is fed: the cursors, or the
  landing frame of the seek in progress when its timestamp is a valid
  landing. *)
Lemma forward_pass (loadNearest : bool) (st : DecodeState W)
    (e e' : Z) (pkt : AVPacket) (w1 w2 : W) (i o : Z) :
_decodeNextFrameIn (stream st) < _frames (stream st) ->
av_read_frame L (world st) = ((e, pkt), w1) -> 0 <= e ->
stream_index pkt = _idx (stream st) ->
(lastSeekedFrame st < 0 /\
 i = _decodeNextFrameIn (stream st) /\ o = _decodeNextFrameOut (stream st)) \/
(0 <= lastSeekedFrame st /\
 timestamp_of (_timestampField (stream st)) pkt <> AV_NOPTS_VALUE /\
 i = to_int (ptsToFrame (stream st)
                        (timestamp_of (_timestampField (stream st)) pkt)) /\
 o = i /\ i <= lastSeekedFrame st) ->
avcodec_decode_video2 L (Some pkt) w1 = ((e', true), w2) -> 0 <= e' ->
ndebug = true \/ sws_setColorspaceDetails_code L w2 <> -1 ->
match decode_iteration L ndebug loadNearest st with
| Next st' =>
  hasPicture st' = (hasPicture st || (o =? frame st)) /\
  _decodeNextFrameIn (stream st') = i + 1 /\
  _decodeNextFrameOut (stream st') = o + 1 /\
  lastSeekedFrame st' < 0 /\
  trace st' = trace st /\ frame st' = frame st /\
  same_medium (stream st) (stream st') /\
  _frames (stream st') = _frames (stream st) /\
  _timestampField (stream st') = _timestampField (stream st) /\
  (world st' = w2 \/ exists c : SwsContext, world st' = sws_scale L c w2)
| _ => False
end.
Proof.
intros Hin Hread He Hidx Hsync Hdec He' Hconv.
pose proof AVERROR_EOF_negative as Heof.
assert (Hpts : forall (b : bool) (x : Z),
           ptsToFrame (if b then Upd.ptsSeen true (stream st) else stream st) x
           = ptsToFrame (stream st) x)
  by (intros [|] x; reflexivity).
unfold_body. exec.
all: bool_facts; try lia; try congruence.
all: try (injection Hread as -> -> ->).
all: try lia; try congruence.
all: try match goal with
         | H : avcodec_decode_video2 L _ _ = (_, _, _) |- _ =>
           rewrite Hdec in H; inversion H; subst; clear H
         end.
all: try lia; try congruence.
all: try match goal with
         | H : getConvertCtx L ndebug ?s ?src ?sw ?sh ?range ?dst ?dw ?dh ?w
               = AssertFailed |- _ =>
           let X := fresh in
           assert (X : exists ctx s',
                      getConvertCtx L ndebug s src sw sh range dst dw dh w
                      = Converted ctx s' w)
             by (apply getConvertCtx_returns; assumption);
           destruct X as (? & ? & X); rewrite X in H; discriminate H
         end.
all: try (change (ptsToFrame (Upd.ptsSeen true (stream st)))
            with (ptsToFrame (stream st)) in * ).
all: repeat match goal with
            | H : (_ || _) = true |- _ =>
              apply orb_true_iff in H; destruct H; bool_facts
            end.
all: destruct Hsync as [(Hl & -> & ->) | (Hl & Hts & -> & -> & Hle)];
  try contradiction; try lia.
all: repeat match goal with
            | H : getConvertCtx _ _ _ _ _ _ _ _ _ _ _ = Converted _ _ _ |- _ =>
              let H' := fresh in
              pose proof H as H';
              apply getConvertCtx_stream in H';
              apply getConvertCtx_result in H
            end.
all: unfold same_medium in *;
  cbn -[Z.add Z.sub Z.mul Z.pow to_int ptsToFrame] in *.
all: repeat match goal with
            | H : _ /\ _ |- _ => destruct H
            end;
  subst.
all: repeat match goal with
            | |- _ /\ _ => split
            end;
  try lia; try congruence.
all: try match goal with
         | H : ?x = ?y |- _ = _ || (?x =? ?y) =>
           rewrite (proj2 (Z.eqb_eq x y) H), orb_true_r; reflexivity
         | H : ?x <> ?y |- _ = _ || (?x =? ?y) =>
           rewrite (proj2 (Z.eqb_neq x y) H), orb_false_r; reflexivity
         end.
all: try (match goal with
          | |- context [match ?c with Some _ => _ | None => _ end] =>
            destruct c
          end;
          [right; eexists; reflexivity | left; reflexivity]).
all: left; reflexivity.
Qed.

(** X18: reading on costs no seek.  When the frame asked for is the
  next one expected out of the decoder, and the library delivers a
  packet of the stream from which the decoder releases a frame, the
  call returns true after this one read: it seeks nowhere, and both
  cursors have moved on by one frame. *)
Theorem decode_next_frame (fuel : nat) (r : FFmpegFile) (w : W)
      (f : Z) (loadNearest : bool) (maxRetries : Z)
      (s : Stream) (rest : list Stream)
      (e e' : Z) (pkt : AVPacket) (w1 w2 : W) :
_streams r = s :: rest ->
0 <= f < _frames s ->
_decodeNextFrameOut s = f ->
_decodeNextFrameIn s < _frames s ->
av_read_frame L w = ((e, pkt), w1) -> 0 <= e ->
stream_index pkt = _idx s ->
avcodec_decode_video2 L (Some pkt) w1 = ((e', true), w2) -> 0 <= e' ->
ndebug = true \/ sws_setColorspaceDetails_code L w2 <> -1 ->
exists st : DecodeState W,
  decode L ndebug (S fuel) r w f loadNearest maxRetries = Some (Return true, st) /\
  trace st = [] /\
  frame st = f /\
  _decodeNextFrameOut (stream st) = f + 1 /\
  _decodeNextFrameIn (stream st) = _decodeNextFrameIn s + 1.
Proof.
intros Hs Hf Hout Hin Hread He Hidx Hdec He' Hconv.
unfold decode. rewrite Hs.
assert (Hclamp : clamp_frame s f loadNearest = Some f).
{ unfold clamp_frame.
  destruct (Z.ltb_spec f 0); [lia |].
  destruct (Z.leb_spec (_frames s) f); [lia | reflexivity]. }
rewrite Hclamp. unfold decode_from.
set (st0 := decode_init s w (_errorMsg r) (_invalidState r) f maxRetries).
assert (E : (frame st0 =? _decodeNextFrameOut (stream st0)) = true)
  by (apply Z.eqb_eq; symmetry; exact Hout).
rewrite E. cbn [negb decode_loop].
pose proof (@forward_pass loadNearest st0 e e' pkt w1 w2
              (_decodeNextFrameIn s) (_decodeNextFrameOut s)) as Hpass.
destruct (decode_iteration L ndebug loadNearest st0) as [st1 | st1 | st1 |];
  try (exfalso; apply Hpass; cbn; auto; left; repeat split; lia).
destruct Hpass as (Hp & Hi & Ho & _ & Ht & Hfr & _);
  cbn; auto; try (left; repeat split; lia).
cbn in Hp. rewrite Hout, Z.eqb_refl in Hp.
rewrite Hp. exists (decode_finish st1). split; [reflexivity |].
unfold decode_finish. rewrite Hp.
rewrite Ht, Hfr, Ho, Hi. cbn. rewrite Hout. auto.
Qed.

End DecodePaths.

Lemma decode_after_failed_open_witness :
  exists st : DecodeState FileWorld.World,
    decode (FileWorld.libav Plain.oracle) false 0
           (FFmpegFile_open "sound.wav" audio_only) FileWorld.start 7 false 1
    = Some (Return false, st) /\
    world st = FileWorld.start /\ trace st = [] /\
    errorMsg st = "unable to find video stream".
Proof.
  destruct (@decode_after_failed_open _ (FileWorld.libav Plain.oracle) false
              "sound.wav" audio_only 0 FileWorld.start 7 false 1 eq_refl)
    as (st & Hrun & Hw & Ht & Hm & _).
  exists st. auto.
Defined.

Lemma decode_next_frame_witness :
  exists st : DecodeState FileWorld.World,
    decode (FileWorld.libav Plain.oracle) true 1 Plain.playing Plain.after_first
           1 false 1 = Some (Return true, st) /\
    trace st = [] /\ frame st = 1 /\
    _decodeNextFrameOut (stream st) = 2 /\
    _decodeNextFrameIn (stream st) = 2.
Proof.
  assert (Hs : exists s, _streams Plain.playing = [s] /\
                         _decodeNextFrameOut s = 1 /\
                         _decodeNextFrameIn s = 1 /\ _frames s = 3 /\ _idx s = 0)
    by (eexists; vm_compute; auto).
  destruct Hs as (s & Hs & Hout & Hin & Hfr & Hidx).
  pose proof (@decode_next_frame _ (FileWorld.libav Plain.oracle) true 0
                Plain.playing Plain.after_first 1 false 1 s []
                0 0 (Stalled.packet 1)
                (snd (FileWorld.read Plain.oracle Plain.after_first))
                (snd (FileWorld.decode_video
                        Plain.oracle (Some (Stalled.packet 1))
                        (snd (FileWorld.read Plain.oracle Plain.after_first))))
                Hs) as H.
  rewrite Hout, Hin, Hfr, Hidx in H.
  apply H; try lia; try reflexivity.
Defined.

(** ** A well-formed file *)

Lemma ptsToFrame_medium (s s' : Stream) (x : Z) :
  same_medium s s' -> ptsToFrame s' x = ptsToFrame s x.
Proof.
  unfold same_medium, ptsToFrame. intros H. decompose [and] H.
  congruence.
Qed.

Lemma same_medium_trans (s s' s'' : Stream) :
  same_medium s s' -> same_medium s' s'' -> same_medium s s''.
Proof.
  unfold same_medium. intros H H'. decompose [and] H. decompose [and] H'.
  repeat split; congruence.
Qed.

Section PlainFile.

Variable orc : FileWorld.Oracle.
Variable s : Stream.
Variable ndebug : bool.
Variable loadNearest : bool.
Variable f : Z.

Hypothesis plain : plain_file orc s.
Hypothesis scaler : ndebug = true \/ forall t : nat, FileWorld.sws_code orc t <> -1.
Hypothesis in_range : 0 <= f < _frames s.
Hypothesis in_file : (Z.to_nat f < List.length (FileWorld.file orc))%nat.

(** From a position at or before frame [f], with the cursors there or a
  seek to [f] in progress, the loop reads up to frame [f] and returns
  its picture. *)
Lemma plain_walk (n : nat) :
forall st : DecodeState FileWorld.World,
  (FileWorld.pos (world st) + n = Z.to_nat f)%nat ->
  frame st = f -> hasPicture st = false ->
  same_medium s (stream st) -> _frames (stream st) = _frames s ->
  _timestampField (stream st) = _timestampField s ->
  (lastSeekedFrame st < 0 /\
   _decodeNextFrameIn (stream st) = Z.of_nat (FileWorld.pos (world st)) /\
   _decodeNextFrameOut (stream st) = Z.of_nat (FileWorld.pos (world st))) \/
  (lastSeekedFrame st = f /\ _decodeNextFrameIn (stream st) < _frames s) ->
  exists st' : DecodeState FileWorld.World,
    decode_loop (FileWorld.libav orc) ndebug loadNearest (S n) st
    = Some (Return true, st') /\
    trace st' = trace st /\
    _decodeNextFrameOut (stream st') = f + 1 /\
    _decodeNextFrameIn (stream st') = f + 1 /\
    FileWorld.pos (world st') = S (Z.to_nat f) /\
    _frames (stream st') = _frames s.
Proof.
destruct plain as (Hread & Hdec & _ & Hfile).
induction n as [| n IH]; intros st Hpos Hfr Hpic Hmed Hframes Hfield Hsync.
all: assert (Hlt : (FileWorld.pos (world st) < List.length (FileWorld.file orc))%nat)
  by lia.
all: destruct (nth_error (FileWorld.file orc) (FileWorld.pos (world st)))
  as [p |] eqn:Hp; [| apply nth_error_None in Hp; lia].
all: destruct (Hfile _ _ Hp) as (Hidx & Hts & Hland).
all: set (w1 := {| FileWorld.pos := S (FileWorld.pos (world st));
                   FileWorld.held := FileWorld.held (world st);
                   FileWorld.tick := S (FileWorld.tick (world st)) |}).
all: set (w2 := {| FileWorld.pos := S (FileWorld.pos (world st));
                   FileWorld.held := FileWorld.held (world st);
                   FileWorld.tick := S (S (FileWorld.tick (world st))) |}).
all: assert (Hr : av_read_frame (FileWorld.libav orc) (world st) = ((0, p), w1))
  by (cbn; unfold FileWorld.read;
      destruct (Z.ltb_spec (FileWorld.read_code orc (FileWorld.tick (world st))) 0)
        as [Hneg | _];
      [specialize (Hread (FileWorld.tick (world st))); lia
      | rewrite Hp; reflexivity]).
all: assert (Hd : avcodec_decode_video2 (FileWorld.libav orc) (Some p) w1
                  = ((fst (FileWorld.decoder orc (FileWorld.tick w1)), true), w2))
  by (cbn; unfold FileWorld.decode_video;
      destruct (Hdec (S (FileWorld.tick (world st)))) as [Hc Hw];
      cbn [w1 FileWorld.tick FileWorld.held FileWorld.pos];
      destruct (FileWorld.decoder orc (S (FileWorld.tick (world st))))
        as [code willing];
      cbn [fst snd] in *; subst willing;
      destruct (Z.ltb_spec code 0); [lia | reflexivity]).
all: pose proof (@forward_pass _ (FileWorld.libav orc) ndebug loadNearest st
                   0 (fst (FileWorld.decoder orc (FileWorld.tick w1))) p w1 w2
                   (Z.of_nat (FileWorld.pos (world st)))
                   (Z.of_nat (FileWorld.pos (world st)))) as Hpass.
all: assert (Hidx' : stream_index p = _idx (stream st))
  by (destruct Hmed as (E & _); congruence).
all: assert (Hin : _decodeNextFrameIn (stream st) < _frames (stream st))
  by (rewrite Hframes; destruct Hsync as [(_ & -> & _) | (_ & H)]; lia).
all: assert (Hs : (lastSeekedFrame st < 0 /\
                   Z.of_nat (FileWorld.pos (world st)) = _decodeNextFrameIn (stream st) /\
                   Z.of_nat (FileWorld.pos (world st)) = _decodeNextFrameOut (stream st)) \/
                  (0 <= lastSeekedFrame st /\
                   timestamp_of (_timestampField (stream st)) p <> AV_NOPTS_VALUE /\
                   Z.of_nat (FileWorld.pos (world st))
                   = to_int (ptsToFrame (stream st)
                               (timestamp_of (_timestampField (stream st)) p)) /\
                   Z.of_nat (FileWorld.pos (world st))
                   = Z.of_nat (FileWorld.pos (world st)) /\
                   Z.of_nat (FileWorld.pos (world st)) <= lastSeekedFrame st))
  by (destruct Hsync as [(H1 & H2 & H3) | (H1 & H2)];
      [left; auto
      | right; rewrite Hfield, (ptsToFrame_medium _ Hmed), Hland;
        repeat split; try assumption; lia]).
all: assert (Hconv : ndebug = true \/
                     sws_setColorspaceDetails_code (FileWorld.libav orc) w2 <> -1)
  by (destruct scaler as [E | E]; [left; exact E | right; apply E]).
all: specialize (Hpass Hin Hr (Z.le_refl 0) Hidx' Hs Hd
                       (proj1 (Hdec (FileWorld.tick w1))) Hconv).
all: cbn [decode_loop].
all: destruct (decode_iteration (FileWorld.libav orc) ndebug loadNearest st)
  as [st1 | st1 | st1 |]; try contradiction.
all: destruct Hpass as (Hp1 & Hi1 & Ho1 & Hl1 & Ht1 & Hf1 & Hm1 & Hfr1 & Hfd1 & Hw1).
all: assert (Hw : world st1 = w2)
  by (destruct Hw1 as [E | (c & E)]; exact E).
all: rewrite Hpic, Hfr in Hp1; cbn [orb] in Hp1.
- assert (E : (Z.of_nat (FileWorld.pos (world st)) =? f) = true)
    by (apply Z.eqb_eq; lia).
  rewrite E in Hp1. rewrite Hp1.
  exists (decode_finish st1). split; [reflexivity |].
  unfold decode_finish. rewrite Hp1, Ht1, Ho1, Hi1, Hw, Hfr1, Hframes.
  cbn [w2 FileWorld.pos]. repeat split; lia.
- assert (E : (Z.of_nat (FileWorld.pos (world st)) =? f) = false)
    by (apply Z.eqb_neq; lia).
  rewrite E in Hp1. rewrite Hp1.
  destruct (IH st1) as (st' & Hrun & Ht' & Ho' & Hi' & Hpos' & Hfr').
  + rewrite Hw. cbn [w2 FileWorld.pos]. lia.
  + congruence.
  + exact Hp1.
  + exact (same_medium_trans Hmed Hm1).
  + congruence.
  + congruence.
  + left. rewrite Hw. cbn [w2 FileWorld.pos]. repeat split; lia.
  + exists st'. split; [exact Hrun |]. repeat split; congruence.
Qed.

End PlainFile.

(** X19: on a well-formed file the reader delivers the frame asked for.
    When the container holds one packet per frame of the stream, in
    order and with timestamps that map to the frame indices, nothing
    fails and the decoder releases every frame it is fed, a call for a
    frame [f] of the stream that is not the next one out seeks once, to
    [f]; from the packet the seek lands on, at or before [f], it reads
    and decodes one packet per pass up to frame [f] and returns true,
    with both cursors on frame [f + 1] and the frame count untouched. *)
Theorem decode_plain_file (orc : FileWorld.Oracle) (ndebug loadNearest : bool)
        (r : FFmpegFile) (s : Stream) (rest : list Stream)
        (w : FileWorld.World) (f maxRetries : Z) :
  plain_file orc s ->
  ndebug = true \/ (forall t : nat, FileWorld.sws_code orc t <> -1) ->
  _streams r = s :: rest ->
  0 <= f < _frames s ->
  (Z.to_nat f < List.length (FileWorld.file orc))%nat ->
  _decodeNextFrameOut s <> f ->
  let landing := snd (FileWorld.seek orc (FileWorld.tick w) (frameToPts s f)) in
  (landing <= Z.to_nat f)%nat ->
  exists st : DecodeState FileWorld.World,
    decode (FileWorld.libav orc) ndebug (S (Z.to_nat f - landing)) r w
           f loadNearest maxRetries
    = Some (Return true, st) /\
    trace st = [EvSeek f] /\
    _decodeNextFrameOut (stream st) = f + 1 /\
    _decodeNextFrameIn (stream st) = f + 1 /\
    FileWorld.pos (world st) = S (Z.to_nat f) /\
    _frames (stream st) = _frames s.
Proof.
  intros Hplain Hscaler Hs Hf Hfile Hout landing Hland.
  unfold decode. rewrite Hs.
  assert (Hclamp : clamp_frame s f loadNearest = Some f).
  { unfold clamp_frame.
    destruct (Z.ltb_spec f 0); [lia |].
    destruct (Z.leb_spec (_frames s) f); [lia | reflexivity]. }
  rewrite Hclamp. unfold decode_from.
  set (st0 := decode_init s w (_errorMsg r) (_invalidState r) f maxRetries).
  assert (E : (frame st0 =? _decodeNextFrameOut (stream st0)) = false)
    by (apply Z.eqb_neq; cbn; congruence).
  rewrite E. cbn [negb].
  unfold seekFrame, invalidate.
  cbn -[Z.max decode_loop frameToPts].
  unfold FileWorld.seek_to. cbn -[Z.max decode_loop frameToPts].
  change (frameToPts (Upd.cursor (-1) (-1) 0 s) f) with (frameToPts s f).
  pose proof (proj1 (proj2 (proj2 Hplain)) (FileWorld.tick w) (frameToPts s f))
    as Hseek.
  unfold landing in *. clear landing.
  destruct (FileWorld.seek orc (FileWorld.tick w) (frameToPts s f)) as [code p].
  cbn [fst snd] in *.
  cbn -[Z.max decode_loop frameToPts].
  repeat (rewrite (proj2 (Z.ltb_ge code 0) Hseek);
          cbn -[Z.max decode_loop frameToPts]).
  lazymatch goal with
  | |- context [decode_loop _ _ _ _ ?st1] =>
    destruct (@plain_walk orc s ndebug loadNearest f Hplain
                Hscaler Hf Hfile (Z.to_nat f - p) st1)
      as (st' & Hrun & Ht & Hrest)
  end.
  all: try (cbn -[Z.max decode_loop]; first [lia | reflexivity]).
  all: try (unfold same_medium; cbn; auto 20; fail).
  all: try (right; split; [reflexivity | cbn; lia]).
  exists st'. split; [exact Hrun |]. split; [exact Ht | exact Hrest].
Qed.

Lemma decode_plain_file_witness :
  exists st : DecodeState FileWorld.World,
    decode (FileWorld.libav Plain.oracle) false 3 Plain.reader FileWorld.start
           2 false 1
    = Some (Return true, st) /\
    trace st = [EvSeek 2] /\
    _decodeNextFrameOut (stream st) = 3 /\
    FileWorld.pos (world st) = 3%nat.
Proof.
  assert (Hplain : plain_file Plain.oracle Plain.stream0).
  { unfold plain_file. split; [intros t; cbn; lia |].
    split; [intros t; cbn; split; [lia | reflexivity] |].
    split; [intros t ts; cbn; lia |].
    intros i p H.
    destruct i as [| [| [| i]]]; cbn in H.
    1-3: injection H as <-; vm_compute; repeat split; try reflexivity; discriminate.
    destruct i; discriminate H. }
  destruct (@decode_plain_file Plain.oracle false false Plain.reader
              Plain.stream0 [] FileWorld.start 2 1 Hplain)
    as (st & Hrun & Ht & Ho & _ & Hp & _).
  - right. intros t. cbn. discriminate.
  - reflexivity.
  - cbn. lia.
  - cbn. lia.
  - cbn. discriminate.
  - cbn. lia.
  - exists st. auto.
Defined.

(** ** More of what a call keeps *)

(** The events of [t] that come before the list its tail appends to. *)
Ltac events_before t :=
  lazymatch t with
  | (?a :: ?rest)%list =>
    let r := events_before rest in constr:((a :: r)%list)
  | (?l ++ _)%list => l
  end.

Ltac internal_error :=
  left; eexists;
  split; [| first [ left; reflexivity
                  | right; left; reflexivity
                  | right; right; reflexivity ]];
  assumption.

Section DecodeMore.

Variable W : Type.
Variable L : Libav W.
Variable ndebug : bool.

Lemma iteration_error (loadNearest : bool) (st : DecodeState W) :
match decode_iteration L ndebug loadNearest st with
| Break st' | ReturnFalse st' => decode_error (av_strerror L) (errorMsg st')
| _ => True
end.
Proof.
unfold_body. exec.
all: try exact I; unfold decode_error; simp; bool_facts.
all: first [ internal_error
           | right; left; reflexivity
           | right; right; left; reflexivity
           | right; right; right; reflexivity ].
Qed.

Lemma decode_loop_error (loadNearest : bool) (fuel : nat) :
forall st st' : DecodeState W,
  hasPicture st = false ->
  decode_loop L ndebug loadNearest fuel st = Some (Return false, st') ->
  decode_error (av_strerror L) (errorMsg st').
Proof.
induction fuel as [| fuel IH]; intros st st' Hpic Hrun; cbn [decode_loop] in Hrun.
- discriminate Hrun.
- pose proof (iteration_error loadNearest st) as Herr.
  pose proof (iteration_outcome L ndebug loadNearest st) as Hout.
  destruct (decode_iteration L ndebug loadNearest st) as [st1 | st1 | st1 |].
  + destruct (hasPicture st1) eqn:E; [discriminate Hrun |].
    exact (IH _ _ E Hrun).
  + destruct Hout as (Hp & _). rewrite Hpic in Hp.
    unfold decode_finish in Hrun. rewrite Hp in Hrun.
    injection Hrun as _ <-. exact Herr.
  + injection Hrun as <-. exact Herr.
  + discriminate Hrun.
Qed.

(** X20: the errors of [decode].  The message a call that returns false
  leaves on a reader with a stream is the text of the library for the
  negative code of a failed seek, read or decode, after the words
  that name the operation, or one of three messages of the reader:
  no timing reference frame, no decode reference frame, decoding
  stall. *)
Theorem decode_error_messages (fuel : nat) (r : FFmpegFile) (w : W)
      (f : Z) (loadNearest : bool) (maxRetries : Z) (st : DecodeState W) :
_streams r <> [] ->
decode L ndebug fuel r w f loadNearest maxRetries = Some (Return false, st) ->
decode_error (av_strerror L) (getError (reader_after r st)).
Proof.
intros Hs Hrun. unfold getError, reader_after. cbn.
unfold decode in Hrun.
destruct (_streams r) as [| s rest]; [contradiction |].
destruct (clamp_frame s f loadNearest) as [f' |]; [| discriminate Hrun].
unfold decode_from in Hrun.
set (st0 := decode_init s w (_errorMsg r) (_invalidState r) f' maxRetries) in *.
destruct (negb (frame st0 =? _decodeNextFrameOut (stream st0))).
- unfold seekFrame, invalidate, setInternalError in Hrun.
  destruct (av_seek_frame L _ _ _) as [error w1].
  cbn -[Z.max] in Hrun.
  destruct (Z.ltb_spec error 0).
  + injection Hrun as <-. cbn. unfold decode_error. internal_error.
  + apply decode_loop_error in Hrun; [exact Hrun | reflexivity].
- apply decode_loop_error in Hrun; [exact Hrun | reflexivity].
Qed.

Lemma pts_seen_iteration (loadNearest : bool) (field : TimestampField) :
kept_by_iteration L ndebug loadNearest (@pts_seen W field).
Proof.
intros st Hkept.
remember (@pts_seen W field) as P eqn:HP.
unfold_body. exec.
all: subst P; try exact I; converter_facts;
  unfold pts_seen in *; simp; bool_facts.
all: destruct Hkept as (Hseen & Hsw & Hfd).
all: try (rewrite Hseen in *; discriminate).
all: repeat split; try congruence; try lia.
Qed.

Lemma pts_seen_finish (field : TimestampField) (st : DecodeState W) :
pts_seen field st -> pts_seen field (decode_finish st).
Proof.
unfold pts_seen, decode_finish. destruct (hasPicture st); cbn; auto.
Qed.

(** X21: a stream on which a PTS has been seen is never switched to
  DTS: a call on it ends with the timestamp field it began with, and
  with the mark that a PTS was seen still set. *)
Theorem decode_keeps_pts_once_seen (fuel : nat) (r : FFmpegFile) (w : W)
      (f : Z) (loadNearest : bool) (maxRetries : Z)
      (s : Stream) (rest : list Stream)
      (res : DecodeResult) (st : DecodeState W) :
_streams r = s :: rest ->
_ptsSeen s = true ->
decode L ndebug fuel r w f loadNearest maxRetries = Some (res, st) ->
count_switches (trace st) = O /\
_timestampField (stream st) = _timestampField s /\
_ptsSeen (stream st) = true.
Proof.
intros Hs Hseen Hrun. unfold decode in Hrun. rewrite Hs in Hrun.
destruct (clamp_frame s f loadNearest) as [f' |].
2: { injection Hrun as _ <-. cbn. auto. }
assert (H : pts_seen (_timestampField s) st).
{ refine (@decode_from_keeps W L ndebug loadNearest
            (@pts_seen W (_timestampField s))
            (@pts_seen_iteration loadNearest (_timestampField s))
            (@pts_seen_finish (_timestampField s))
            fuel _ st res _ _ Hrun).
  - unfold pts_seen. cbn. auto.
  - intros ok st1 E. apply seekFrame_fields in E.
    destruct E as (Es & _ & _ & _ & _ & _ & Et).
    unfold pts_seen. rewrite Es, Et. cbn. auto. }
destruct H as (H1 & H2 & H3). auto.
Qed.

Lemma began_with_iteration (loadNearest : bool) (first : list Event) :
kept_by_iteration L ndebug loadNearest (@began_with W first).
Proof.
intros st [later Hkept].
remember (@began_with W first) as P eqn:HP.
unfold_body. exec.
all: subst P; try exact I; unfold began_with; simp; rewrite Hkept.
all: eexists;
  lazymatch goal with
  | |- ?events = (_ ++ ?fi)%list =>
    let l := events_before events in exact (eq_refl (l ++ fi)%list)
  end.
Qed.

Lemma began_with_finish (first : list Event) (st : DecodeState W) :
began_with first st -> began_with first (decode_finish st).
Proof.
unfold began_with, decode_finish. destruct (hasPicture st); cbn; auto.
Qed.

(** X22: a call for a frame that is not the next one expected out of
  the decoder seeks before anything else, and to that frame (the
  frame asked for, or the nearest one with [loadNearest]): the first
  event of the call is this seek, whatever the call goes on to do. *)
Theorem decode_seeks_first (fuel : nat) (r : FFmpegFile) (w : W)
      (f f' : Z) (loadNearest : bool) (maxRetries : Z)
      (s : Stream) (rest : list Stream)
      (res : DecodeResult) (st : DecodeState W) :
_streams r = s :: rest ->
clamp_frame s f loadNearest = Some f' ->
f' <> _decodeNextFrameOut s ->
decode L ndebug fuel r w f loadNearest maxRetries = Some (res, st) ->
exists later : list Event, trace st = (later ++ [EvSeek f'])%list.
Proof.
intros Hs Hclamp Hout Hrun. unfold decode in Hrun. rewrite Hs, Hclamp in Hrun.
unfold decode_from in Hrun.
set (st0 := decode_init s w (_errorMsg r) (_invalidState r) f' maxRetries) in *.
assert (E : (frame st0 =? _decodeNextFrameOut (stream st0)) = false)
  by (apply Z.eqb_neq; exact Hout).
rewrite E in Hrun. cbn [negb] in Hrun.
match type of Hrun with
| match ?call with _ => _ end = _ => destruct call as [ok st1] eqn:Hseek
end.
apply seekFrame_fields in Hseek.
destruct Hseek as (_ & _ & _ & _ & _ & _ & Ht).
assert (H1 : began_with [EvSeek f'] st1) by (exists []; exact Ht).
destruct ok.
- exact (@decode_loop_keeps W L ndebug loadNearest (@began_with W [EvSeek f'])
           (@began_with_iteration loadNearest [EvSeek f'])
           (@began_with_finish [EvSeek f'])
           fuel st1 st res H1 Hrun).
- injection Hrun as _ <-. exact H1.
Qed.

End DecodeMore.

Lemma decode_error_messages_witness :
  exists st : DecodeState FileWorld.World,
    decode (FileWorld.libav Stalled.oracle) true 20 Stalled.reader FileWorld.start
           1 false 1 = Some (Return false, st) /\
    decode_error (FileWorld.strerror Stalled.oracle)
                 (getError (reader_after Stalled.reader st)).
Proof.
  assert (E : exists st : DecodeState FileWorld.World,
             decode (FileWorld.libav Stalled.oracle) true 20 Stalled.reader
                    FileWorld.start 1 false 1 = Some (Return false, st))
    by (eexists; vm_compute; reflexivity).
  destruct E as (st & E). exists st. split; [exact E |].
  assert (Hs : _streams Stalled.reader <> []) by discriminate.
  exact (@decode_error_messages _ (FileWorld.libav Stalled.oracle) true 20
           Stalled.reader FileWorld.start 1 false 1 st Hs E).
Defined.

Lemma decode_keeps_pts_once_seen_witness :
  exists st : DecodeState FileWorld.World,
    decode (FileWorld.libav Plain.oracle) true 1 Plain.playing Plain.after_first
           1 false 1 = Some (Return true, st) /\
    count_switches (trace st) = O /\
    _timestampField (stream st) = FieldPts.
Proof.
  assert (E : exists (st : DecodeState FileWorld.World) (s : Stream),
             decode (FileWorld.libav Plain.oracle) true 1 Plain.playing
                    Plain.after_first 1 false 1 = Some (Return true, st) /\
             _streams Plain.playing = [s] /\ _ptsSeen s = true /\
             _timestampField s = FieldPts)
    by (eexists; eexists; vm_compute; auto).
  destruct E as (st & s & E & Hs & Hseen & Hfield). exists st. split; [exact E |].
  destruct (@decode_keeps_pts_once_seen _ (FileWorld.libav Plain.oracle) true 1
              Plain.playing Plain.after_first 1 false 1 s [] (Return true) st
              Hs Hseen E) as (H1 & H2 & _).
  split; [exact H1 | congruence].
Defined.

Lemma decode_seeks_first_witness :
  exists (st : DecodeState FileWorld.World) (later : list Event),
    decode (FileWorld.libav Stalled.oracle) true 20 Stalled.reader FileWorld.start
           5 true 1 = Some (Return false, st) /\
    trace st = (later ++ [EvSeek 1])%list.
Proof.
  assert (E : exists st : DecodeState FileWorld.World,
             decode (FileWorld.libav Stalled.oracle) true 20 Stalled.reader
                    FileWorld.start 5 true 1 = Some (Return false, st))
    by (eexists; vm_compute; reflexivity).
  destruct E as (st & E).
  destruct (@decode_seeks_first _ (FileWorld.libav Stalled.oracle) true 20
              Stalled.reader FileWorld.start 5 1 true 1 Stalled.stream0 []
              (Return false) st eq_refl eq_refl) as (later & H).
  - cbn. discriminate.
  - exact E.
  - exists st, later. split; [exact E | exact H].
Defined.

(** ** Monochrome sources, and the assertion *)

(** X23: a source with fewer than three components whose codec reports
    no [bits_per_raw_sample] is registered with three components and
    with the bits per pixel divided by three as its bit depth; unless
    the format has 27 bits per pixel or more, the depth is at most 8
    and the output format is 8-bit RGB.  A one-component 16-bit format
    is thus read as 5-bit and converted to 8-bit. *)
Theorem open_stream_monochrome_depth (duration nproc i : Z)
        (cs : ContainerStream) (s : Stream) :
  open_stream duration nproc i cs = Some s ->
  cs_bits_per_raw_sample cs = 0 ->
  cs_nb_components cs < 3 ->
  _numberOfComponents s = 3 /\
  _bitDepth s = Z.quot (cs_bits_per_pixel cs) 3 /\
  (cs_bits_per_pixel cs < 27 -> _outputPixelFormat s = AV_PIX_FMT_RGB24).
Proof.
  unfold open_stream.
  destruct (cs_valid cs); [| discriminate].
  destruct (cs_is_video cs); [| discriminate].
  destruct (cs_decoder cs) as [capabilities |]; [| discriminate].
  cbn [negb].
  destruct (cs_open cs _ _ <? 0); [discriminate |].
  intros H Hraw Hcomp. injection H as <-.
  cbn -[getStreamStartTime getStreamFrames Z.quot].
  rewrite Hraw. cbn [Z.eqb].
  destruct (Z.ltb_spec (cs_nb_components cs) 3) as [_ | Hge]; [| lia].
  repeat split.
  intros Hbits. cbn [Z.eqb Pos.eqb].
  destruct (Z.ltb_spec 8 (Z.quot (cs_bits_per_pixel cs) 3)) as [Hdeep | _];
    [| reflexivity].
  exfalso.
  assert (H9 : 9 <= Z.quot (cs_bits_per_pixel cs) 3) by lia.
  destruct (Z.le_gt_cases 0 (cs_bits_per_pixel cs)) as [Hpos | Hneg].
  - pose proof (Z.quot_le_mono (cs_bits_per_pixel cs) 26 3 ltac:(lia) ltac:(lia)) as Hm.
    change (Z.quot 26 3) with 8 in Hm. lia.
  - pose proof (Z.quot_opp_l (cs_bits_per_pixel cs) 3 ltac:(lia)) as Ho.
    pose proof (Z.quot_pos (- cs_bits_per_pixel cs) 3 ltac:(lia) ltac:(lia)) as Hq.
    lia.
Qed.

Lemma open_stream_monochrome_depth_witness :
  exists s : Stream,
    open_stream 416667 4 0 gray_stream = Some s /\
    _numberOfComponents s = 3 /\ _bitDepth s = 2 /\
    _outputPixelFormat s = AV_PIX_FMT_RGB24.
Proof.
  assert (E : exists s : Stream, open_stream 416667 4 0 gray_stream = Some s)
    by (eexists; vm_compute; reflexivity).
  destruct E as (s & E). exists s. split; [exact E |].
  destruct (@open_stream_monochrome_depth 416667 4 0 gray_stream s E)
    as (Hc & Hd & Hf); [reflexivity | cbn; lia |].
  split; [exact Hc |]. split; [exact Hd |]. apply Hf. cbn. lia.
Defined.

Section DecodeAbort.

Variable W : Type.
Variable L : Libav W.
Variable ndebug : bool.

Lemma getConvertCtx_asserts (s : Stream) (src dst : AVPixelFormat)
    (sw sh dw dh : Z) (range : AVColorRange) (w : W) :
getConvertCtx L ndebug s src sw sh range dst dw dh w = AssertFailed ->
ndebug = false /\ _isYUV s = true /\
sws_setColorspaceDetails_code L w = -1 /\
(_resetConvertCtx s = true \/ _convertCtx s = None).
Proof.
unfold getConvertCtx.
repeat (cbn -[Z.pow];
        match goal with
        | |- context [match ?x with _ => _ end] =>
          let h := head_of x in destruct h eqn:?
        end);
  cbn -[Z.pow]; intros H; try discriminate H.
all: cbn in *; bool_facts; subst.
all: destruct (_resetConvertCtx s) eqn:Er; cbn in *.
all: repeat split; auto.
Qed.

Lemma iteration_abort (loadNearest : bool) (st : DecodeState W) :
match decode_iteration L ndebug loadNearest st with
| Aborted => ndebug = false /\ _isYUV (stream st) = true
| _ => True
end.
Proof.
unfold_body. exec.
all: try exact I.
all: match goal with
     | H : getConvertCtx _ _ _ _ _ _ _ _ _ _ _ = AssertFailed |- _ =>
       apply getConvertCtx_asserts in H; cbn in H;
       destruct H as (Hn & Hy & _)
     end.
all: split; assumption.
Qed.

Lemma decode_loop_abort (loadNearest : bool) (s : Stream) (fuel : nat) :
forall st st' : DecodeState W,
  _isYUV (stream st) = _isYUV s ->
  decode_loop L ndebug loadNearest fuel st = Some (Abort, st') ->
  ndebug = false /\ _isYUV s = true.
Proof.
induction fuel as [| fuel IH]; intros st st' Hy Hrun; cbn [decode_loop] in Hrun.
- discriminate Hrun.
- pose proof (@medium_kept_iteration W L ndebug loadNearest (stream st)
                (_frames (stream st)) st) as Hkept.
  pose proof (@iteration_abort loadNearest st) as Habort.
  destruct (decode_iteration L ndebug loadNearest st) as [st1 | st1 | st1 |].
  + destruct (hasPicture st1); [discriminate Hrun |].
    apply (IH st1 st'); [| exact Hrun].
    destruct Hkept as [Hm _].
    { split; [unfold same_medium; auto 20 | lia]. }
    unfold same_medium in Hm. decompose [and] Hm. congruence.
  + discriminate Hrun.
  + discriminate Hrun.
  + destruct Habort as [Hn Hyuv]. split; [exact Hn | congruence].
Qed.

(** X24: a call ends in the abort of the converter's assertion only
  when assertions are compiled in and the first stream is YUV: with
  [NDEBUG], or on a stream that is not YUV, [decode] never aborts. *)
Theorem decode_aborts_only_on_assert (fuel : nat) (r : FFmpegFile) (w : W)
      (f : Z) (loadNearest : bool) (maxRetries : Z)
      (s : Stream) (rest : list Stream) (st : DecodeState W) :
_streams r = s :: rest ->
decode L ndebug fuel r w f loadNearest maxRetries = Some (Abort, st) ->
ndebug = false /\ _isYUV s = true.
Proof.
intros Hs Hrun. unfold decode in Hrun. rewrite Hs in Hrun.
destruct (clamp_frame s f loadNearest) as [f' |]; [| discriminate Hrun].
unfold decode_from in Hrun.
set (st0 := decode_init s w (_errorMsg r) (_invalidState r) f' maxRetries) in *.
destruct (negb (frame st0 =? _decodeNextFrameOut (stream st0))).
- match type of Hrun with
  | match ?call with _ => _ end = _ => destruct call as [ok st1] eqn:Hseek
  end.
  apply seekFrame_fields in Hseek. destruct Hseek as (Es & _).
  destruct ok; [| discriminate Hrun].
  apply (@decode_loop_abort loadNearest s) in Hrun; [exact Hrun |].
  rewrite Es. reflexivity.
- apply (@decode_loop_abort loadNearest s) in Hrun; [exact Hrun | reflexivity].
Qed.

End DecodeAbort.

Lemma decode_aborts_only_on_assert_witness :
  exists st : DecodeState FileWorld.World,
    decode (FileWorld.libav Plain.refusing) false 20 Plain.yuv_reader
           FileWorld.start 0 false 1 = Some (Abort, st) /\
    _isYUV Plain.yuv_stream = true.
Proof.
  assert (E : exists st : DecodeState FileWorld.World,
             decode (FileWorld.libav Plain.refusing) false 20 Plain.yuv_reader
                    FileWorld.start 0 false 1 = Some (Abort, st))
    by (eexists; vm_compute; reflexivity).
  destruct E as (st & E). exists st. split; [exact E |].
  exact (proj2 (@decode_aborts_only_on_assert _ (FileWorld.libav Plain.refusing)
                  false 20 Plain.yuv_reader FileWorld.start 0 false 1
                  Plain.yuv_stream [] st eq_refl E)).
Defined.

(** ** A file that ends before its announced frame count *)

Ltac conjuncts :=
  repeat match goal with
         | |- _ /\ _ => split
         end.

Lemma plain_file_medium (orc : FileWorld.Oracle) (s s' : Stream) :
  plain_file orc s -> same_medium s s' ->
  _timestampField s' = _timestampField s ->
  plain_file orc s'.
Proof.
  intros (Hr & Hd & Hs & Hp) Hm Hf.
  repeat split; try apply Hr; try apply Hd; try apply Hs.
  all: destruct (Hp _ _ H) as (H1 & H2 & H3).
  - destruct Hm as (E & _). congruence.
  - rewrite Hf. exact H2.
  - rewrite Hf, (ptsToFrame_medium _ Hm). exact H3.
Qed.

Section TruncatedFile.

Variable orc : FileWorld.Oracle.
Variable s : Stream.
Variable ndebug : bool.

Hypothesis plain : plain_file orc s.
Hypothesis scaler : ndebug = true \/ forall t : nat, FileWorld.sws_code orc t <> -1.

(** A pass that reads the packet the world is at. *)
Lemma plain_pass (loadNearest : bool) (st : DecodeState FileWorld.World) :
(FileWorld.pos (world st) < List.length (FileWorld.file orc))%nat ->
same_medium s (stream st) ->
_timestampField (stream st) = _timestampField s ->
_decodeNextFrameIn (stream st) < _frames (stream st) ->
(lastSeekedFrame st < 0 /\
 _decodeNextFrameIn (stream st) = Z.of_nat (FileWorld.pos (world st)) /\
 _decodeNextFrameOut (stream st) = Z.of_nat (FileWorld.pos (world st))) \/
(Z.of_nat (FileWorld.pos (world st)) <= lastSeekedFrame st) ->
exists st1 : DecodeState FileWorld.World,
  decode_iteration (FileWorld.libav orc) ndebug loadNearest st = Next st1 /\
  hasPicture st1
  = (hasPicture st || (Z.of_nat (FileWorld.pos (world st)) =? frame st)) /\
  _decodeNextFrameIn (stream st1) = Z.of_nat (FileWorld.pos (world st)) + 1 /\
  _decodeNextFrameOut (stream st1) = Z.of_nat (FileWorld.pos (world st)) + 1 /\
  lastSeekedFrame st1 < 0 /\
  trace st1 = trace st /\ frame st1 = frame st /\
  same_medium s (stream st1) /\
  _frames (stream st1) = _frames (stream st) /\
  _timestampField (stream st1) = _timestampField s /\
  FileWorld.pos (world st1) = S (FileWorld.pos (world st)).
Proof.
destruct plain as (Hread & Hdec & _ & Hfile).
intros Hlt Hmed Hfield Hin Hsync.
destruct (nth_error (FileWorld.file orc) (FileWorld.pos (world st)))
  as [p |] eqn:Hp; [| apply nth_error_None in Hp; lia].
destruct (Hfile _ _ Hp) as (Hidx & Hts & Hland).
set (w1 := {| FileWorld.pos := S (FileWorld.pos (world st));
              FileWorld.held := FileWorld.held (world st);
              FileWorld.tick := S (FileWorld.tick (world st)) |}).
set (w2 := {| FileWorld.pos := S (FileWorld.pos (world st));
              FileWorld.held := FileWorld.held (world st);
              FileWorld.tick := S (S (FileWorld.tick (world st))) |}).
assert (Hr : av_read_frame (FileWorld.libav orc) (world st) = ((0, p), w1)).
{ cbn. unfold FileWorld.read.
  destruct (Z.ltb_spec (FileWorld.read_code orc (FileWorld.tick (world st))) 0)
    as [Hneg | _].
  - specialize (Hread (FileWorld.tick (world st))). lia.
  - rewrite Hp. reflexivity. }
assert (Hd : avcodec_decode_video2 (FileWorld.libav orc) (Some p) w1
             = ((fst (FileWorld.decoder orc (FileWorld.tick w1)), true), w2)).
{ cbn. unfold FileWorld.decode_video.
  destruct (Hdec (S (FileWorld.tick (world st)))) as [Hc Hw].
  cbn [w1 FileWorld.tick FileWorld.held FileWorld.pos].
  destruct (FileWorld.decoder orc (S (FileWorld.tick (world st))))
    as [code willing].
  cbn [fst snd] in *. subst willing.
  destruct (Z.ltb_spec code 0); [lia | reflexivity]. }
pose proof (@forward_pass _ (FileWorld.libav orc) ndebug loadNearest st
              0 (fst (FileWorld.decoder orc (FileWorld.tick w1))) p w1 w2
              (Z.of_nat (FileWorld.pos (world st)))
              (Z.of_nat (FileWorld.pos (world st)))) as Hpass.
assert (Hidx' : stream_index p = _idx (stream st))
  by (destruct Hmed as (E & _); congruence).
assert (Hs : (lastSeekedFrame st < 0 /\
              Z.of_nat (FileWorld.pos (world st)) = _decodeNextFrameIn (stream st) /\
              Z.of_nat (FileWorld.pos (world st)) = _decodeNextFrameOut (stream st)) \/
             (0 <= lastSeekedFrame st /\
              timestamp_of (_timestampField (stream st)) p <> AV_NOPTS_VALUE /\
              Z.of_nat (FileWorld.pos (world st))
              = to_int (ptsToFrame (stream st)
                          (timestamp_of (_timestampField (stream st)) p)) /\
              Z.of_nat (FileWorld.pos (world st))
              = Z.of_nat (FileWorld.pos (world st)) /\
              Z.of_nat (FileWorld.pos (world st)) <= lastSeekedFrame st)).
{ destruct Hsync as [(H1 & H2 & H3) | H1]; [left; auto |].
  right. rewrite Hfield, (ptsToFrame_medium _ Hmed), Hland.
  repeat split; try assumption; lia. }
assert (Hconv : ndebug = true \/
                sws_setColorspaceDetails_code (FileWorld.libav orc) w2 <> -1)
  by (destruct scaler as [E | E]; [left; exact E | right; apply E]).
specialize (Hpass Hin Hr (Z.le_refl 0) Hidx' Hs Hd
                  (proj1 (Hdec (FileWorld.tick w1))) Hconv).
destruct (decode_iteration (FileWorld.libav orc) ndebug loadNearest st)
  as [st1 | st1 | st1 |]; try contradiction.
destruct Hpass as (Hp1 & Hi1 & Ho1 & Hl1 & Ht1 & Hf1 & Hm1 & Hfr1 & Hfd1 & Hw1).
assert (Hw : world st1 = w2) by (destruct Hw1 as [E | (c & E)]; exact E).
exists st1. split; [reflexivity |].
rewrite Hw. cbn [w2 FileWorld.pos].
pose proof (same_medium_trans Hmed Hm1) as Hm.
conjuncts; try assumption; try congruence.
Qed.

(** Passes over frames before the one asked for: [S m] packets are read
  and decoded, and no picture is taken. *)
Lemma plain_skip (loadNearest : bool) (m : nat) :
forall st : DecodeState FileWorld.World,
  (FileWorld.pos (world st) + S m <= List.length (FileWorld.file orc))%nat ->
  Z.of_nat (FileWorld.pos (world st) + S m) <= frame st ->
  Z.of_nat (FileWorld.pos (world st) + S m) <= _frames (stream st) ->
  hasPicture st = false ->
  same_medium s (stream st) ->
  _timestampField (stream st) = _timestampField s ->
  _decodeNextFrameIn (stream st) < _frames (stream st) ->
  (lastSeekedFrame st < 0 /\
   _decodeNextFrameIn (stream st) = Z.of_nat (FileWorld.pos (world st)) /\
   _decodeNextFrameOut (stream st) = Z.of_nat (FileWorld.pos (world st))) \/
  (Z.of_nat (FileWorld.pos (world st)) <= lastSeekedFrame st) ->
  exists st' : DecodeState FileWorld.World,
    (forall fuel : nat,
        decode_loop (FileWorld.libav orc) ndebug loadNearest (S m + fuel) st
        = decode_loop (FileWorld.libav orc) ndebug loadNearest fuel st') /\
    FileWorld.pos (world st') = (FileWorld.pos (world st) + S m)%nat /\
    _decodeNextFrameIn (stream st') = Z.of_nat (FileWorld.pos (world st')) /\
    _decodeNextFrameOut (stream st') = Z.of_nat (FileWorld.pos (world st')) /\
    lastSeekedFrame st' < 0 /\ hasPicture st' = false /\
    trace st' = trace st /\ frame st' = frame st /\
    same_medium s (stream st') /\
    _frames (stream st') = _frames (stream st) /\
    _timestampField (stream st') = _timestampField s.
Proof.
induction m as [| m IH]; intros st Hfile Hfr Hframes Hpic Hmed Hfield Hin Hsync.
all: destruct (@plain_pass loadNearest st) as
    (st1 & Hit & Hp1 & Hi1 & Ho1 & Hl1 & Ht1 & Hf1 & Hm1 & Hfr1 & Hfd1 & Hw1);
  try assumption; try lia.
all: assert (E : (Z.of_nat (FileWorld.pos (world st)) =? frame st) = false)
  by (apply Z.eqb_neq; lia).
all: rewrite Hpic, E in Hp1; cbn [orb] in Hp1.
- exists st1. split.
  + intros fuel. cbn [Nat.add decode_loop]. rewrite Hit, Hp1. reflexivity.
  + rewrite Hw1. conjuncts; try assumption; try congruence; try lia.
- destruct (IH st1) as (st' & Hrun & Hpos' & Hi' & Ho' & Hl' & Hp' & Ht' & Hf' & Hm' & Hfr' & Hfd');
    try assumption; try (rewrite ?Hw1, ?Hf1, ?Hfr1, ?Hi1; lia).
  exists st'. split.
  + intros fuel. cbn [Nat.add decode_loop]. rewrite Hit, Hp1. apply Hrun.
  + rewrite Hi', Ho', Hpos', Hw1.
    conjuncts; try assumption; try congruence; try lia.
Qed.

(** The pass at the end of the container, with [loadNearest]: the frame
  count becomes the number of frames read, and the reader goes back
  for the last of them. *)
Lemma plain_end (st : DecodeState FileWorld.World) :
FileWorld.pos (world st) = List.length (FileWorld.file orc) ->
_decodeNextFrameIn (stream st) = Z.of_nat (List.length (FileWorld.file orc)) ->
_decodeNextFrameIn (stream st) < _frames (stream st) ->
in_int (Z.of_nat (List.length (FileWorld.file orc))) ->
exists (st1 : DecodeState FileWorld.World) (t : nat) (timestamp : Z),
  decode_iteration (FileWorld.libav orc) ndebug true st = Next st1 /\
  _frames (stream st1) = Z.of_nat (List.length (FileWorld.file orc)) /\
  frame st1 = Z.of_nat (List.length (FileWorld.file orc)) - 1 /\
  lastSeekedFrame st1 = Z.of_nat (List.length (FileWorld.file orc)) - 1 /\
  _decodeNextFrameIn (stream st1) = -1 /\
  trace st1 = EvSeek (Z.of_nat (List.length (FileWorld.file orc)) - 1) :: trace st /\
  hasPicture st1 = hasPicture st /\
  same_medium (stream st) (stream st1) /\
  _timestampField (stream st1) = _timestampField (stream st) /\
  FileWorld.pos (world st1) = snd (FileWorld.seek orc t timestamp).
Proof.
destruct plain as (Hread & _ & Hseek & _).
intros Hpos Hin Hlt Hint.
unfold decode_iteration.
rewrite (proj2 (Z.ltb_lt _ _) Hlt).
assert (Hr : av_read_frame (FileWorld.libav orc) (world st)
             = ((AVERROR_EOF, empty_packet),
                {| FileWorld.pos := FileWorld.pos (world st);
                   FileWorld.held := FileWorld.held (world st);
                   FileWorld.tick := S (FileWorld.tick (world st)) |})).
{ cbn. unfold FileWorld.read.
  destruct (Z.ltb_spec (FileWorld.read_code orc (FileWorld.tick (world st))) 0)
    as [Hneg | _].
  - specialize (Hread (FileWorld.tick (world st))). lia.
  - rewrite (proj2 (nth_error_None _ _)) by lia. reflexivity. }
rewrite Hr. rewrite to_int_AVERROR_EOF, Z.eqb_refl.
unfold seekFrame, invalidate.
cbn -[Z.pow Z.add Z.sub Z.mul to_int frameToPts].
assert (Hint1 : in_int (Z.of_nat (List.length (FileWorld.file orc)) - 1))
  by (unfold in_int, INT_MIN, INT_MAX in *; lia).
rewrite Hin, (to_int_id Hint), (to_int_id Hint1).
unfold FileWorld.seek_to. cbn -[Z.pow Z.add Z.sub Z.mul to_int frameToPts].
match goal with
| |- context [FileWorld.seek orc ?t ?ts] =>
  pose proof (Hseek t ts) as Hcode;
  destruct (FileWorld.seek orc t ts) as [code p] eqn:Es;
  cbn [fst snd] in Hcode;
  repeat (rewrite (proj2 (Z.ltb_ge code 0) Hcode);
          cbn -[Z.pow Z.add Z.sub Z.mul to_int frameToPts]);
  eexists; exists t, ts; split; [reflexivity |];
  rewrite Es; cbn -[Z.sub]
end.
unfold same_medium. cbn. auto 30.
Qed.

(** From a seek that has landed on a packet, with the frame asked for
  beyond the end of the container: the reader reads to the end, takes
  the number of frames read for the frame count, goes back to the
  last of them and returns its picture. *)
Lemma truncated_walk (st1 : DecodeState FileWorld.World) :
(forall (t : nat) (timestamp : Z),
    (snd (FileWorld.seek orc t timestamp) < List.length (FileWorld.file orc))%nat) ->
(FileWorld.pos (world st1) < List.length (FileWorld.file orc))%nat ->
Z.of_nat (List.length (FileWorld.file orc)) <= frame st1 ->
Z.of_nat (List.length (FileWorld.file orc)) < _frames (stream st1) ->
in_int (Z.of_nat (List.length (FileWorld.file orc))) ->
hasPicture st1 = false ->
same_medium s (stream st1) ->
_timestampField (stream st1) = _timestampField s ->
_decodeNextFrameIn (stream st1) < _frames (stream st1) ->
Z.of_nat (FileWorld.pos (world st1)) <= lastSeekedFrame st1 ->
exists (fuel : nat) (st' : DecodeState FileWorld.World),
  decode_loop (FileWorld.libav orc) ndebug true fuel st1 = Some (Return true, st') /\
  frame st' = Z.of_nat (List.length (FileWorld.file orc)) - 1 /\
  _frames (stream st') = Z.of_nat (List.length (FileWorld.file orc)) /\
  _decodeNextFrameOut (stream st') = Z.of_nat (List.length (FileWorld.file orc)) /\
  trace st'
  = EvSeek (Z.of_nat (List.length (FileWorld.file orc)) - 1) :: trace st1.
Proof.
intros Hlands Hpos Hfr Hframes Hint Hpic Hmed Hfield Hin Hseeking.
set (n := List.length (FileWorld.file orc)) in *.
(* to the end of the container *)
destruct (@plain_skip true (n - FileWorld.pos (world st1) - 1) st1)
  as (st2 & Hrun2 & Hpos2 & Hi2 & Ho2 & Hl2 & Hp2 & Ht2 & Hf2 & Hm2 & Hfr2 & Hfd2);
  try assumption; try lia.
assert (Hn2 : FileWorld.pos (world st2) = n) by lia.
(* the pass that meets the end *)
destruct (@plain_end st2)
  as (st3 & t & ts & Hit3 & Hfr3 & Hf3 & Hl3 & Hi3 & Ht3 & Hp3 & Hm3 & Hfd3 & Hpos3);
  try assumption; try (rewrite ?Hi2, ?Hn2, ?Hfr2; fold n; lia).
fold n in Hfr3, Hf3, Hl3, Ht3.
pose proof (Hlands t ts) as Hland3. rewrite <- Hpos3 in Hland3. fold n in Hland3.
(* back to the last frame *)
assert (Hplain3 : plain_file orc (stream st3)).
{ apply (@plain_file_medium orc s); [exact plain | | congruence].
  exact (same_medium_trans Hm2 Hm3). }
assert (Hrefl : same_medium (stream st3) (stream st3))
  by (unfold same_medium; auto 20).
destruct (@plain_walk orc (stream st3) ndebug true (Z.of_nat n - 1)
            Hplain3 scaler ltac:(lia) ltac:(fold n; lia)
            (Z.to_nat (Z.of_nat n - 1) - FileWorld.pos (world st3)) st3)
  as (st' & Hrun & Ht' & Ho' & Hi' & Hpos' & Hfr');
  try assumption; try reflexivity; try lia; try congruence.
exists (S (n - FileWorld.pos (world st1) - 1)
        + S (S (Z.to_nat (Z.of_nat n - 1) - FileWorld.pos (world st3))))%nat, st'.
split.
- rewrite Hrun2. cbn [decode_loop]. rewrite Hit3, Hp3, Hp2. exact Hrun.
- apply decode_loop_true in Hrun; [| congruence].
  destruct Hrun as (_ & Hout & _).
  conjuncts; try congruence; try lia.
Qed.

End TruncatedFile.

(** X25: a file that ends before its announced frame count.  On a
    well-formed file of [n] packets whose stream announces more than
    [n] frames, where every seek lands on a packet, a call with
    [loadNearest] for a frame from [n] on that the stream announces
    returns true with the last frame there is: the reader seeks to the
    frame asked for, reads to the end of the container, lowers the
    frame count to [n], seeks to frame [n - 1] and decodes it. *)
Theorem decode_truncated_file (orc : FileWorld.Oracle) (ndebug : bool)
        (r : FFmpegFile) (s : Stream) (rest : list Stream)
        (w : FileWorld.World) (f maxRetries : Z) :
  plain_file orc s ->
  ndebug = true \/ (forall t : nat, FileWorld.sws_code orc t <> -1) ->
  _streams r = s :: rest ->
  (forall (t : nat) (timestamp : Z),
      (snd (FileWorld.seek orc t timestamp) < List.length (FileWorld.file orc))%nat) ->
  Z.of_nat (List.length (FileWorld.file orc)) <= f < _frames s ->
  in_int (Z.of_nat (List.length (FileWorld.file orc))) ->
  _decodeNextFrameOut s <> f ->
  exists (fuel : nat) (st : DecodeState FileWorld.World),
    decode (FileWorld.libav orc) ndebug fuel r w f true maxRetries
    = Some (Return true, st) /\
    frame st = Z.of_nat (List.length (FileWorld.file orc)) - 1 /\
    _frames (stream st) = Z.of_nat (List.length (FileWorld.file orc)) /\
    _decodeNextFrameOut (stream st) = Z.of_nat (List.length (FileWorld.file orc)) /\
    trace st = [EvSeek (Z.of_nat (List.length (FileWorld.file orc)) - 1); EvSeek f].
Proof.
  intros Hplain Hscaler Hs Hlands Hf Hint Hout.
  assert (Hclamp : clamp_frame s f true = Some f).
  { unfold clamp_frame.
    destruct (Z.ltb_spec f 0); [lia |].
    destruct (Z.leb_spec (_frames s) f); [lia | reflexivity]. }
  set (st0 := decode_init s w (_errorMsg r) (_invalidState r) f maxRetries).
  assert (E : (frame st0 =? _decodeNextFrameOut (stream st0)) = false)
    by (apply Z.eqb_neq; cbn; congruence).
  pose proof (proj1 (proj2 (proj2 Hplain)) (FileWorld.tick w) (frameToPts s f))
    as Hseek.
  pose proof (Hlands (FileWorld.tick w) (frameToPts s f)) as Hland.
  destruct (FileWorld.seek orc (FileWorld.tick w) (frameToPts s f)) as [code p] eqn:Es.
  cbn [fst snd] in *.
  set (st1 := record (EvSeek f)
                (with_world {| FileWorld.pos := p; FileWorld.held := O;
                               FileWorld.tick := S (FileWorld.tick w) |}
                   (with_awaiting true
                      (with_stream (Upd.cursor (-1) (-1) 0 s)
                         (with_lastSeekedFrame f st0))))).
  destruct (@truncated_walk orc s ndebug Hplain Hscaler st1 Hlands)
    as (fuel & st & Hrun & Hfr & Hframes & Ho & Ht);
    try (cbn -[Z.max]; first [lia | reflexivity | assumption]).
  { unfold same_medium. cbn. auto 20. }
  exists fuel, st. split; [| conjuncts; assumption].
  unfold decode. rewrite Hs, Hclamp. unfold decode_from. fold st0.
  rewrite E. cbn [negb].
  subst st1 st0.
  unfold seekFrame, invalidate.
  cbn -[Z.max decode_loop frameToPts].
  unfold FileWorld.seek_to. cbn -[Z.max decode_loop frameToPts].
  change (frameToPts (Upd.cursor (-1) (-1) 0 s) f) with (frameToPts s f).
  rewrite Es.
  repeat (rewrite (proj2 (Z.ltb_ge code 0) Hseek);
          cbn -[Z.max decode_loop frameToPts]).
  exact Hrun.
Qed.

Lemma decode_truncated_file_witness :
  exists (fuel : nat) (st : DecodeState FileWorld.World),
    decode (FileWorld.libav Plain.oracle) false fuel Plain.overstated
           FileWorld.start 4 true 1
    = Some (Return true, st) /\
    frame st = 2 /\ _frames (stream st) = 3 /\
    _decodeNextFrameOut (stream st) = 3 /\
    trace st = [EvSeek 2; EvSeek 4].
Proof.
  assert (Hplain : plain_file Plain.oracle (Upd.frames 5 Stalled.stream0)).
  { unfold plain_file. split; [intros t; cbn; lia |].
    split; [intros t; cbn; split; [lia | reflexivity] |].
    split; [intros t ts; cbn; lia |].
    intros i p H.
    destruct i as [| [| [| i]]]; cbn in H.
    1-3: injection H as <-; vm_compute; repeat split; try reflexivity; discriminate.
    destruct i; discriminate H. }
  refine (@decode_truncated_file Plain.oracle false Plain.overstated
            (Upd.frames 5 Stalled.stream0) [] FileWorld.start 4 1
            Hplain _ eq_refl _ _ _ _).
  - right. intros t. cbn. discriminate.
  - intros t ts. cbn. lia.
  - cbn. lia.
  - vm_compute. split; discriminate.
  - cbn. discriminate.
Defined.
